(** * Sub-workflow handler of flytepropeller

    A shallow embedding of
    [pkg/controller/nodes/subworkflow/subworkflow.go]: the handler that
    starts a nested workflow, drives it through the recursive node
    executor, folds the aggregate result into a transition of the
    enclosing node, copies outputs, runs the failure node and forwards
    aborts.

    The handler is a client of several interfaces (the node executor, the
    node execution context, the data store, the node lookup).  Each
    interface is a record whose fields give what a call returns during the
    tick; every call the handler makes is appended to a trace, and the
    status subtree of the enclosing node is an explicit, shared, mutable
    store.  A nil-pointer dereference is a [Panic]. *)

From Stdlib Require Import String List ZArith NArith Lia DecimalString.
From stdpp Require Import base option gmap strings list fin_maps.

Open Scope string_scope.
Open Scope list_scope.

(** ** Go values *)

(** A Go [error] value: what [fmt.Errorf] builds, read back by [Error()]. *)
Inductive error : Type :=
| fmt_Errorf (msg : string).

Definition error_Error (e : error) : string :=
  match e with fmt_Errorf msg => msg end.

(** [strconv.Itoa] on a non-negative integer. *)
Definition strconv_Itoa (n : N) : string :=
  NilEmpty.string_of_uint (N.to_uint n).

(** ** flyteidl [core] *)
Module core.

Inductive ExecutionError_ErrorKind : Type :=
| ExecutionError_UNKNOWN
| ExecutionError_USER
| ExecutionError_SYSTEM.

Record ExecutionError : Type := {
  Code : string;
  Message : string;
  Kind : ExecutionError_ErrorKind
}.

(** The handler never inspects literals: a literal map is carried as
    named, opaque payloads. *)
Definition LiteralMap : Type := list (string * string).

End core.

(** ** flytestdlib [storage] *)
Module storage.

Definition DataReference : Type := string.

Record Metadata : Type := {
  Exists : bool
}.

End storage.

(** ** [errors]: the error codes the handler attaches

    The handler names two codes of package [errors]; each is taken to be
    the string of its name. *)
Module errors.

Definition ErrorCode : Type := string.
Definition RuntimeExecutionError : ErrorCode := "RuntimeExecutionError".
Definition SubWorkflowExecutionFailed : ErrorCode := "SubWorkflowExecutionFailed".

End errors.

(** ** [v1alpha1]: workflow definitions and persisted node status *)
Module v1alpha1.

Definition NodeID : Type := string.
Definition WorkflowID : Type := string.

(** Modelled from the spec: the phases of a [WorkflowNodeState]
    ("Running/Failing/Succeeded/Failed from the enclosing node's
    perspective"); the declaration of [WorkflowNodePhase] in package
    [v1alpha1] is missing, the handler names only
    [WorkflowNodePhaseFailing]. *)
Inductive WorkflowNodePhase : Type :=
| WorkflowNodePhaseRunning
| WorkflowNodePhaseFailing
| WorkflowNodePhaseSucceeded
| WorkflowNodePhaseFailed.

(** A node of the graph.  [GetSubWorkflowRef] stands for
    [node.GetWorkflowNode().GetSubWorkflowRef()], a pointer. *)
Record ExecutableNode : Type := {
  GetNodeID : NodeID;
  GetSubWorkflowRef : option WorkflowID
}.

Record ExecutableSubWorkflow : Type := {
  GetID : WorkflowID;
  StartNode : ExecutableNode;
  GetOnFailureNode : option ExecutableNode;
  GetOutputBindings : list (string * string);
  GetNodes : list NodeID
}.

(** The persisted record of one node. *)
Record NodeStatus : Type := {
  GetUniqueNodeID : option NodeID;
  GetUniqueParentNodeID : option NodeID;
  GetParentAttempts : N;
  GetOutputDir : storage.DataReference
}.

(** Modelled from the spec: the status subtree of the enclosing node, "one
    NodeStatus subtree per (enclosing node, sub-workflow) pair", whose
    child entries are "created lazily" and whose lookup "fails with a
    lookup error if a child node's status cannot be resolved".  The Go
    type behind [nCtx.NodeStatus()], in package [v1alpha1], is missing. *)
Record ExecutableNodeStatus : Type := {
  Self : NodeStatus;
  SubNodeStatus : gmap string NodeStatus;
  Unresolvable : gmap string error
}.

Definition emptyNodeStatus : NodeStatus :=
  {| GetUniqueNodeID := None; GetUniqueParentNodeID := None;
     GetParentAttempts := 0%N; GetOutputDir := "" |}.

Definition withSubNodeStatus (st : ExecutableNodeStatus)
    (m : gmap string NodeStatus) : ExecutableNodeStatus :=
  {| Self := Self st; SubNodeStatus := m; Unresolvable := Unresolvable st |}.

(** [status.GetNodeExecutionStatus(ctx, id)]: the entry of child [id],
    created on first use.  The Go method hands out a pointer into the
    subtree; here the entry stays in the subtree and the setters below
    address it by its key. *)
Definition GetNodeExecutionStatus (id : NodeID) (st : ExecutableNodeStatus)
    : (option NodeStatus * option error) * ExecutableNodeStatus :=
  match Unresolvable st !! id with
  | Some e => ((None, Some e), st)
  | None =>
      match SubNodeStatus st !! id with
      | Some c => ((Some c, None), st)
      | None =>
          ((Some emptyNodeStatus, None),
           withSubNodeStatus st (<[id := emptyNodeStatus]> (SubNodeStatus st)))
      end
  end.

Definition SetUniqueParentNodeID (id : NodeID) (v : option NodeID)
    (st : ExecutableNodeStatus) : ExecutableNodeStatus :=
  withSubNodeStatus st
    (alter (fun c => {| GetUniqueNodeID := GetUniqueNodeID c;
                        GetUniqueParentNodeID := v;
                        GetParentAttempts := GetParentAttempts c;
                        GetOutputDir := GetOutputDir c |}) id (SubNodeStatus st)).

Definition SetUniqueNodeID (id : NodeID) (v : option NodeID)
    (st : ExecutableNodeStatus) : ExecutableNodeStatus :=
  withSubNodeStatus st
    (alter (fun c => {| GetUniqueNodeID := v;
                        GetUniqueParentNodeID := GetUniqueParentNodeID c;
                        GetParentAttempts := GetParentAttempts c;
                        GetOutputDir := GetOutputDir c |}) id (SubNodeStatus st)).

Definition SetParentAttempts (id : NodeID) (v : N)
    (st : ExecutableNodeStatus) : ExecutableNodeStatus :=
  withSubNodeStatus st
    (alter (fun c => {| GetUniqueNodeID := GetUniqueNodeID c;
                        GetUniqueParentNodeID := GetUniqueParentNodeID c;
                        GetParentAttempts := v;
                        GetOutputDir := GetOutputDir c |}) id (SubNodeStatus st)).

End v1alpha1.

(** ** [executors]: the recursive node executor and the node lookup *)
Module executors.

(** Modelled from the spec: the aggregate execution state is "classified
    into exactly one of: Failed, Complete, PartiallyComplete, Running";
    the handler names [NodePhaseRunning] and tests the other three through
    [HasFailed], [IsComplete] and [PartiallyComplete]; the declarations of
    [NodePhase], [NodeStatus] and these methods in package [executors] are
    missing. *)
Inductive NodePhase : Type :=
| NodePhaseRunning
| NodePhasePartiallyComplete
| NodePhaseComplete
| NodePhaseFailed.

Record NodeStatus : Type := {
  GetNodePhase : NodePhase;
  Err : option core.ExecutionError
}.

Definition HasFailed (n : NodeStatus) : bool :=
  match GetNodePhase n with NodePhaseFailed => true | _ => false end.

Definition IsComplete (n : NodeStatus) : bool :=
  match GetNodePhase n with NodePhaseComplete => true | _ => false end.

Definition PartiallyComplete (n : NodeStatus) : bool :=
  match GetNodePhase n with NodePhasePartiallyComplete => true | _ => false end.

Definition IsRunning (n : NodeStatus) : bool :=
  match GetNodePhase n with NodePhaseRunning => true | _ => false end.

(** The [NodeLookup] interface: a view of a graph over a status store. *)
Record NodeLookup : Type := {
  Graph : v1alpha1.ExecutableSubWorkflow;
  LookupNodeExecutionStatus :
    v1alpha1.NodeID -> v1alpha1.ExecutableNodeStatus ->
    (option v1alpha1.NodeStatus * option error) * v1alpha1.ExecutableNodeStatus
}.

(** Modelled from the spec: [NewNodeLookup], whose declaration in package
    [executors] is missing, binds "a SubWorkflow's node definitions to
    their corresponding NodeStatus entries"; its lookups are those of the
    status it was built over. *)
Definition NewNodeLookup (g : v1alpha1.ExecutableSubWorkflow) : NodeLookup :=
  {| Graph := g; LookupNodeExecutionStatus := v1alpha1.GetNodeExecutionStatus |}.

(** The [Node] executor interface, by what each call returns. *)
Record Node : Type := {
  SetInputsForStartNode :
    v1alpha1.ExecutableSubWorkflow -> NodeLookup -> option core.LiteralMap ->
    NodeStatus * option error;
  RecursiveNodeHandler :
    v1alpha1.ExecutableSubWorkflow -> NodeLookup -> v1alpha1.ExecutableNode ->
    NodeStatus * option error;
  AbortHandler :
    v1alpha1.ExecutableSubWorkflow -> NodeLookup -> v1alpha1.ExecutableNode ->
    string -> option error
}.

End executors.

(** ** [handler]: transitions and the node execution context *)
Module handler.

Inductive TransitionType : Type :=
| TransitionTypeEphemeral
| TransitionTypeBarrier.

(** Modelled from the spec: a transition "carries either an ephemeral
    phase change (Running/Failing/Failed/Succeeded with associated
    error/output) or signals unknown"; the declarations of [Transition],
    [PhaseInfo] and their constructors in package [handler] are missing,
    the ones below are those the handler calls. *)
Inductive EPhase : Type :=
| EPhaseUndefined
| EPhaseRunning
| EPhaseFailing
| EPhaseFailed
| EPhaseSuccess.

Record OutputInfo : Type := {
  OutputURI : storage.DataReference
}.

Record ExecutionInfo : Type := {
  GetOutputInfo : option OutputInfo
}.

Record PhaseInfo : Type := {
  GetPhase : EPhase;
  GetErr : option core.ExecutionError;
  GetInfo : option ExecutionInfo
}.

Record Transition : Type := {
  Type_ : TransitionType;
  Info : PhaseInfo
}.

Definition DoTransition (ttype : TransitionType) (i : PhaseInfo) : Transition :=
  {| Type_ := ttype; Info := i |}.

Definition PhaseInfoUndefined : PhaseInfo :=
  {| GetPhase := EPhaseUndefined; GetErr := None; GetInfo := None |}.

Definition UnknownTransition : Transition :=
  DoTransition TransitionTypeEphemeral PhaseInfoUndefined.

Definition PhaseInfoRunning (i : option ExecutionInfo) : PhaseInfo :=
  {| GetPhase := EPhaseRunning; GetErr := None; GetInfo := i |}.

Definition PhaseInfoSuccess (i : option ExecutionInfo) : PhaseInfo :=
  {| GetPhase := EPhaseSuccess; GetErr := None; GetInfo := i |}.

Definition PhaseInfoFailureErr (e : option core.ExecutionError)
    (i : option ExecutionInfo) : PhaseInfo :=
  {| GetPhase := EPhaseFailed; GetErr := e; GetInfo := i |}.

Definition PhaseInfoFailingErr (e : option core.ExecutionError)
    (i : option ExecutionInfo) : PhaseInfo :=
  {| GetPhase := EPhaseFailing; GetErr := e; GetInfo := i |}.

Definition PhaseInfoFailure (kind : core.ExecutionError_ErrorKind)
    (code : errors.ErrorCode) (reason : string)
    (i : option ExecutionInfo) : PhaseInfo :=
  PhaseInfoFailureErr
    (Some {| core.Code := code; core.Message := reason; core.Kind := kind |}) i.

Record WorkflowNodeState : Type := {
  Phase : v1alpha1.WorkflowNodePhase;
  Error : option core.ExecutionError
}.

(** The [NodeExecutionContext] interface, by what each call returns.  The
    status of the enclosing node ([NodeStatus()]) is not here: it is the
    mutable store of the [World] below. *)
Record NodeExecutionContext : Type := {
  Node : v1alpha1.ExecutableNode;
  FindSubWorkflow : v1alpha1.WorkflowID -> option v1alpha1.ExecutableSubWorkflow;
  InputReader_Get : option core.LiteralMap * option error;
  PutWorkflowNodeState : WorkflowNodeState -> option error;
  GetWorkflowNodeState : WorkflowNodeState;
  DataStore_Head : storage.DataReference -> storage.Metadata * option error;
  DataStore_CopyRaw : storage.DataReference -> storage.DataReference -> option error;
  EnqueueOwnerFunc : option error;
  CurrentAttempt : N
}.

End handler.

(** ** The world of one reconciliation tick *)

(** The calls the handler makes on its collaborators, with their
    arguments. *)
Inductive Call : Type :=
| CallInputReaderGet
| CallSetInputsForStartNode (sw : v1alpha1.WorkflowID) (inputs : option core.LiteralMap)
| CallRecursiveNodeHandler (sw : v1alpha1.WorkflowID) (start : v1alpha1.NodeID)
| CallAbortHandler (sw : v1alpha1.WorkflowID) (start : v1alpha1.NodeID) (reason : string)
| CallPutWorkflowNodeState (s : handler.WorkflowNodeState)
| CallGetWorkflowNodeState
| CallLookupNodeExecutionStatus (id : v1alpha1.NodeID)
| CallHead (ref : storage.DataReference)
| CallCopyRaw (src dst : storage.DataReference)
| CallEnqueueOwner.

Definition isEnqueueOwner (c : Call) : bool :=
  match c with CallEnqueueOwner => true | _ => false end.

Definition isAbortHandler (c : Call) : bool :=
  match c with CallAbortHandler _ _ _ => true | _ => false end.

Definition isCopyRaw (c : Call) : bool :=
  match c with CallCopyRaw _ _ => true | _ => false end.

Definition isHead (c : Call) : bool :=
  match c with CallHead _ => true | _ => false end.

Definition isLookup (c : Call) : bool :=
  match c with CallLookupNodeExecutionStatus _ => true | _ => false end.

Definition isInputSeeding (c : Call) : bool :=
  match c with
  | CallInputReaderGet | CallSetInputsForStartNode _ _ => true
  | _ => false
  end.

Definition isRecursiveNodeHandler (c : Call) : bool :=
  match c with CallRecursiveNodeHandler _ _ => true | _ => false end.

Definition isPutWorkflowNodeState (c : Call) : bool :=
  match c with CallPutWorkflowNodeState _ => true | _ => false end.

Definition isSetInputsForStartNode (c : Call) : bool :=
  match c with CallSetInputsForStartNode _ _ => true | _ => false end.

(** One call, or none. *)
Definition once (b : bool) : nat := if b then 1%nat else 0%nat.

(** How often a kind of call occurs in a trace. *)
Definition calls (f : Call -> bool) (t : list Call) : nat :=
  length (filter (fun c => f c = true) t).

(** The calls of a trace up to the first one of kind [f], that one left
    out. *)
Fixpoint before (f : Call -> bool) (t : list Call) : list Call :=
  match t with
  | [] => []
  | c :: t' => if f c then [] else c :: before f t'
  end.

(** The status subtree of the enclosing node ([nCtx.NodeStatus()], shared
    with every lookup built over it) and the trace of calls so far. *)
Record World : Type := {
  wStatus : v1alpha1.ExecutableNodeStatus;
  wTrace : list Call
}.

(** A Go call either returns or panics. *)
Inductive Res (A : Type) : Type :=
| Val (a : A)
| Panic.

Arguments Val {A} a.
Arguments Panic {A}.

Definition M (A : Type) : Type := World -> Res A * World.

Definition ret {A : Type} (a : A) : M A := fun w => (Val a, w).

Definition bind {A B : Type} (m : M A) (k : A -> M B) : M B :=
  fun w =>
    match m w with
    | (Val a, w') => k a w'
    | (Panic, w') => (Panic, w')
    end.

Declare Scope go_scope.
Delimit Scope go_scope with go.

Notation "'let*' x ':=' c 'in' k" := (bind c (fun x => k))
  (at level 10, x name, c at level 100, k at level 200) : go_scope.

Notation "'let*' ' p ':=' c 'in' k" := (bind c (fun x => let 'p := x in k))
  (at level 10, p pattern, c at level 100, k at level 200) : go_scope.

Open Scope go_scope.

(** Dereferencing a pointer: a nil pointer panics. *)
Definition deref {A : Type} (p : option A) : M A :=
  match p with
  | Some a => ret a
  | None => fun w => (Panic, w)
  end.

(** A call on a collaborator: recorded, then its result returned. *)
Definition call {A : Type} (c : Call) (r : A) : M A :=
  fun w => (Val r, {| wStatus := wStatus w; wTrace := wTrace w ++ [c] |}).

(** A method of the enclosing node's status. *)
Definition onStatus {A : Type}
    (f : v1alpha1.ExecutableNodeStatus -> A * v1alpha1.ExecutableNodeStatus) : M A :=
  fun w =>
    let '(a, st) := f (wStatus w) in
    (Val a, {| wStatus := st; wTrace := wTrace w |}).

Definition setStatus
    (f : v1alpha1.ExecutableNodeStatus -> v1alpha1.ExecutableNodeStatus) : M unit :=
  onStatus (fun st => (tt, f st)).

Definition getStatus : M v1alpha1.ExecutableNodeStatus :=
  onStatus (fun st => (st, st)).

(** A lookup through a [NodeLookup]: recorded, and run on the shared
    status. *)
Definition nl_GetNodeExecutionStatus (nl : executors.NodeLookup)
    (id : v1alpha1.NodeID) : M (option v1alpha1.NodeStatus * option error) :=
  let* _ := call (CallLookupNodeExecutionStatus id) tt in
  onStatus (executors.LookupNodeExecutionStatus nl id).

(** What a run returns, and the calls it makes (the trace it leaves, less
    the trace it started from). *)
Definition result {A : Type} (m : M A) (w : World) : Res A := fst (m w).

Definition made {A : Type} (m : M A) (w : World) : list Call :=
  drop (length (wTrace w)) (wTrace (snd (m w))).

Definition statusAfter {A : Type} (m : M A) (w : World) : v1alpha1.ExecutableNodeStatus :=
  wStatus (snd (m w)).

(** [subworkflowHandler]: a struct around the node executor. *)
Record subworkflowHandler : Type := {
  nodeExecutor : executors.Node
}.

Definition newSubworkflowHandler (nodeExecutor : executors.Node) : subworkflowHandler :=
  {| nodeExecutor := nodeExecutor |}.

(** ** Scenarios

    The sub-workflow of the scenarios: graph [start -> A -> end], output
    binding [out = A.result], failure node [F]; the enclosing node [n0]
    has inputs [{x: 5}].  Node [A] fails with [E1]. *)
Module scenario.

(** Stand-ins, for the scenarios only, for the constant and the functions
    of [v1alpha1] that the handler takes as given. *)
Definition EndNodeID : v1alpha1.NodeID := "end-node".

Definition GetOutputsFile (dir : storage.DataReference) : storage.DataReference :=
  dir +:+ "/outputs.pb".

Definition ComputeUniqueIDForNode (n parent attempt : string)
    : v1alpha1.NodeID * option error :=
  (parent +:+ "-" +:+ attempt +:+ "-" +:+ n, None).

Definition startNode : v1alpha1.ExecutableNode :=
  {| v1alpha1.GetNodeID := "start-node"; v1alpha1.GetSubWorkflowRef := None |}.

Definition nodeF : v1alpha1.ExecutableNode :=
  {| v1alpha1.GetNodeID := "F"; v1alpha1.GetSubWorkflowRef := None |}.

Definition enclosing : v1alpha1.ExecutableNode :=
  {| v1alpha1.GetNodeID := "n0"; v1alpha1.GetSubWorkflowRef := Some "sub" |}.

Definition sub (onFailure : option v1alpha1.ExecutableNode)
    (bindings : list (string * string)) : v1alpha1.ExecutableSubWorkflow :=
  {| v1alpha1.GetID := "sub";
     v1alpha1.StartNode := startNode;
     v1alpha1.GetOnFailureNode := onFailure;
     v1alpha1.GetOutputBindings := bindings;
     v1alpha1.GetNodes := ["start-node"; "A"; "end-node"] |}.

Definition outBinding : list (string * string) := [("out", "A.result")].

Definition subWithF : v1alpha1.ExecutableSubWorkflow := sub (Some nodeF) outBinding.
Definition subPlain : v1alpha1.ExecutableSubWorkflow := sub None outBinding.
Definition subNoOutputs : v1alpha1.ExecutableSubWorkflow := sub None [].

Definition E1 : core.ExecutionError :=
  {| core.Code := "AFailed"; core.Message := "node A failed";
     core.Kind := core.ExecutionError_USER |}.

Definition E2 : core.ExecutionError :=
  {| core.Code := "FFailed"; core.Message := "node F failed";
     core.Kind := core.ExecutionError_USER |}.

Definition storeErr : error := fmt_Errorf "store unavailable".
Definition enqueueErr : error := fmt_Errorf "queue closed".
Definition putErr : error := fmt_Errorf "state not written".
Definition abortErr : error := fmt_Errorf "abort failed".

Definition stateOf (phase : executors.NodePhase) (e : option core.ExecutionError)
    : executors.NodeStatus :=
  {| executors.GetNodePhase := phase; executors.Err := e |}.

(** An executor whose recursive pass returns [state], whose start node
    accepts the inputs and whose abort returns [aborted]. *)
Definition executor (state : executors.NodeStatus) (aborted : option error)
    : subworkflowHandler :=
  newSubworkflowHandler
    {| executors.SetInputsForStartNode := fun _ _ _ =>
         (stateOf executors.NodePhaseComplete None, None);
       executors.RecursiveNodeHandler := fun _ _ _ => (state, None);
       executors.AbortHandler := fun _ _ _ _ => aborted |}.

(** The context of the enclosing node: the sub-workflows it can find, what
    the state writer, the head of the store and the re-enqueue callback
    return. *)
Definition context (found : option v1alpha1.ExecutableSubWorkflow)
    (put : option error) (head : storage.Metadata * option error)
    (enqueue : option error) : handler.NodeExecutionContext :=
  {| handler.Node := enclosing;
     handler.FindSubWorkflow := fun id => if String.eqb id "sub" then found else None;
     handler.InputReader_Get := (Some [("x", "5")], None);
     handler.PutWorkflowNodeState := fun _ => put;
     handler.GetWorkflowNodeState :=
       {| handler.Phase := v1alpha1.WorkflowNodePhaseFailing;
          handler.Error := Some E1 |};
     handler.DataStore_Head := fun _ => head;
     handler.DataStore_CopyRaw := fun _ _ => None;
     handler.EnqueueOwnerFunc := enqueue;
     handler.CurrentAttempt := 1%N |}.

Definition present : storage.Metadata * option error :=
  ({| storage.Exists := true |}, None).

Definition absent : storage.Metadata * option error :=
  ({| storage.Exists := false |}, None).

Definition unreachable : storage.Metadata * option error :=
  ({| storage.Exists := false |}, Some storeErr).

(** The status of the enclosing node at the start of the tick: the end
    node has its output directory, nothing has been called yet. *)
Definition status0 : v1alpha1.ExecutableNodeStatus :=
  {| v1alpha1.Self :=
       {| v1alpha1.GetUniqueNodeID := Some "n0";
          v1alpha1.GetUniqueParentNodeID := None;
          v1alpha1.GetParentAttempts := 0%N;
          v1alpha1.GetOutputDir := "s3://bucket/n0" |};
     v1alpha1.SubNodeStatus :=
       {[ "end-node" :=
            {| v1alpha1.GetUniqueNodeID := None;
               v1alpha1.GetUniqueParentNodeID := None;
               v1alpha1.GetParentAttempts := 0%N;
               v1alpha1.GetOutputDir := "s3://bucket/n0/end" |} ]};
     v1alpha1.Unresolvable := ∅ |}.

Definition world0 : World := {| wStatus := status0; wTrace := [] |}.

End scenario.

(** ** The [webhook] command: the mutating webhook configuration

    [createMutationConfig] and [deleteMutationConfig] of package [cmd]
    register and remove the configuration that makes the API server call
    the pod webhook.  The Kubernetes client is a record giving what each
    request returns; the requests made are collected in a trace. *)
Module k8s.

Record OwnerReference : Type := {
  Kind : string;
  Name : string;
  APIVersion : string;
  UID : string
}.

Record Pod : Type := {
  PodName : string;
  PodUID : string
}.

Inductive OperationType : Type :=
| Create
| Update
| Delete
| Connect.

Inductive FailurePolicyType : Type :=
| Ignore
| Fail.

Inductive SideEffectClass : Type :=
| SideEffectClassUnknown
| SideEffectClassNone
| SideEffectClassSome
| SideEffectClassNoneOnDryRun.

Record ServiceReference : Type := {
  ServiceNamespace : string;
  ServiceName : string;
  Path : option string
}.

Record WebhookClientConfig : Type := {
  CABundle : list Byte.byte;
  Service : option ServiceReference
}.

Record RuleWithOperations : Type := {
  Operations : list OperationType;
  APIGroups : list string;
  APIVersions : list string;
  Resources : list string
}.

Record MutatingWebhook : Type := {
  WebhookName : string;
  ClientConfig : WebhookClientConfig;
  Rules : list RuleWithOperations;
  FailurePolicy : option FailurePolicyType;
  SideEffects : option SideEffectClass;
  AdmissionReviewVersions : list string
}.

Record MutatingWebhookConfiguration : Type := {
  ObjectName : string;
  ObjectNamespace : string;
  OwnerReferences : list OwnerReference;
  Webhooks : list MutatingWebhook
}.

(** The requests on the API server, with their arguments. *)
Inductive Request : Type :=
| PodsGet (namespace name : string)
| ConfigCreate (c : MutatingWebhookConfiguration)
| ConfigGet (name : string)
| ConfigUpdate (c : MutatingWebhookConfiguration)
| ConfigDelete (name : string).

Definition isConfigRequest (r : Request) : bool :=
  match r with PodsGet _ _ => false | _ => true end.

Definition isConfigUpdate (r : Request) : bool :=
  match r with ConfigUpdate _ => true | _ => false end.

(** The client ([kubernetes.Interface]), by what each request returns. *)
Record Interface : Type := {
  Pods_Get : string -> string -> Pod * option error;
  Configurations_Create : MutatingWebhookConfiguration -> option error;
  Configurations_Get : string -> MutatingWebhookConfiguration * option error;
  Configurations_Update : MutatingWebhookConfiguration -> option error;
  Configurations_Delete : string -> option error
}.

End k8s.

Module cmd.

(** The part of [config.Config] the two functions read. *)
Record WebhookConfig : Type := {
  Name : string;
  Namespace : string
}.

Record Config : Type := {
  Webhook : WebhookConfig
}.

(** A computation that makes requests: its value and the requests made,
    in order. *)
Definition K (A : Type) : Type := A * list k8s.Request.

Definition retK {A : Type} (a : A) : K A := (a, []).

Definition bindK {A B : Type} (m : K A) (k : A -> K B) : K B :=
  let '(a, t) := m in
  let '(b, t') := k a in
  (b, t ++ t').

Definition request {A : Type} (r : k8s.Request) (a : A) : K A := (a, [r]).

Section webhook.

(** Names the functions take from other packages: the name of the webhook
    ([webhookName]), the kind of a pod ([flytek8s.PodKind]), the version
    of the core group ([corev1.SchemeGroupVersion.Version]) and the path
    the webhook serves ([webhook.GetPodMutatePath()]). *)
Variable webhookName : string.
Variable PodKind : string.
Variable SchemeGroupVersion_Version : string.
Variable GetPodMutatePath : string.

(** The environment of the process ([os.LookupEnv]) and the result of
    [getKubeConfig]: the client, or an error. *)
Variable environ : gmap string string.
Variable getKubeConfig : Config -> k8s.Interface * option error.

(** [deleteMutationConfig]. *)
Definition deleteMutationConfig (cfg : Config) : K (option error) :=
  let '(kubeClient, err) := getKubeConfig cfg in
  match err with
  | Some e =>
      retK (Some (fmt_Errorf ("failed to create kubeclient. Error: " +:+ error_Error e)))
  | None =>
      request (k8s.ConfigDelete (Name (Webhook cfg)))
        (k8s.Configurations_Delete kubeClient (Name (Webhook cfg)))
  end.

(** The configuration [createMutationConfig] builds, before the namespace
    is filled in. *)
Definition mutateConfigFor (cfg : Config) (caCert : list Byte.byte)
    (webhookObjectName : string) (ownerRef : list k8s.OwnerReference)
    : k8s.MutatingWebhookConfiguration :=
  let path := GetPodMutatePath in
  let fail := k8s.Fail in
  let sideEffects := k8s.SideEffectClassNoneOnDryRun in
  {| k8s.ObjectName := webhookObjectName;
     k8s.ObjectNamespace := "";
     k8s.OwnerReferences := ownerRef;
     k8s.Webhooks :=
       [{| k8s.WebhookName := webhookName;
           k8s.ClientConfig :=
             {| k8s.CABundle := caCert;
                k8s.Service :=
                  Some {| k8s.ServiceNamespace := "";
                          k8s.ServiceName := Name (Webhook cfg);
                          k8s.Path := Some path |} |};
           k8s.Rules :=
             [{| k8s.Operations := [k8s.Create];
                 k8s.APIGroups := ["*"];
                 k8s.APIVersions := ["v1"];
                 k8s.Resources := ["pods"] |}];
           k8s.FailurePolicy := Some fail;
           k8s.SideEffects := Some sideEffects;
           k8s.AdmissionReviewVersions := ["v1"; "v1beta1"] |}] |}.

(** [mutateConfig.Webhooks[0].ClientConfig.Service.Namespace = ns]. *)
Definition setServiceNamespace (ns : string) (ws : list k8s.MutatingWebhook)
    : list k8s.MutatingWebhook :=
  match ws with
  | [] => []
  | w :: rest =>
      {| k8s.WebhookName := k8s.WebhookName w;
         k8s.ClientConfig :=
           {| k8s.CABundle := k8s.CABundle (k8s.ClientConfig w);
              k8s.Service :=
                match k8s.Service (k8s.ClientConfig w) with
                | Some svc =>
                    Some {| k8s.ServiceNamespace := ns;
                            k8s.ServiceName := k8s.ServiceName svc;
                            k8s.Path := k8s.Path svc |}
                | None => None
                end |};
         k8s.Rules := k8s.Rules w;
         k8s.FailurePolicy := k8s.FailurePolicy w;
         k8s.SideEffects := k8s.SideEffects w;
         k8s.AdmissionReviewVersions := k8s.AdmissionReviewVersions w |} :: rest
  end.

(** The two assignments under [if len(cfg.Webhook.Namespace) > 0]. *)
Definition withNamespace (cfg : Config) (c : k8s.MutatingWebhookConfiguration)
    : k8s.MutatingWebhookConfiguration :=
  if (0 <? String.length (Namespace (Webhook cfg)))%nat then
    {| k8s.ObjectName := k8s.ObjectName c;
       k8s.ObjectNamespace := Namespace (Webhook cfg);
       k8s.OwnerReferences := k8s.OwnerReferences c;
       k8s.Webhooks := setServiceNamespace (Namespace (Webhook cfg)) (k8s.Webhooks c) |}
  else c.

(** [obj.Webhooks = mutateConfig.Webhooks]. *)
Definition withWebhooks (obj : k8s.MutatingWebhookConfiguration)
    (ws : list k8s.MutatingWebhook) : k8s.MutatingWebhookConfiguration :=
  {| k8s.ObjectName := k8s.ObjectName obj;
     k8s.ObjectNamespace := k8s.ObjectNamespace obj;
     k8s.OwnerReferences := k8s.OwnerReferences obj;
     k8s.Webhooks := ws |}.

(** The tail of [createMutationConfig]: create, and on failure get and
    update. *)
Definition createOrUpdate (kubeClient : k8s.Interface)
    (mutateConfig : k8s.MutatingWebhookConfiguration) : K (option error) :=
  bindK (request (k8s.ConfigCreate mutateConfig)
           (k8s.Configurations_Create kubeClient mutateConfig))
    (fun err =>
       match err with
       | Some e =>
           bindK (request (k8s.ConfigGet (k8s.ObjectName mutateConfig))
                    (k8s.Configurations_Get kubeClient (k8s.ObjectName mutateConfig)))
             (fun '(obj, getErr) =>
                match getErr with
                | Some _ => retK (Some e)
                | None =>
                    let obj := withWebhooks obj (k8s.Webhooks mutateConfig) in
                    request (k8s.ConfigUpdate obj)
                      (k8s.Configurations_Update kubeClient obj)
                end)
       | None => retK None
       end).

(** The owner reference [createMutationConfig] builds from a pod. *)
Definition ownerOf (p : k8s.Pod) : k8s.OwnerReference :=
  {| k8s.Kind := PodKind;
     k8s.Name := k8s.PodName p;
     k8s.APIVersion := SchemeGroupVersion_Version;
     k8s.UID := k8s.PodUID p |}.

(** [createMutationConfig]. *)
Definition createMutationConfig (cfg : Config) (caCert : list Byte.byte)
    : K (option error) :=
  let '(kubeClient, err) := getKubeConfig cfg in
  match err with
  | Some e =>
      retK (Some (fmt_Errorf ("failed to create kubeclient. Error: " +:+ error_Error e)))
  | None =>
  let shouldAddOwnerRef := true in
  let '(podName, found) :=
    match environ !! "POD_NAME" with Some v => (v, true) | None => ("", false) end in
  let shouldAddOwnerRef := if negb found then false else shouldAddOwnerRef in
  let '(podNamespace, found) :=
    match environ !! "POD_NAMESPACE" with Some v => (v, true) | None => ("", false) end in
  let shouldAddOwnerRef := if negb found then false else shouldAddOwnerRef in
  let webhookObjectName := Name (Webhook cfg) in
  if shouldAddOwnerRef then
    bindK (request (k8s.PodsGet podNamespace podName)
             (k8s.Pods_Get kubeClient podNamespace podName))
      (fun '(p, err) =>
         match err with
         | Some e =>
             retK (Some (fmt_Errorf ("failed to get pod. Error: " +:+ error_Error e)))
         | None =>
             let ownerRef :=
               [{| k8s.Kind := PodKind;
                   k8s.Name := k8s.PodName p;
                   k8s.APIVersion := SchemeGroupVersion_Version;
                   k8s.UID := k8s.PodUID p |}] in
             let webhookObjectName := k8s.PodName p in
             createOrUpdate kubeClient
               (withNamespace cfg (mutateConfigFor cfg caCert webhookObjectName ownerRef))
         end)
  else
    createOrUpdate kubeClient
      (withNamespace cfg (mutateConfigFor cfg caCert webhookObjectName []))
  end.

End webhook.

End cmd.

(** ** More scenarios

    Variations of the scenario above for the remaining paths of the
    handler, and a small cluster for the webhook configuration. *)
Module cases.

Import scenario.

Definition readErr : error := fmt_Errorf "inputs unreadable".
Definition setErr : error := fmt_Errorf "start node not writable".
Definition passErr : error := fmt_Errorf "executor unavailable".
Definition lookupErr : error := fmt_Errorf "status corrupted".
Definition copyErr : error := fmt_Errorf "copy refused".

Definition inputs : option core.LiteralMap := Some [("x", "5")].

(** An executor by what setting the inputs and the recursive pass
    return. *)
Definition executorOf (seeded passed : executors.NodeStatus * option error)
    : subworkflowHandler :=
  newSubworkflowHandler
    {| executors.SetInputsForStartNode := fun _ _ _ => seeded;
       executors.RecursiveNodeHandler := fun _ _ _ => passed;
       executors.AbortHandler := fun _ _ _ _ => None |}.

Definition ok (phase : executors.NodePhase) : executors.NodeStatus * option error :=
  (stateOf phase None, None).

(** A context by what reading the inputs and the copy return, for an
    attempt. *)
Definition contextOf (read : option core.LiteralMap * option error)
    (found : option v1alpha1.ExecutableSubWorkflow)
    (copy : option error) (attempt : N) : handler.NodeExecutionContext :=
  {| handler.Node := enclosing;
     handler.FindSubWorkflow := fun id => if String.eqb id "sub" then found else None;
     handler.InputReader_Get := read;
     handler.PutWorkflowNodeState := fun _ => None;
     handler.GetWorkflowNodeState :=
       {| handler.Phase := v1alpha1.WorkflowNodePhaseFailing;
          handler.Error := Some E1 |};
     handler.DataStore_Head := fun _ => present;
     handler.DataStore_CopyRaw := fun _ _ => copy;
     handler.EnqueueOwnerFunc := None;
     handler.CurrentAttempt := attempt |}.

(** Lookups that fail, and that find nothing. *)
Definition lookupFailing : executors.NodeLookup :=
  {| executors.Graph := subPlain;
     executors.LookupNodeExecutionStatus := fun _ st => ((None, Some lookupErr), st) |}.

Definition lookupNothing : executors.NodeLookup :=
  {| executors.Graph := subPlain;
     executors.LookupNodeExecutionStatus := fun _ st => ((None, None), st) |}.

Definition endStatus : v1alpha1.NodeStatus :=
  {| v1alpha1.GetUniqueNodeID := None;
     v1alpha1.GetUniqueParentNodeID := None;
     v1alpha1.GetParentAttempts := 0%N;
     v1alpha1.GetOutputDir := "s3://bucket/n0/end" |}.

(** The status with the entry of [A] unreadable, and the status of an
    enclosing node without unique id. *)
Definition statusBroken : v1alpha1.ExecutableNodeStatus :=
  {| v1alpha1.Self := v1alpha1.Self status0;
     v1alpha1.SubNodeStatus := v1alpha1.SubNodeStatus status0;
     v1alpha1.Unresolvable := {[ "A" := lookupErr ]} |}.

Definition statusAnonymous : v1alpha1.ExecutableNodeStatus :=
  {| v1alpha1.Self := v1alpha1.emptyNodeStatus;
     v1alpha1.SubNodeStatus := ∅;
     v1alpha1.Unresolvable := ∅ |}.

Definition worldBroken : World := {| wStatus := statusBroken; wTrace := [] |}.
Definition worldAnonymous : World := {| wStatus := statusAnonymous; wTrace := [] |}.

(** The cluster: a pod, an existing configuration, a client by what the
    pod lookup, the creation, the read and the update return. *)
Definition pod : k8s.Pod := {| k8s.PodName := "webhook-7d9f"; k8s.PodUID := "uid-1" |}.

Definition existing : k8s.MutatingWebhookConfiguration :=
  {| k8s.ObjectName := "flyte-pod-webhook";
     k8s.ObjectNamespace := "flyte";
     k8s.OwnerReferences := [];
     k8s.Webhooks := [] |}.

Definition client (podAnswer : k8s.Pod * option error) (created : option error)
    (read : k8s.MutatingWebhookConfiguration * option error) (updated : option error)
    : k8s.Interface :=
  {| k8s.Pods_Get := fun _ _ => podAnswer;
     k8s.Configurations_Create := fun _ => created;
     k8s.Configurations_Get := fun _ => read;
     k8s.Configurations_Update := fun _ => updated;
     k8s.Configurations_Delete := fun _ => None |}.

Definition config : cmd.Config :=
  {| cmd.Webhook := {| cmd.Name := "flyte-pod-webhook"; cmd.Namespace := "flyte" |} |}.

Definition inPod : gmap string string :=
  {[ "POD_NAME" := "webhook-7d9f"; "POD_NAMESPACE" := "flyte" ]}.

Definition outsidePod : gmap string string := ∅.

Definition caCert : list Byte.byte := [Byte.x2d; Byte.x2d].

Definition exists_err : error := fmt_Errorf "already exists".
Definition gone_err : error := fmt_Errorf "not found".
Definition denied_err : error := fmt_Errorf "forbidden".

(** The configuration submitted outside a pod. *)
Definition submittedOutsidePod : k8s.MutatingWebhookConfiguration :=
  cmd.withNamespace config
    (cmd.mutateConfigFor "flyte-pod-webhook.flyte.org" "/mutate--v1-pod" config caCert
       "flyte-pod-webhook" []).

(** The configuration submitted from inside the pod. *)
Definition submittedInPod : k8s.MutatingWebhookConfiguration :=
  cmd.withNamespace config
    (cmd.mutateConfigFor "flyte-pod-webhook.flyte.org" "/mutate--v1-pod" config caCert
       "webhook-7d9f" [cmd.ownerOf "pod" "v1" pod]).

End cases.

(** ** The handler *)
Section subworkflow.

(** Constants and functions of [v1alpha1] the handler uses and takes as
    given: the id of the end node, the path of
    the outputs file of an output directory, and the computation of a
    unique node id from a node id, the unique id of its parent and the
    attempt number as a string. *)
Variable EndNodeID : v1alpha1.NodeID.
Variable GetOutputsFile : storage.DataReference -> storage.DataReference.
Variable ComputeUniqueIDForNode :
  v1alpha1.NodeID -> v1alpha1.NodeID -> string -> v1alpha1.NodeID * option error.

(** [GetSubWorkflow]: the sub-workflow the node refers to. *)
Definition GetSubWorkflow (nCtx : handler.NodeExecutionContext)
    : M (v1alpha1.ExecutableSubWorkflow + error) :=
  let node := handler.Node nCtx in
  let* subID := deref (v1alpha1.GetSubWorkflowRef node) in
  match handler.FindSubWorkflow nCtx subID with
  | None =>
      ret (inr (fmt_Errorf ("failed to find sub workflow with ID [" +:+ subID +:+ "]")))
  | Some subWorkflow => ret (inl subWorkflow)
  end.

(** [handleSubWorkflow]: one recursive pass over the sub-workflow and the
    translation of its aggregate state. *)
Definition handleSubWorkflow (s : subworkflowHandler)
    (nCtx : handler.NodeExecutionContext)
    (subworkflow : v1alpha1.ExecutableSubWorkflow) (nl : executors.NodeLookup)
    : M (handler.Transition * option error) :=
  let* '(state, err) :=
    call (CallRecursiveNodeHandler (v1alpha1.GetID subworkflow)
            (v1alpha1.GetNodeID (v1alpha1.StartNode subworkflow)))
         (executors.RecursiveNodeHandler (nodeExecutor s) subworkflow nl
            (v1alpha1.StartNode subworkflow)) in
  match err with
  | Some e =>
      ret (handler.DoTransition handler.TransitionTypeEphemeral handler.PhaseInfoUndefined,
           Some e)
  | None =>
  if executors.HasFailed state then
    let workflowNodeState :=
      {| handler.Phase := v1alpha1.WorkflowNodePhaseFailing;
         handler.Error := executors.Err state |} in
    let* err :=
      call (CallPutWorkflowNodeState workflowNodeState)
           (handler.PutWorkflowNodeState nCtx workflowNodeState) in
    match v1alpha1.GetOnFailureNode subworkflow with
    | Some _ =>
        ret (handler.DoTransition handler.TransitionTypeEphemeral
               (handler.PhaseInfoFailingErr (executors.Err state) None), err)
    | None =>
        ret (handler.DoTransition handler.TransitionTypeEphemeral
               (handler.PhaseInfoFailureErr (executors.Err state) None), err)
    end
  else if executors.IsComplete state then
    let outputBindings := v1alpha1.GetOutputBindings subworkflow in
    if (0 <? length outputBindings)%nat then
      let* '(endNodeStatus, err) := nl_GetNodeExecutionStatus nl EndNodeID in
      match err with
      | Some e => ret (handler.UnknownTransition, Some e)
      | None =>
      match endNodeStatus with
      | None =>
          ret (handler.DoTransition handler.TransitionTypeEphemeral
                 (handler.PhaseInfoFailure core.ExecutionError_SYSTEM
                    errors.SubWorkflowExecutionFailed
                    "No end node found in subworkflow." None), err)
      | Some endNodeStatus =>
      let sourcePath := GetOutputsFile (v1alpha1.GetOutputDir endNodeStatus) in
      let* '(metadata, err) :=
        call (CallHead sourcePath) (handler.DataStore_Head nCtx sourcePath) in
      match err with
      | Some _ =>
          ret (handler.DoTransition handler.TransitionTypeEphemeral
                 handler.PhaseInfoUndefined, None)
      | None =>
      if negb (storage.Exists metadata) then
        let errMsg :=
          "Subworkflow is expected to produce outputs but no outputs file was written to "
          +:+ sourcePath +:+ "." in
        ret (handler.DoTransition handler.TransitionTypeEphemeral
               (handler.PhaseInfoFailure core.ExecutionError_SYSTEM
                  errors.SubWorkflowExecutionFailed errMsg None), None)
      else
      let* status := getStatus in
      let destinationPath := GetOutputsFile (v1alpha1.GetOutputDir (v1alpha1.Self status)) in
      let* err :=
        call (CallCopyRaw sourcePath destinationPath)
             (handler.DataStore_CopyRaw nCtx sourcePath destinationPath) in
      match err with
      | Some _ =>
          let errMsg :=
            "Failed to copy subworkflow outputs from [" +:+ sourcePath +:+ "] to ["
            +:+ destinationPath +:+ "]" in
          ret (handler.DoTransition handler.TransitionTypeEphemeral
                 (handler.PhaseInfoFailure core.ExecutionError_SYSTEM
                    errors.SubWorkflowExecutionFailed errMsg None), None)
      | None =>
          let oInfo := Some {| handler.OutputURI := destinationPath |} in
          ret (handler.DoTransition handler.TransitionTypeEphemeral
                 (handler.PhaseInfoSuccess
                    (Some {| handler.GetOutputInfo := oInfo |})), None)
      end
      end
      end
      end
    else
      ret (handler.DoTransition handler.TransitionTypeEphemeral
             (handler.PhaseInfoSuccess
                (Some {| handler.GetOutputInfo := None |})), None)
  else
    let running :=
      ret (handler.DoTransition handler.TransitionTypeEphemeral
             (handler.PhaseInfoRunning None), None) in
    if executors.PartiallyComplete state then
      let* err := call CallEnqueueOwner (handler.EnqueueOwnerFunc nCtx) in
      match err with
      | Some e => ret (handler.UnknownTransition, Some e)
      | None => running
      end
    else running
  end.

(** [startAndHandleSubWorkflow]: sets the inputs of the start node, then
    handles the sub-workflow. *)
Definition startAndHandleSubWorkflow (s : subworkflowHandler)
    (nCtx : handler.NodeExecutionContext)
    (subWorkflow : v1alpha1.ExecutableSubWorkflow) (nl : executors.NodeLookup)
    : M (handler.Transition * option error) :=
  let* '(nodeInputs, err) := call CallInputReaderGet (handler.InputReader_Get nCtx) in
  match err with
  | Some e =>
      let errMsg := "Failed to read input. Error [" +:+ error_Error e +:+ "]" in
      ret (handler.DoTransition handler.TransitionTypeEphemeral
             (handler.PhaseInfoFailure core.ExecutionError_SYSTEM
                errors.RuntimeExecutionError errMsg None), None)
  | None =>
  let* '(startStatus, err) :=
    call (CallSetInputsForStartNode (v1alpha1.GetID subWorkflow) nodeInputs)
         (executors.SetInputsForStartNode (nodeExecutor s) subWorkflow nl nodeInputs) in
  match err with
  | Some e =>
      ret (handler.DoTransition handler.TransitionTypeEphemeral handler.PhaseInfoUndefined,
           Some e)
  | None =>
  if executors.HasFailed startStatus then
    ret (handler.DoTransition handler.TransitionTypeEphemeral
           (handler.PhaseInfoFailureErr (executors.Err startStatus) None), None)
  else handleSubWorkflow s nCtx subWorkflow nl
  end
  end.

(** [HandleFailureNodeOfSubWorkflow]: runs the failure node, if there is
    one, and finalises the failure. *)
Definition HandleFailureNodeOfSubWorkflow (s : subworkflowHandler)
    (nCtx : handler.NodeExecutionContext)
    (subworkflow : v1alpha1.ExecutableSubWorkflow) (nl : executors.NodeLookup)
    : M (handler.Transition * option error) :=
  let* wfState := call CallGetWorkflowNodeState (handler.GetWorkflowNodeState nCtx) in
  let originalError := handler.Error wfState in
  let failedWithOriginal :=
    ret (handler.DoTransition handler.TransitionTypeEphemeral
           (handler.PhaseInfoFailureErr originalError None), None) in
  match v1alpha1.GetOnFailureNode subworkflow with
  | Some onFailureNode =>
      let* '(state, err) :=
        call (CallRecursiveNodeHandler (v1alpha1.GetID subworkflow)
                (v1alpha1.GetNodeID onFailureNode))
             (executors.RecursiveNodeHandler (nodeExecutor s) subworkflow nl
                onFailureNode) in
      match err with
      | Some e =>
          ret (handler.DoTransition handler.TransitionTypeEphemeral
                 handler.PhaseInfoUndefined, Some e)
      | None =>
      if executors.IsRunning state then
        ret (handler.DoTransition handler.TransitionTypeEphemeral
               (handler.PhaseInfoRunning None), None)
      else if executors.HasFailed state then
        ret (handler.DoTransition handler.TransitionTypeEphemeral
               (handler.PhaseInfoFailureErr (executors.Err state) None), None)
      else if executors.PartiallyComplete state then
        let* err := call CallEnqueueOwner (handler.EnqueueOwnerFunc nCtx) in
        match err with
        | Some e => ret (handler.UnknownTransition, Some e)
        | None =>
            ret (handler.DoTransition handler.TransitionTypeEphemeral
                   (handler.PhaseInfoFailingErr originalError None), None)
        end
      else if executors.IsComplete state then
        ret (handler.DoTransition handler.TransitionTypeEphemeral
               (handler.PhaseInfoFailureErr originalError None), None)
      else failedWithOriginal
      end
  | None => failedWithOriginal
  end.

(** [HandleFailingSubWorkflow]: the entry point of a tick on a node that
    is already failing. *)
Definition HandleFailingSubWorkflow (s : subworkflowHandler)
    (nCtx : handler.NodeExecutionContext) : M (handler.Transition * option error) :=
  let* r := GetSubWorkflow nCtx in
  match r with
  | inr err =>
      ret (handler.DoTransition handler.TransitionTypeEphemeral
             (handler.PhaseInfoFailure core.ExecutionError_SYSTEM
                errors.SubWorkflowExecutionFailed (error_Error err) None), None)
  | inl subWorkflow =>
      match v1alpha1.GetOnFailureNode subWorkflow with
      | None =>
          let* wfState :=
            call CallGetWorkflowNodeState (handler.GetWorkflowNodeState nCtx) in
          ret (handler.DoTransition handler.TransitionTypeEphemeral
                 (handler.PhaseInfoFailureErr (handler.Error wfState) None), None)
      | Some _ =>
          let nodeLookup := executors.NewNodeLookup subWorkflow in
          HandleFailureNodeOfSubWorkflow s nCtx subWorkflow nodeLookup
      end
  end.

(** The body of the loop of [fetchNodeLookupForSubWorkflow] over the nodes
    of the sub-workflow; [Some e] is the early [return nil, err]. *)
Fixpoint fetchNodeLookupLoop (nCtx : handler.NodeExecutionContext)
    (uniqueparentID : option v1alpha1.NodeID) (currentAttemptStr : string)
    (nodes : list v1alpha1.NodeID) : M (option error) :=
  match nodes with
  | [] => ret None
  | n :: rest =>
      let* '(subWorkflowNodeStatus, err) :=
        onStatus (v1alpha1.GetNodeExecutionStatus n) in
      match err with
      | Some e => ret (Some e)
      | None =>
      let* parentID := deref uniqueparentID in
      let '(newID, err) := ComputeUniqueIDForNode n parentID currentAttemptStr in
      match err with
      | Some e => ret (Some e)
      | None =>
      let* _ := deref subWorkflowNodeStatus in
      let* status := getStatus in
      let* _ := setStatus (v1alpha1.SetUniqueParentNodeID n
                             (v1alpha1.GetUniqueNodeID (v1alpha1.Self status))) in
      let* _ := setStatus (v1alpha1.SetUniqueNodeID n (Some newID)) in
      let* _ := setStatus (v1alpha1.SetParentAttempts n (handler.CurrentAttempt nCtx)) in
      fetchNodeLookupLoop nCtx uniqueparentID currentAttemptStr rest
      end
      end
  end.

(** [fetchNodeLookupForSubWorkflow]: stamps every node of the
    sub-workflow with its unique id, its unique parent and the attempt of
    the enclosing node, and returns a lookup over the status. *)
Definition fetchNodeLookupForSubWorkflow (s : subworkflowHandler)
    (nCtx : handler.NodeExecutionContext)
    (subWorkflow : v1alpha1.ExecutableSubWorkflow)
    : M (executors.NodeLookup + error) :=
  let* status := getStatus in
  let uniqueparentID := v1alpha1.GetUniqueNodeID (v1alpha1.Self status) in
  let currentAttemptStr := strconv_Itoa (handler.CurrentAttempt nCtx) in
  let* err :=
    fetchNodeLookupLoop nCtx uniqueparentID currentAttemptStr
      (v1alpha1.GetNodes subWorkflow) in
  match err with
  | Some e => ret (inr e)
  | None => ret (inl (executors.NewNodeLookup subWorkflow))
  end.

(** [StartSubWorkflow]: the entry point of the first tick. *)
Definition StartSubWorkflow (s : subworkflowHandler)
    (nCtx : handler.NodeExecutionContext) : M (handler.Transition * option error) :=
  let* r := GetSubWorkflow nCtx in
  match r with
  | inr err =>
      ret (handler.DoTransition handler.TransitionTypeEphemeral
             (handler.PhaseInfoFailure core.ExecutionError_SYSTEM
                errors.SubWorkflowExecutionFailed (error_Error err) None), None)
  | inl subWorkflow =>
      let* r := fetchNodeLookupForSubWorkflow s nCtx subWorkflow in
      match r with
      | inr err => ret (handler.UnknownTransition, Some err)
      | inl nodeLookup => startAndHandleSubWorkflow s nCtx subWorkflow nodeLookup
      end
  end.

(** [CheckSubWorkflowStatus]: the entry point of the later ticks. *)
Definition CheckSubWorkflowStatus (s : subworkflowHandler)
    (nCtx : handler.NodeExecutionContext) : M (handler.Transition * option error) :=
  let* r := GetSubWorkflow nCtx in
  match r with
  | inr err =>
      ret (handler.DoTransition handler.TransitionTypeEphemeral
             (handler.PhaseInfoFailure core.ExecutionError_SYSTEM
                errors.SubWorkflowExecutionFailed (error_Error err) None), None)
  | inl subWorkflow =>
      let* r := fetchNodeLookupForSubWorkflow s nCtx subWorkflow in
      match r with
      | inr err => ret (handler.UnknownTransition, Some err)
      | inl nodeLookup => startAndHandleSubWorkflow s nCtx subWorkflow nodeLookup
      end
  end.

(** [HandleAbort]: forwards an abort into the sub-workflow. *)
Definition HandleAbort (s : subworkflowHandler)
    (nCtx : handler.NodeExecutionContext) (reason : string) : M (option error) :=
  let* r := GetSubWorkflow nCtx in
  match r with
  | inr err => ret (Some err)
  | inl subWorkflow =>
      let nodeLookup := executors.NewNodeLookup subWorkflow in
      call (CallAbortHandler (v1alpha1.GetID subWorkflow)
              (v1alpha1.GetNodeID (v1alpha1.StartNode subWorkflow)) reason)
           (executors.AbortHandler (nodeExecutor s) subWorkflow nodeLookup
              (v1alpha1.StartNode subWorkflow) reason)
  end.


(** ** The stamps of [fetchNodeLookupForSubWorkflow] *)

(** The entry of a child as the loop leaves it: unique id, unique parent
    and parent attempts set, the rest kept. *)
Definition stamp (parent : option v1alpha1.NodeID) (newID : v1alpha1.NodeID)
    (attempt : N) (c : v1alpha1.NodeStatus) : v1alpha1.NodeStatus :=
  {| v1alpha1.GetUniqueNodeID := Some newID;
     v1alpha1.GetUniqueParentNodeID := parent;
     v1alpha1.GetParentAttempts := attempt;
     v1alpha1.GetOutputDir := v1alpha1.GetOutputDir c |}.

(** The entry of child [n], the fresh one if there is none yet. *)
Definition entry (st : v1alpha1.ExecutableNodeStatus) (n : v1alpha1.NodeID)
    : v1alpha1.NodeStatus :=
  default v1alpha1.emptyNodeStatus (v1alpha1.SubNodeStatus st !! n).

(** The status with the entry of [n] in place. *)
Definition ensured (st : v1alpha1.ExecutableNodeStatus) (n : v1alpha1.NodeID)
    : v1alpha1.ExecutableNodeStatus :=
  v1alpha1.withSubNodeStatus st (<[n := entry st n]> (v1alpha1.SubNodeStatus st)).

(** The status with the entry of [n] stamped. *)
Definition stamped (st : v1alpha1.ExecutableNodeStatus) (n : v1alpha1.NodeID)
    (newID : v1alpha1.NodeID) (attempt : N) : v1alpha1.ExecutableNodeStatus :=
  v1alpha1.withSubNodeStatus st
    (<[n := stamp (v1alpha1.GetUniqueNodeID (v1alpha1.Self st)) newID attempt (entry st n)]>
       (v1alpha1.SubNodeStatus st)).

Definition withStatus (w : World) (st : v1alpha1.ExecutableNodeStatus) : World :=
  {| wStatus := st; wTrace := wTrace w |}.

(** The entry of [n] is as a turn of the loop on [n] leaves it. *)
Definition settled (nCtx : handler.NodeExecutionContext)
    (uniqueparentID : option v1alpha1.NodeID) (currentAttemptStr : string)
    (st : v1alpha1.ExecutableNodeStatus) (n : v1alpha1.NodeID) : Prop :=
  v1alpha1.Unresolvable st !! n = None ->
  exists c, v1alpha1.SubNodeStatus st !! n = Some c /\
    forall parentID newID,
      uniqueparentID = Some parentID ->
      ComputeUniqueIDForNode n parentID currentAttemptStr = (newID, None) ->
      c = stamp (v1alpha1.GetUniqueNodeID (v1alpha1.Self st)) newID
            (handler.CurrentAttempt nCtx) c.

(** [st'] is [st] with more entries settled; the enclosing node's own
    record and the unresolvable entries are the same. *)
Definition settles (nCtx : handler.NodeExecutionContext)
    (uniqueparentID : option v1alpha1.NodeID) (currentAttemptStr : string)
    (st st' : v1alpha1.ExecutableNodeStatus) : Prop :=
  v1alpha1.Self st' = v1alpha1.Self st /\
  v1alpha1.Unresolvable st' = v1alpha1.Unresolvable st /\
  forall k, settled nCtx uniqueparentID currentAttemptStr st k ->
            settled nCtx uniqueparentID currentAttemptStr st' k.

(** An ephemeral transition. *)
Definition ephemeral : handler.PhaseInfo -> handler.Transition :=
  handler.DoTransition handler.TransitionTypeEphemeral.

(** ** Running the handler *)

Lemma made_app (t d : list Call) : drop (length t) (t ++ d) = d.
Proof. apply drop_app_length. Qed.

Lemma made_app2 (t d1 d2 : list Call) : drop (length t) ((t ++ d1) ++ d2) = d1 ++ d2.
Proof. rewrite <- app_assoc. apply drop_app_length. Qed.

Lemma made_nil (t : list Call) : drop (length t) t = [].
Proof. apply drop_all. Qed.

Ltac go_unfold :=
  repeat progress
    (unfold result, made, statusAfter, bind, call, ret, deref, onStatus, getStatus,
       setStatus, nl_GetNodeExecutionStatus;
     cbn [fst snd wTrace wStatus]).

(** The Failed branch of [handleSubWorkflow], whatever the state writer
    answers. *)
Lemma handleSubWorkflow_failed s nCtx subworkflow nl w state :
  executors.RecursiveNodeHandler (nodeExecutor s) subworkflow nl
    (v1alpha1.StartNode subworkflow) = (state, None) ->
  executors.HasFailed state = true ->
  let wfs := {| handler.Phase := v1alpha1.WorkflowNodePhaseFailing;
                handler.Error := executors.Err state |} in
  handleSubWorkflow s nCtx subworkflow nl w =
  (Val (handler.DoTransition handler.TransitionTypeEphemeral
          (match v1alpha1.GetOnFailureNode subworkflow with
           | Some _ => handler.PhaseInfoFailingErr (executors.Err state) None
           | None => handler.PhaseInfoFailureErr (executors.Err state) None
           end),
        handler.PutWorkflowNodeState nCtx wfs),
   {| wStatus := wStatus w;
      wTrace := (wTrace w ++
        [CallRecursiveNodeHandler (v1alpha1.GetID subworkflow)
           (v1alpha1.GetNodeID (v1alpha1.StartNode subworkflow))]) ++
        [CallPutWorkflowNodeState wfs] |}).
Proof.
  intros Hrec Hfailed wfs. unfold handleSubWorkflow. go_unfold.
  rewrite Hrec, Hfailed. cbn [wTrace wStatus].
  destruct (v1alpha1.GetOnFailureNode subworkflow); reflexivity.
Qed.

(** The Complete branch of [handleSubWorkflow] with no output bindings. *)
Lemma handleSubWorkflow_complete_no_outputs s nCtx subworkflow nl w state :
  executors.RecursiveNodeHandler (nodeExecutor s) subworkflow nl
    (v1alpha1.StartNode subworkflow) = (state, None) ->
  executors.IsComplete state = true ->
  v1alpha1.GetOutputBindings subworkflow = [] ->
  handleSubWorkflow s nCtx subworkflow nl w =
  (Val (handler.DoTransition handler.TransitionTypeEphemeral
          (handler.PhaseInfoSuccess (Some {| handler.GetOutputInfo := None |})),
        None),
   {| wStatus := wStatus w;
      wTrace := wTrace w ++
        [CallRecursiveNodeHandler (v1alpha1.GetID subworkflow)
           (v1alpha1.GetNodeID (v1alpha1.StartNode subworkflow))] |}).
Proof.
  intros Hrec Hcomplete Hnone. unfold handleSubWorkflow. go_unfold.
  rewrite Hrec, Hnone.
  assert (executors.HasFailed state = false) as ->.
  { unfold executors.HasFailed, executors.IsComplete in *.
    destruct (executors.GetNodePhase state); congruence. }
  rewrite Hcomplete. reflexivity.
Qed.

(** The phases are exclusive: a complete or partially complete state has
    not failed, and so on. *)
Lemma phase_tests (state : executors.NodeStatus) :
  match executors.GetNodePhase state with
  | executors.NodePhaseRunning =>
      executors.IsRunning state = true /\ executors.HasFailed state = false /\
      executors.IsComplete state = false /\ executors.PartiallyComplete state = false
  | executors.NodePhasePartiallyComplete =>
      executors.IsRunning state = false /\ executors.HasFailed state = false /\
      executors.IsComplete state = false /\ executors.PartiallyComplete state = true
  | executors.NodePhaseComplete =>
      executors.IsRunning state = false /\ executors.HasFailed state = false /\
      executors.IsComplete state = true /\ executors.PartiallyComplete state = false
  | executors.NodePhaseFailed =>
      executors.IsRunning state = false /\ executors.HasFailed state = true /\
      executors.IsComplete state = false /\ executors.PartiallyComplete state = false
  end.
Proof.
  unfold executors.IsRunning, executors.HasFailed, executors.IsComplete,
    executors.PartiallyComplete.
  destruct (executors.GetNodePhase state); repeat split.
Qed.

Lemma complete_tests (state : executors.NodeStatus) :
  executors.IsComplete state = true ->
  executors.IsRunning state = false /\ executors.HasFailed state = false /\
  executors.PartiallyComplete state = false.
Proof.
  intros H. pose proof (phase_tests state) as P.
  destruct (executors.GetNodePhase state); destruct P as (? & ? & ? & ?);
    repeat split; congruence.
Qed.

Lemma partially_complete_tests (state : executors.NodeStatus) :
  executors.PartiallyComplete state = true ->
  executors.IsRunning state = false /\ executors.HasFailed state = false /\
  executors.IsComplete state = false.
Proof.
  intros H. pose proof (phase_tests state) as P.
  destruct (executors.GetNodePhase state); destruct P as (? & ? & ? & ?);
    repeat split; congruence.
Qed.

(** The PartiallyComplete branch of [handleSubWorkflow]. *)
Lemma handleSubWorkflow_partially_complete s nCtx subworkflow nl w state :
  executors.RecursiveNodeHandler (nodeExecutor s) subworkflow nl
    (v1alpha1.StartNode subworkflow) = (state, None) ->
  executors.PartiallyComplete state = true ->
  handleSubWorkflow s nCtx subworkflow nl w =
  (Val (match handler.EnqueueOwnerFunc nCtx with
        | Some e => (handler.UnknownTransition, Some e)
        | None =>
            (handler.DoTransition handler.TransitionTypeEphemeral
               (handler.PhaseInfoRunning None), None)
        end),
   {| wStatus := wStatus w;
      wTrace := (wTrace w ++
        [CallRecursiveNodeHandler (v1alpha1.GetID subworkflow)
           (v1alpha1.GetNodeID (v1alpha1.StartNode subworkflow))]) ++
        [CallEnqueueOwner] |}).
Proof.
  intros Hrec Hpartial. unfold handleSubWorkflow. go_unfold.
  destruct (partially_complete_tests state Hpartial) as (_ & Hfailed & Hcomplete).
  rewrite Hrec, Hfailed, Hcomplete, Hpartial. cbn [wTrace wStatus].
  destruct (handler.EnqueueOwnerFunc nCtx); reflexivity.
Qed.

(** The Complete branch of [handleSubWorkflow] with output bindings, once
    the status of the end node is found: up to the answer of [Head]. *)
Lemma handleSubWorkflow_complete_head s nCtx subworkflow nl w state endNodeStatus st' :
  executors.RecursiveNodeHandler (nodeExecutor s) subworkflow nl
    (v1alpha1.StartNode subworkflow) = (state, None) ->
  executors.IsComplete state = true ->
  v1alpha1.GetOutputBindings subworkflow <> [] ->
  executors.LookupNodeExecutionStatus nl EndNodeID (wStatus w) =
    ((Some endNodeStatus, None), st') ->
  let sourcePath := GetOutputsFile (v1alpha1.GetOutputDir endNodeStatus) in
  let w' := {| wStatus := st';
               wTrace := ((wTrace w ++
                 [CallRecursiveNodeHandler (v1alpha1.GetID subworkflow)
                    (v1alpha1.GetNodeID (v1alpha1.StartNode subworkflow))]) ++
                 [CallLookupNodeExecutionStatus EndNodeID]) ++
                 [CallHead sourcePath] |} in
  match handler.DataStore_Head nCtx sourcePath with
  | (_, Some _) =>
      handleSubWorkflow s nCtx subworkflow nl w =
      (Val (handler.DoTransition handler.TransitionTypeEphemeral
              handler.PhaseInfoUndefined, None), w')
  | (metadata, None) =>
      storage.Exists metadata = false ->
      handleSubWorkflow s nCtx subworkflow nl w =
      (Val (handler.DoTransition handler.TransitionTypeEphemeral
              (handler.PhaseInfoFailure core.ExecutionError_SYSTEM
                 errors.SubWorkflowExecutionFailed
                 ("Subworkflow is expected to produce outputs but no outputs file was written to "
                  +:+ sourcePath +:+ ".") None), None), w')
  end.
Proof.
  intros Hrec Hcomplete Hsome Hlookup sourcePath w'.
  destruct (complete_tests state Hcomplete) as (_ & Hfailed & _).
  assert ((0 <? length (v1alpha1.GetOutputBindings subworkflow))%nat = true) as Hlen.
  { destruct (v1alpha1.GetOutputBindings subworkflow); [congruence | reflexivity]. }
  destruct (handler.DataStore_Head nCtx sourcePath) as [metadata [e|]] eqn:Hhead.
  - unfold handleSubWorkflow. go_unfold.
    rewrite Hrec, Hfailed, Hcomplete, Hlen. go_unfold.
    rewrite Hlookup. fold sourcePath. rewrite Hhead. reflexivity.
  - intros Hexists. unfold handleSubWorkflow. go_unfold.
    rewrite Hrec, Hfailed, Hcomplete, Hlen. go_unfold.
    rewrite Hlookup. fold sourcePath. rewrite Hhead, Hexists. reflexivity.
Qed.

(** [HandleFailureNodeOfSubWorkflow] with a failure node, by the phase the
    recursive pass over the failure node returns. *)
Lemma HandleFailureNodeOfSubWorkflow_run s nCtx subworkflow nl w onFailureNode state :
  v1alpha1.GetOnFailureNode subworkflow = Some onFailureNode ->
  executors.RecursiveNodeHandler (nodeExecutor s) subworkflow nl onFailureNode =
    (state, None) ->
  let originalError := handler.Error (handler.GetWorkflowNodeState nCtx) in
  let eph := handler.DoTransition handler.TransitionTypeEphemeral in
  HandleFailureNodeOfSubWorkflow s nCtx subworkflow nl w =
  (Val (match executors.GetNodePhase state with
        | executors.NodePhaseRunning => (eph (handler.PhaseInfoRunning None), None)
        | executors.NodePhaseFailed =>
            (eph (handler.PhaseInfoFailureErr (executors.Err state) None), None)
        | executors.NodePhasePartiallyComplete =>
            match handler.EnqueueOwnerFunc nCtx with
            | Some e => (handler.UnknownTransition, Some e)
            | None => (eph (handler.PhaseInfoFailingErr originalError None), None)
            end
        | executors.NodePhaseComplete =>
            (eph (handler.PhaseInfoFailureErr originalError None), None)
        end),
   {| wStatus := wStatus w;
      wTrace := wTrace w ++
        [CallGetWorkflowNodeState;
         CallRecursiveNodeHandler (v1alpha1.GetID subworkflow)
           (v1alpha1.GetNodeID onFailureNode)] ++
        (if executors.PartiallyComplete state then [CallEnqueueOwner] else []) |}).
Proof.
  intros Hnode Hrec originalError eph.
  unfold HandleFailureNodeOfSubWorkflow. go_unfold. rewrite Hnode. go_unfold.
  rewrite Hrec. pose proof (phase_tests state) as P.
  destruct (executors.GetNodePhase state);
    destruct P as (Hr & Hf & Hc & Hp); rewrite ?Hr, ?Hf, ?Hp, ?Hc;
    cbn [wTrace wStatus]; try destruct (handler.EnqueueOwnerFunc nCtx);
    rewrite <- ?app_assoc; reflexivity.
Qed.

(** [GetSubWorkflow] leaves the world as it is. *)
Lemma GetSubWorkflow_run nCtx w subID :
  v1alpha1.GetSubWorkflowRef (handler.Node nCtx) = Some subID ->
  GetSubWorkflow nCtx w =
  (Val (match handler.FindSubWorkflow nCtx subID with
        | Some subWorkflow => inl subWorkflow
        | None =>
            inr (fmt_Errorf ("failed to find sub workflow with ID [" +:+ subID +:+ "]"))
        end), w).
Proof.
  intros Href. unfold GetSubWorkflow. rewrite Href. go_unfold.
  destruct (handler.FindSubWorkflow nCtx subID); reflexivity.
Qed.

(** [HandleAbort], by whether the sub-workflow is found. *)
Lemma HandleAbort_run s nCtx reason w subID :
  v1alpha1.GetSubWorkflowRef (handler.Node nCtx) = Some subID ->
  HandleAbort s nCtx reason w =
  match handler.FindSubWorkflow nCtx subID with
  | None =>
      (Val (Some (fmt_Errorf ("failed to find sub workflow with ID [" +:+ subID +:+ "]"))),
       w)
  | Some subWorkflow =>
      (Val (executors.AbortHandler (nodeExecutor s) subWorkflow
              (executors.NewNodeLookup subWorkflow)
              (v1alpha1.StartNode subWorkflow) reason),
       {| wStatus := wStatus w;
          wTrace := wTrace w ++
            [CallAbortHandler (v1alpha1.GetID subWorkflow)
               (v1alpha1.GetNodeID (v1alpha1.StartNode subWorkflow)) reason] |})
  end.
Proof.
  intros Href. unfold HandleAbort. unfold bind at 1.
  rewrite (GetSubWorkflow_run nCtx w subID Href).
  destruct (handler.FindSubWorkflow nCtx subID); reflexivity.
Qed.

Lemma withSubNodeStatus_same (st : v1alpha1.ExecutableNodeStatus) :
  v1alpha1.withSubNodeStatus st (v1alpha1.SubNodeStatus st) = st.
Proof. destruct st; reflexivity. Qed.

Lemma withStatus_same (w : World) : withStatus w (wStatus w) = w.
Proof. destruct w; reflexivity. Qed.

Lemma GetNodeExecutionStatus_resolvable (st : v1alpha1.ExecutableNodeStatus)
    (n : v1alpha1.NodeID) :
  v1alpha1.Unresolvable st !! n = None ->
  v1alpha1.GetNodeExecutionStatus n st = ((Some (entry st n), None), ensured st n).
Proof.
  intros Hres. unfold v1alpha1.GetNodeExecutionStatus, ensured, entry. rewrite Hres.
  destruct (v1alpha1.SubNodeStatus st !! n) as [c|] eqn:Hc; cbn.
  - rewrite (insert_id _ _ _ Hc), withSubNodeStatus_same. reflexivity.
  - reflexivity.
Qed.

Lemma setters_stamp (st : v1alpha1.ExecutableNodeStatus) (n : v1alpha1.NodeID)
    (newID : v1alpha1.NodeID) (attempt : N) :
  v1alpha1.SetParentAttempts n attempt
    (v1alpha1.SetUniqueNodeID n (Some newID)
       (v1alpha1.SetUniqueParentNodeID n
          (v1alpha1.GetUniqueNodeID (v1alpha1.Self (ensured st n))) (ensured st n)))
  = stamped st n newID attempt.
Proof.
  unfold v1alpha1.SetParentAttempts, v1alpha1.SetUniqueNodeID,
    v1alpha1.SetUniqueParentNodeID, stamped, ensured, v1alpha1.withSubNodeStatus.
  cbn [v1alpha1.Self v1alpha1.SubNodeStatus v1alpha1.Unresolvable].
  f_equal. apply map_eq. intros k.
  destruct (decide (n = k)) as [<-|Hne].
  - rewrite !lookup_alter_eq, !lookup_insert_eq. reflexivity.
  - rewrite !lookup_alter_ne, !lookup_insert_ne by assumption. reflexivity.
Qed.

(** One turn of the loop of [fetchNodeLookupForSubWorkflow]. *)
Lemma fetchNodeLookupLoop_cons nCtx uniqueparentID currentAttemptStr n rest w :
  fetchNodeLookupLoop nCtx uniqueparentID currentAttemptStr (n :: rest) w =
  match v1alpha1.Unresolvable (wStatus w) !! n with
  | Some e => (Val (Some e), w)
  | None =>
      match uniqueparentID with
      | None => (Panic, withStatus w (ensured (wStatus w) n))
      | Some parentID =>
          match ComputeUniqueIDForNode n parentID currentAttemptStr with
          | (_, Some e) => (Val (Some e), withStatus w (ensured (wStatus w) n))
          | (newID, None) =>
              fetchNodeLookupLoop nCtx uniqueparentID currentAttemptStr rest
                (withStatus w
                   (stamped (wStatus w) n newID (handler.CurrentAttempt nCtx)))
          end
      end
  end.
Proof.
  cbn [fetchNodeLookupLoop]. go_unfold.
  destruct (v1alpha1.Unresolvable (wStatus w) !! n) as [e|] eqn:Hres.
  - unfold v1alpha1.GetNodeExecutionStatus. rewrite Hres.
    cbn [fst snd]. destruct w; reflexivity.
  - rewrite (GetNodeExecutionStatus_resolvable _ _ Hres).
    destruct uniqueparentID as [parentID|]; [|reflexivity].
    destruct (ComputeUniqueIDForNode n parentID currentAttemptStr) as [newID [e|]];
      [reflexivity|].
    go_unfold. rewrite setters_stamp. reflexivity.
Qed.

Lemma settles_refl nCtx p a st : settles nCtx p a st st.
Proof. repeat split; auto. Qed.

Lemma settles_trans nCtx p a st1 st2 st3 :
  settles nCtx p a st1 st2 -> settles nCtx p a st2 st3 -> settles nCtx p a st1 st3.
Proof.
  intros (Hs1 & Hu1 & Hk1) (Hs2 & Hu2 & Hk2).
  repeat split; [congruence | congruence | auto].
Qed.

Lemma settled_other nCtx p a st st' n :
  v1alpha1.Self st' = v1alpha1.Self st ->
  v1alpha1.Unresolvable st' = v1alpha1.Unresolvable st ->
  v1alpha1.SubNodeStatus st' !! n = v1alpha1.SubNodeStatus st !! n ->
  settled nCtx p a st n -> settled nCtx p a st' n.
Proof.
  unfold settled. intros Hself Hun Hsub Hst. rewrite Hself, Hun, Hsub. exact Hst.
Qed.

Lemma ensured_fixed st n c :
  v1alpha1.SubNodeStatus st !! n = Some c -> ensured st n = st.
Proof.
  intros Hc. unfold ensured, entry. rewrite Hc. cbn.
  rewrite (insert_id _ _ _ Hc). apply withSubNodeStatus_same.
Qed.

Lemma stamped_fixed st n newID attempt c :
  v1alpha1.SubNodeStatus st !! n = Some c ->
  c = stamp (v1alpha1.GetUniqueNodeID (v1alpha1.Self st)) newID attempt c ->
  stamped st n newID attempt = st.
Proof.
  intros Hc Hstamp. unfold stamped, entry. rewrite Hc. cbn.
  rewrite <- Hstamp. rewrite (insert_id _ _ _ Hc). apply withSubNodeStatus_same.
Qed.

(** A turn that stops after the lookup settles its node when the loop is
    bound to stop there again. *)
Lemma ensured_settles nCtx p a st n :
  (forall parentID newID, p = Some parentID ->
     ComputeUniqueIDForNode n parentID a <> (newID, None)) ->
  settles nCtx p a st (ensured st n) /\ settled nCtx p a (ensured st n) n.
Proof.
  intros Hstop. split.
  - repeat split. intros k Hk. destruct (decide (n = k)) as [<-|Hne].
    + intros Hres. specialize (Hk Hres) as (c & Hc & Hfix).
      rewrite (ensured_fixed _ _ _ Hc). eauto.
    + apply (settled_other nCtx p a st); [reflexivity | reflexivity | | exact Hk].
      unfold ensured. cbn [v1alpha1.SubNodeStatus v1alpha1.withSubNodeStatus].
      apply lookup_insert_ne; assumption.
  - intros _. exists (entry st n). split.
    + unfold ensured. cbn [v1alpha1.SubNodeStatus v1alpha1.withSubNodeStatus].
      apply lookup_insert_eq.
    + intros parentID newID Hp Hc. destruct (Hstop _ _ Hp Hc).
Qed.

(** A full turn settles its node. *)
Lemma stamped_settles nCtx p a st n parentID newID :
  p = Some parentID ->
  ComputeUniqueIDForNode n parentID a = (newID, None) ->
  settles nCtx p a st (stamped st n newID (handler.CurrentAttempt nCtx)) /\
  settled nCtx p a (stamped st n newID (handler.CurrentAttempt nCtx)) n.
Proof.
  intros Hp Hc.
  assert (settled nCtx p a (stamped st n newID (handler.CurrentAttempt nCtx)) n) as Hn.
  { intros _. eexists. split.
    - unfold stamped. cbn [v1alpha1.SubNodeStatus v1alpha1.withSubNodeStatus].
      apply lookup_insert_eq.
    - intros parentID' newID' Hp' Hc'.
      assert (parentID' = parentID) as -> by congruence.
      assert (newID' = newID) as -> by congruence.
      reflexivity. }
  split; [|exact Hn].
  repeat split. intros k Hk. destruct (decide (n = k)) as [<-|Hne].
  - exact Hn.
  - apply (settled_other nCtx p a st); [reflexivity | reflexivity | | exact Hk].
    unfold stamped. cbn [v1alpha1.SubNodeStatus v1alpha1.withSubNodeStatus].
    apply lookup_insert_ne; assumption.
Qed.

(** On a settled node a turn of the loop changes nothing. *)
Lemma fetchNodeLookupLoop_settled nCtx p a n rest w :
  settled nCtx p a (wStatus w) n ->
  fetchNodeLookupLoop nCtx p a (n :: rest) w =
  match v1alpha1.Unresolvable (wStatus w) !! n with
  | Some e => (Val (Some e), w)
  | None =>
      match p with
      | None => (Panic, w)
      | Some parentID =>
          match ComputeUniqueIDForNode n parentID a with
          | (_, Some e) => (Val (Some e), w)
          | (newID, None) => fetchNodeLookupLoop nCtx p a rest w
          end
      end
  end.
Proof.
  intros Hset. rewrite fetchNodeLookupLoop_cons.
  destruct (v1alpha1.Unresolvable (wStatus w) !! n) as [e|] eqn:Hres; [reflexivity|].
  destruct (Hset Hres) as (c & Hc & Hfix).
  rewrite (ensured_fixed _ _ _ Hc), withStatus_same.
  destruct p as [parentID|]; [|reflexivity].
  destruct (ComputeUniqueIDForNode n parentID a) as [newID [e|]] eqn:Hid;
    [reflexivity|].
  rewrite (stamped_fixed _ _ _ _ _ Hc (Hfix _ _ eq_refl Hid)), withStatus_same.
  reflexivity.
Qed.

(** The loop settles what it visits, and run again on the status it left
    it returns the same and changes nothing. *)
Lemma fetchNodeLookupLoop_again nCtx p a (nodes : list v1alpha1.NodeID) : forall w,
  let r := fetchNodeLookupLoop nCtx p a nodes w in
  settles nCtx p a (wStatus w) (wStatus (snd r)) /\
  wTrace (snd r) = wTrace w /\
  fetchNodeLookupLoop nCtx p a nodes (snd r) = r.
Proof.
  induction nodes as [|n rest IH]; intros w; cbn zeta.
  - cbn. auto using settles_refl.
  - rewrite fetchNodeLookupLoop_cons.
    destruct (v1alpha1.Unresolvable (wStatus w) !! n) as [e|] eqn:Hres.
    { cbn [snd]. repeat split; auto using settles_refl.
      rewrite fetchNodeLookupLoop_cons, Hres. reflexivity. }
    destruct p as [parentID|] eqn:Hparent.
    2:{ destruct (ensured_settles nCtx None a (wStatus w) n) as (Hs & Hn);
          [congruence|].
        cbn [snd]. repeat split; try apply Hs.
        rewrite fetchNodeLookupLoop_settled by exact Hn.
        destruct Hs as (_ & Hun & _). cbn [wStatus withStatus].
        rewrite Hun, Hres. reflexivity. }
    destruct (ComputeUniqueIDForNode n parentID a) as [newID [e|]] eqn:Hid.
    { destruct (ensured_settles nCtx (Some parentID) a (wStatus w) n) as (Hs & Hn).
      { intros p' i' Hp'. assert (p' = parentID) as -> by congruence.
        rewrite Hid. discriminate. }
      cbn [snd]. repeat split; try apply Hs.
      rewrite fetchNodeLookupLoop_settled by exact Hn.
      destruct Hs as (_ & Hun & _). cbn [wStatus withStatus].
      rewrite Hun, Hres, Hid. reflexivity. }
    destruct (stamped_settles nCtx (Some parentID) a (wStatus w) n parentID newID
                eq_refl Hid) as (Hs & Hn).
    specialize (IH (withStatus w (stamped (wStatus w) n newID (handler.CurrentAttempt nCtx)))).
    cbn zeta in IH. destruct IH as (Hs' & Htr & Hagain).
    cbn [wStatus withStatus wTrace] in Hs', Htr.
    pose proof (settles_trans _ _ _ _ _ _ Hs Hs') as Hall.
    split; [exact Hall|]. split; [exact Htr|].
    rewrite fetchNodeLookupLoop_settled.
    + destruct Hall as (_ & Hun & _). rewrite Hun, Hres, Hid. exact Hagain.
    + destruct Hs' as (_ & _ & Hk). apply Hk. exact Hn.
Qed.

(** After a loop that ran to its end, every node of the list is stamped:
    its unique id is the computed one, its unique parent the unique id of
    the enclosing node, its parent attempts the current attempt. *)
Lemma fetchNodeLookupLoop_stamps nCtx p a (nodes : list v1alpha1.NodeID) : forall w w',
  fetchNodeLookupLoop nCtx p a nodes w = (Val None, w') ->
  forall n, In n nodes ->
  exists parentID newID c,
    p = Some parentID /\
    ComputeUniqueIDForNode n parentID a = (newID, None) /\
    v1alpha1.SubNodeStatus (wStatus w') !! n = Some c /\
    v1alpha1.GetUniqueNodeID c = Some newID /\
    v1alpha1.GetUniqueParentNodeID c = v1alpha1.GetUniqueNodeID (v1alpha1.Self (wStatus w)) /\
    v1alpha1.GetParentAttempts c = handler.CurrentAttempt nCtx.
Proof.
  induction nodes as [|k rest IH]; intros w w' Hrun n Hin; [destruct Hin|].
  rewrite fetchNodeLookupLoop_cons in Hrun.
  destruct (v1alpha1.Unresolvable (wStatus w) !! k) as [e|] eqn:Hres; [discriminate|].
  destruct p as [parentID|]; [|discriminate].
  destruct (ComputeUniqueIDForNode k parentID a) as [newID [e|]] eqn:Hid; [discriminate|].
  set (w1 := withStatus w (stamped (wStatus w) k newID (handler.CurrentAttempt nCtx))) in *.
  destruct (stamped_settles nCtx (Some parentID) a (wStatus w) k parentID newID
              eq_refl Hid) as ((Hself & Hun & _) & Hk).
  destruct (in_inv Hin) as [<-|Hrest].
  - pose proof (fetchNodeLookupLoop_again nCtx (Some parentID) a rest w1) as Hagain.
    cbn zeta in Hagain. rewrite Hrun in Hagain. cbn [snd] in Hagain.
    destruct Hagain as ((Hself' & Hun' & Hkeep) & _ & _).
    assert (v1alpha1.Unresolvable (wStatus w') !! k = None) as Hres'.
    { rewrite Hun'. cbn [w1 wStatus withStatus]. rewrite Hun. exact Hres. }
    destruct (Hkeep k Hk Hres') as (c & Hc & Hfix).
    specialize (Hfix parentID newID eq_refl Hid).
    exists parentID, newID, c.
    split; [reflexivity|]. split; [exact Hid|]. split; [exact Hc|].
    rewrite Hfix.
    cbn [stamp v1alpha1.GetUniqueNodeID v1alpha1.GetUniqueParentNodeID
         v1alpha1.GetParentAttempts].
    split; [reflexivity|]. split; [|reflexivity].
    rewrite Hself'. cbn [w1 wStatus withStatus]. rewrite Hself. reflexivity.
  - destruct (IH w1 w' Hrun n Hrest) as (pid & nid & c & Hp & Hc & Hlook & Hu & Hpar & Hat).
    exists pid, nid, c.
    split; [exact Hp|]. split; [exact Hc|]. split; [exact Hlook|].
    split; [exact Hu|]. split; [|exact Hat].
    rewrite Hpar. cbn [w1 wStatus withStatus]. rewrite Hself. reflexivity.
Qed.

(** [fetchNodeLookupForSubWorkflow] makes no call on a collaborator. *)
Lemma fetchNodeLookupForSubWorkflow_trace s nCtx subWorkflow w :
  wTrace (snd (fetchNodeLookupForSubWorkflow s nCtx subWorkflow w)) = wTrace w.
Proof.
  unfold fetchNodeLookupForSubWorkflow. go_unfold.
  pose proof (fetchNodeLookupLoop_again nCtx
                (v1alpha1.GetUniqueNodeID (v1alpha1.Self (wStatus w)))
                (strconv_Itoa (handler.CurrentAttempt nCtx))
                (v1alpha1.GetNodes subWorkflow)
                {| wStatus := wStatus w; wTrace := wTrace w |}) as (_ & Htr & _).
  cbn [wTrace] in Htr.
  destruct (fetchNodeLookupLoop _ _ _ _ _) as [[[e|]|] w']; exact Htr.
Qed.

(** The first call of [handleSubWorkflow] is the recursive pass from the
    start node. *)
Lemma handleSubWorkflow_calls s nCtx subworkflow nl w :
  exists rest,
    wTrace (snd (handleSubWorkflow s nCtx subworkflow nl w)) =
    wTrace w ++
      CallRecursiveNodeHandler (v1alpha1.GetID subworkflow)
        (v1alpha1.GetNodeID (v1alpha1.StartNode subworkflow)) :: rest.
Proof.
  unfold handleSubWorkflow. go_unfold.
  repeat (match goal with
          | |- context [match ?x with _ => _ end] =>
              lazymatch x with
              | context [match _ with _ => _ end] => fail
              | _ => destruct x
              end
          end; go_unfold);
    rewrite <- ?app_assoc; eexists; reflexivity.
Qed.

(** The calls of [startAndHandleSubWorkflow]: reading the inputs, setting
    them on the start node, and then those of [handleSubWorkflow]. *)
Lemma startAndHandleSubWorkflow_calls s nCtx subWorkflow nl w :
  let t := wTrace (snd (startAndHandleSubWorkflow s nCtx subWorkflow nl w)) in
  let seeding :=
    [CallInputReaderGet;
     CallSetInputsForStartNode (v1alpha1.GetID subWorkflow)
       (fst (handler.InputReader_Get nCtx))] in
  t = wTrace w ++ [CallInputReaderGet] \/
  t = wTrace w ++ seeding \/
  exists rest,
    t = wTrace w ++ seeding ++
          CallRecursiveNodeHandler (v1alpha1.GetID subWorkflow)
            (v1alpha1.GetNodeID (v1alpha1.StartNode subWorkflow)) :: rest.
Proof.
  cbn zeta. unfold startAndHandleSubWorkflow. go_unfold.
  destruct (handler.InputReader_Get nCtx) as [nodeInputs [e|]]; [left; reflexivity|].
  go_unfold.
  destruct (executors.SetInputsForStartNode _ _ _ _) as [startStatus [e|]];
    [right; left; rewrite <- app_assoc; reflexivity|].
  destruct (executors.HasFailed startStatus);
    [right; left; rewrite <- app_assoc; reflexivity|].
  right; right.
  destruct (handleSubWorkflow_calls s nCtx subWorkflow nl
              {| wStatus := wStatus w;
                 wTrace := (wTrace w ++ [CallInputReaderGet]) ++
                   [CallSetInputsForStartNode (v1alpha1.GetID subWorkflow) nodeInputs] |})
    as (rest & Hrest).
  exists rest. rewrite Hrest. cbn [wTrace fst]. rewrite <- !app_assoc. reflexivity.
Qed.

(** ** The claims *)

(** C1, as amended.  With a failure node configured and [E1] the error of
    the persisted workflow node state: when the recursive pass over the
    failure node returns Complete, [HandleFailureNodeOfSubWorkflow] returns
    Failed with [E1]; when it returns PartiallyComplete and the re-enqueue
    callback returns no error, Failing with [E1] (and when the callback
    returns an error, the unknown transition with that error); when it
    returns Failed with error [E2], Failed with [E2]. *)
Theorem C1_failure_node_masks_with_original_error
    s nCtx subworkflow nl w onFailureNode state E1 :
  v1alpha1.GetOnFailureNode subworkflow = Some onFailureNode ->
  handler.Error (handler.GetWorkflowNodeState nCtx) = E1 ->
  executors.RecursiveNodeHandler (nodeExecutor s) subworkflow nl onFailureNode =
    (state, None) ->
  let r := result (HandleFailureNodeOfSubWorkflow s nCtx subworkflow nl) w in
  (executors.IsComplete state = true ->
   r = Val (ephemeral (handler.PhaseInfoFailureErr E1 None), None)) /\
  (executors.PartiallyComplete state = true ->
   handler.EnqueueOwnerFunc nCtx = None ->
   r = Val (ephemeral (handler.PhaseInfoFailingErr E1 None), None)) /\
  (executors.PartiallyComplete state = true ->
   forall e, handler.EnqueueOwnerFunc nCtx = Some e ->
   r = Val (handler.UnknownTransition, Some e)) /\
  (forall E2, executors.HasFailed state = true -> executors.Err state = E2 ->
   r = Val (ephemeral (handler.PhaseInfoFailureErr E2 None), None)).
Proof.
  intros Hnode HE1 Hrec r. subst r E1. unfold result.
  rewrite (HandleFailureNodeOfSubWorkflow_run _ _ _ _ _ _ _ Hnode Hrec).
  cbn [fst]. unfold executors.IsComplete, executors.PartiallyComplete, executors.HasFailed.
  destruct (executors.GetNodePhase state); repeat split; try discriminate.
  - intros _ He. rewrite He. reflexivity.
  - intros _ e He. rewrite He. reflexivity.
  - intros E2 _ <-. reflexivity.
Qed.

(** C2.  Whenever the recursive pass returns a state that has failed with
    error [E], [handleSubWorkflow] puts the workflow node state
    [{Phase: Failing, Error: E}] through the node state writer (its only
    call after the recursive pass), and the transition it returns is
    Failing with [E] if the sub-workflow has a failure node, Failed with
    [E] if not. *)
Theorem C2_failed_puts_failing_state_and_fails
    s nCtx subworkflow nl w state E :
  executors.RecursiveNodeHandler (nodeExecutor s) subworkflow nl
    (v1alpha1.StartNode subworkflow) = (state, None) ->
  executors.HasFailed state = true ->
  executors.Err state = E ->
  made (handleSubWorkflow s nCtx subworkflow nl) w =
    [CallRecursiveNodeHandler (v1alpha1.GetID subworkflow)
       (v1alpha1.GetNodeID (v1alpha1.StartNode subworkflow));
     CallPutWorkflowNodeState
       {| handler.Phase := v1alpha1.WorkflowNodePhaseFailing; handler.Error := E |}] /\
  exists err,
    result (handleSubWorkflow s nCtx subworkflow nl) w =
    Val (match v1alpha1.GetOnFailureNode subworkflow with
         | Some _ => ephemeral (handler.PhaseInfoFailingErr E None)
         | None => ephemeral (handler.PhaseInfoFailureErr E None)
         end, err).
Proof.
  intros Hrec Hfailed <-. unfold made, result.
  rewrite (handleSubWorkflow_failed _ _ _ _ _ _ Hrec Hfailed). cbn [fst snd wTrace].
  split.
  - apply made_app2.
  - eexists. destruct (v1alpha1.GetOnFailureNode subworkflow); reflexivity.
Qed.

(** C3.  When the recursive pass returns Complete and the sub-workflow has
    no output bindings, the recursive pass is the only call
    [handleSubWorkflow] makes (no lookup of the end node's status, no
    head, no copy) and it returns the Succeeded transition whose
    execution info has a nil output info. *)
Theorem C3_complete_without_outputs_succeeds
    s nCtx subworkflow nl w state :
  executors.RecursiveNodeHandler (nodeExecutor s) subworkflow nl
    (v1alpha1.StartNode subworkflow) = (state, None) ->
  executors.IsComplete state = true ->
  v1alpha1.GetOutputBindings subworkflow = [] ->
  let calls_made := made (handleSubWorkflow s nCtx subworkflow nl) w in
  calls isLookup calls_made = 0%nat /\
  calls isHead calls_made = 0%nat /\
  calls isCopyRaw calls_made = 0%nat /\
  result (handleSubWorkflow s nCtx subworkflow nl) w =
    Val (ephemeral (handler.PhaseInfoSuccess (Some {| handler.GetOutputInfo := None |})),
         None).
Proof.
  intros Hrec Hcomplete Hnone. unfold made, result.
  rewrite (handleSubWorkflow_complete_no_outputs _ _ _ _ _ _ Hrec Hcomplete Hnone).
  cbn [fst snd wTrace]. rewrite made_app. repeat split.
Qed.

(** C4.  When the recursive pass returns Complete, the sub-workflow has
    output bindings, the status of the end node is found, and the head of
    its outputs file succeeds and says the file does not exist,
    [handleSubWorkflow] returns, with no error, the Failed transition
    (not Running, not the unknown one) whose message names the outputs
    file, and makes no copy. *)
Theorem C4_missing_outputs_file_fails
    s nCtx subworkflow nl w state endNodeStatus st' metadata :
  executors.RecursiveNodeHandler (nodeExecutor s) subworkflow nl
    (v1alpha1.StartNode subworkflow) = (state, None) ->
  executors.IsComplete state = true ->
  v1alpha1.GetOutputBindings subworkflow <> [] ->
  executors.LookupNodeExecutionStatus nl EndNodeID (wStatus w) =
    ((Some endNodeStatus, None), st') ->
  let sourcePath := GetOutputsFile (v1alpha1.GetOutputDir endNodeStatus) in
  handler.DataStore_Head nCtx sourcePath = (metadata, None) ->
  storage.Exists metadata = false ->
  exists t,
    result (handleSubWorkflow s nCtx subworkflow nl) w = Val (t, None) /\
    handler.GetPhase (handler.Info t) = handler.EPhaseFailed /\
    t <> handler.UnknownTransition /\
    core.Message <$> handler.GetErr (handler.Info t) =
      Some ("Subworkflow is expected to produce outputs but no outputs file was written to "
            +:+ sourcePath +:+ ".") /\
    calls isCopyRaw (made (handleSubWorkflow s nCtx subworkflow nl) w) = 0%nat.
Proof.
  intros Hrec Hcomplete Hsome Hlookup sourcePath Hhead Hexists.
  pose proof (handleSubWorkflow_complete_head s nCtx subworkflow nl w state
                endNodeStatus st' Hrec Hcomplete Hsome Hlookup) as Hrun.
  cbn zeta in Hrun. fold sourcePath in Hrun. rewrite Hhead in Hrun.
  specialize (Hrun Hexists). unfold made, result. rewrite Hrun.
  cbn [fst snd wTrace]. eexists. split; [reflexivity|].
  split; [reflexivity|]. split; [discriminate|]. split; [reflexivity|].
  rewrite <- !app_assoc, made_app. reflexivity.
Qed.

(** C6.  Whenever the recursive pass returns PartiallyComplete,
    [handleSubWorkflow] calls the re-enqueue callback exactly once; if the
    callback returns no error it returns the Running transition, and if
    the callback returns an error it returns the unknown transition with
    that error; in neither case is the transition Succeeded or Failed. *)
Theorem C6_partially_complete_enqueues_once_and_runs
    s nCtx subworkflow nl w state :
  executors.RecursiveNodeHandler (nodeExecutor s) subworkflow nl
    (v1alpha1.StartNode subworkflow) = (state, None) ->
  executors.PartiallyComplete state = true ->
  let r := result (handleSubWorkflow s nCtx subworkflow nl) w in
  calls isEnqueueOwner (made (handleSubWorkflow s nCtx subworkflow nl) w) = 1%nat /\
  (handler.EnqueueOwnerFunc nCtx = None ->
   r = Val (ephemeral (handler.PhaseInfoRunning None), None)) /\
  (forall e, handler.EnqueueOwnerFunc nCtx = Some e ->
   r = Val (handler.UnknownTransition, Some e)) /\
  (exists t err, r = Val (t, err) /\
     handler.GetPhase (handler.Info t) <> handler.EPhaseSuccess /\
     handler.GetPhase (handler.Info t) <> handler.EPhaseFailed).
Proof.
  intros Hrec Hpartial r. subst r. unfold made, result.
  rewrite (handleSubWorkflow_partially_complete _ _ _ _ _ _ Hrec Hpartial).
  cbn [fst snd wTrace]. rewrite made_app2. split; [reflexivity|].
  destruct (handler.EnqueueOwnerFunc nCtx) as [e|].
  - split; [discriminate|]. split; [intros e' [= <-]; reflexivity|].
    eexists _, _. split; [reflexivity|]. split; discriminate.
  - split; [reflexivity|]. split; [discriminate|].
    eexists _, _. split; [reflexivity|]. split; discriminate.
Qed.

(** C5: what the code does.  When the recursive pass returns Complete, the
    sub-workflow has output bindings, the status of the end node is found
    and the head of its outputs file returns an error, [handleSubWorkflow]
    returns the transition with the undefined phase together with a nil
    error: the error of the store is not returned. *)
Theorem C5_head_error_is_not_returned
    s nCtx subworkflow nl w state endNodeStatus st' metadata e :
  executors.RecursiveNodeHandler (nodeExecutor s) subworkflow nl
    (v1alpha1.StartNode subworkflow) = (state, None) ->
  executors.IsComplete state = true ->
  v1alpha1.GetOutputBindings subworkflow <> [] ->
  executors.LookupNodeExecutionStatus nl EndNodeID (wStatus w) =
    ((Some endNodeStatus, None), st') ->
  handler.DataStore_Head nCtx (GetOutputsFile (v1alpha1.GetOutputDir endNodeStatus)) =
    (metadata, Some e) ->
  result (handleSubWorkflow s nCtx subworkflow nl) w =
    Val (ephemeral handler.PhaseInfoUndefined, None) /\
  result (handleSubWorkflow s nCtx subworkflow nl) w <>
    Val (ephemeral handler.PhaseInfoUndefined, Some e).
Proof.
  intros Hrec Hcomplete Hsome Hlookup Hhead.
  pose proof (handleSubWorkflow_complete_head s nCtx subworkflow nl w state
                endNodeStatus st' Hrec Hcomplete Hsome Hlookup) as Hrun.
  cbn zeta in Hrun. rewrite Hhead in Hrun. unfold result. rewrite Hrun.
  cbn [fst]. split; [reflexivity | discriminate].
Qed.

(** C7, as amended.  [CheckSubWorkflowStatus] is [StartSubWorkflow]: on
    either entry point, a run that reaches the recursive pass has first
    read the inputs of the enclosing node and set them on the start node
    of the sub-workflow, in that order and with nothing in between. *)
Theorem C7_both_entry_points_seed_inputs s nCtx w :
  CheckSubWorkflowStatus s nCtx w = StartSubWorkflow s nCtx w /\
  (calls isRecursiveNodeHandler (made (CheckSubWorkflowStatus s nCtx) w) <> 0%nat ->
   exists subWorkflow rest,
     made (CheckSubWorkflowStatus s nCtx) w =
     [CallInputReaderGet;
      CallSetInputsForStartNode (v1alpha1.GetID subWorkflow)
        (fst (handler.InputReader_Get nCtx))] ++
     CallRecursiveNodeHandler (v1alpha1.GetID subWorkflow)
       (v1alpha1.GetNodeID (v1alpha1.StartNode subWorkflow)) :: rest).
Proof.
  split; [reflexivity|].
  unfold made, CheckSubWorkflowStatus. unfold bind at 1 3.
  destruct (v1alpha1.GetSubWorkflowRef (handler.Node nCtx)) as [subID|] eqn:Href.
  2:{ unfold GetSubWorkflow. rewrite Href. go_unfold. rewrite made_nil.
      intros H; destruct H; reflexivity. }
  rewrite (GetSubWorkflow_run nCtx w subID Href).
  destruct (handler.FindSubWorkflow nCtx subID) as [subWorkflow|].
  2:{ go_unfold. rewrite made_nil. intros H; destruct H; reflexivity. }
  unfold bind.
  pose proof (fetchNodeLookupForSubWorkflow_trace s nCtx subWorkflow w) as Htr.
  destruct (fetchNodeLookupForSubWorkflow s nCtx subWorkflow w) as [[[nl|e]|] w1];
    cbn [snd] in Htr.
  - pose proof (startAndHandleSubWorkflow_calls s nCtx subWorkflow nl w1) as Hcalls.
    cbn zeta in Hcalls. rewrite Htr in Hcalls.
    destruct Hcalls as [Ht | [Ht | (rest & Ht)]]; rewrite Ht, made_app.
    + intros H; destruct H; reflexivity.
    + intros H; destruct H; reflexivity.
    + intros _. exists subWorkflow, rest. reflexivity.
  - unfold ret. cbn [snd]. rewrite Htr, made_nil. intros H; destruct H; reflexivity.
  - cbn [snd]. rewrite Htr, made_nil. intros H; destruct H; reflexivity.
Qed.

(** C8.  Run twice in a row, with the same attempt and the status the
    first run left, [fetchNodeLookupForSubWorkflow] returns the second
    time what it returned the first time and leaves the status as the
    first run left it; and when the runs succeed, every node of the
    sub-workflow has, after the first run and after the second, the same
    entry, whose unique id is the one computed from the node, the unique
    id of the enclosing node and the attempt, whose unique parent is the
    unique id of the enclosing node and whose parent attempts are the
    current attempt. *)
Theorem C8_fetchNodeLookup_is_idempotent s nCtx subWorkflow w :
  let first := fetchNodeLookupForSubWorkflow s nCtx subWorkflow w in
  let second := fetchNodeLookupForSubWorkflow s nCtx subWorkflow (snd first) in
  second = first /\
  forall nl n,
    fst first = Val (inl nl) ->
    In n (v1alpha1.GetNodes subWorkflow) ->
    exists parentID newID c,
      v1alpha1.GetUniqueNodeID (v1alpha1.Self (wStatus w)) = Some parentID /\
      ComputeUniqueIDForNode n parentID (strconv_Itoa (handler.CurrentAttempt nCtx)) =
        (newID, None) /\
      v1alpha1.SubNodeStatus (wStatus (snd first)) !! n = Some c /\
      v1alpha1.SubNodeStatus (wStatus (snd second)) !! n = Some c /\
      v1alpha1.GetUniqueNodeID c = Some newID /\
      v1alpha1.GetUniqueParentNodeID c = Some parentID /\
      v1alpha1.GetParentAttempts c = handler.CurrentAttempt nCtx.
Proof.
  cbn zeta.
  assert (fetchNodeLookupForSubWorkflow s nCtx subWorkflow
            (snd (fetchNodeLookupForSubWorkflow s nCtx subWorkflow w)) =
          fetchNodeLookupForSubWorkflow s nCtx subWorkflow w) as Hsame.
  { unfold fetchNodeLookupForSubWorkflow. go_unfold.
    pose proof (fetchNodeLookupLoop_again nCtx
                  (v1alpha1.GetUniqueNodeID (v1alpha1.Self (wStatus w)))
                  (strconv_Itoa (handler.CurrentAttempt nCtx))
                  (v1alpha1.GetNodes subWorkflow)
                  {| wStatus := wStatus w; wTrace := wTrace w |})
      as ((Hself & _ & _) & _ & Hagain).
    cbn zeta in Hagain. cbn [wStatus] in Hself.
    destruct (fetchNodeLookupLoop _ _ _ _ _) as [r w1] eqn:Hrun.
    cbn [snd] in Hagain, Hself.
    destruct r as [[e|]|]; go_unfold; rewrite Hself;
      replace {| wStatus := wStatus w1; wTrace := wTrace w1 |} with w1
        by (destruct w1; reflexivity);
      rewrite Hagain; reflexivity. }
  split; [exact Hsame|].
  intros nl n Hok Hin. rewrite Hsame.
  unfold fetchNodeLookupForSubWorkflow in Hok |- *. revert Hok. go_unfold.
  destruct (fetchNodeLookupLoop _ _ _ _ _) as [r w1] eqn:Hrun.
  destruct r as [[e|]|]; cbn [fst snd]; try discriminate. intros _.
  destruct (fetchNodeLookupLoop_stamps _ _ _ _ _ _ Hrun n Hin)
    as (parentID & newID & c & Hp & Hid & Hc & Hu & Hpar & Hat).
  cbn [wStatus] in Hpar, Hp.
  exists parentID, newID, c. rewrite Hpar. auto 10.
Qed.

(** C9.  When the sub-workflow the node refers to is not found,
    [HandleAbort] returns the error of the resolution and makes no call
    at all, so none on the abort handler of the executor; when it is
    found, [HandleAbort] calls the abort handler once and returns what it
    returns, as it is. *)
Theorem C9_abort_resolves_then_forwards s nCtx reason w subID :
  v1alpha1.GetSubWorkflowRef (handler.Node nCtx) = Some subID ->
  (handler.FindSubWorkflow nCtx subID = None ->
   result (HandleAbort s nCtx reason) w =
     Val (Some (fmt_Errorf ("failed to find sub workflow with ID [" +:+ subID +:+ "]"))) /\
   made (HandleAbort s nCtx reason) w = [] /\
   calls isAbortHandler (made (HandleAbort s nCtx reason) w) = 0%nat) /\
  (forall subWorkflow,
   handler.FindSubWorkflow nCtx subID = Some subWorkflow ->
   result (HandleAbort s nCtx reason) w =
     Val (executors.AbortHandler (nodeExecutor s) subWorkflow
            (executors.NewNodeLookup subWorkflow)
            (v1alpha1.StartNode subWorkflow) reason) /\
   made (HandleAbort s nCtx reason) w =
     [CallAbortHandler (v1alpha1.GetID subWorkflow)
        (v1alpha1.GetNodeID (v1alpha1.StartNode subWorkflow)) reason]).
Proof.
  intros Href. unfold result, made. rewrite (HandleAbort_run s nCtx reason w subID Href).
  split.
  - intros ->. cbn [fst snd]. rewrite made_nil. repeat split.
  - intros subWorkflow ->. cbn [fst snd wTrace]. rewrite made_app. split; reflexivity.
Qed.

(** C10.  On the Failed branch of [handleSubWorkflow], when putting the
    workflow node state returns an error, the handler still returns the
    Failing transition (Failed, without a failure node) with the error of
    the sub-workflow, not the unknown transition, and returns the error of
    the state writer beside it. *)
Theorem C10_put_error_keeps_failure_transition
    s nCtx subworkflow nl w state putErr :
  executors.RecursiveNodeHandler (nodeExecutor s) subworkflow nl
    (v1alpha1.StartNode subworkflow) = (state, None) ->
  executors.HasFailed state = true ->
  handler.PutWorkflowNodeState nCtx
    {| handler.Phase := v1alpha1.WorkflowNodePhaseFailing;
       handler.Error := executors.Err state |} = Some putErr ->
  let t := match v1alpha1.GetOnFailureNode subworkflow with
           | Some _ => ephemeral (handler.PhaseInfoFailingErr (executors.Err state) None)
           | None => ephemeral (handler.PhaseInfoFailureErr (executors.Err state) None)
           end in
  result (handleSubWorkflow s nCtx subworkflow nl) w = Val (t, Some putErr) /\
  t <> handler.UnknownTransition /\
  handler.GetPhase (handler.Info t) =
    match v1alpha1.GetOnFailureNode subworkflow with
    | Some _ => handler.EPhaseFailing
    | None => handler.EPhaseFailed
    end.
Proof.
  intros Hrec Hfailed Hput t. unfold result.
  rewrite (handleSubWorkflow_failed _ _ _ _ _ _ Hrec Hfailed). cbn [fst].
  rewrite Hput. subst t.
  destruct (v1alpha1.GetOnFailureNode subworkflow); repeat split; discriminate.
Qed.

(** ** Further properties of the handler *)

Ltac go_paths :=
  go_unfold;
  repeat (match goal with
          | |- context [match ?x with _ => _ end] =>
              lazymatch x with
              | context [match _ with _ => _ end] => fail
              | _ => destruct x eqn:?
              end
          end; go_unfold).

Ltac go_made := rewrite <- ?app_assoc; rewrite ?made_app, ?made_nil; cbn [app].

(** [startAndHandleSubWorkflow], step by step. *)
Lemma startAndHandleSubWorkflow_run s nCtx subWorkflow nl w :
  let seeded (inputs : option core.LiteralMap) :=
    {| wStatus := wStatus w;
       wTrace := (wTrace w ++ [CallInputReaderGet]) ++
         [CallSetInputsForStartNode (v1alpha1.GetID subWorkflow) inputs] |} in
  startAndHandleSubWorkflow s nCtx subWorkflow nl w =
  match handler.InputReader_Get nCtx with
  | (_, Some e) =>
      (Val (ephemeral (handler.PhaseInfoFailure core.ExecutionError_SYSTEM
                         errors.RuntimeExecutionError
                         ("Failed to read input. Error [" +:+ error_Error e +:+ "]") None),
            None),
       {| wStatus := wStatus w; wTrace := wTrace w ++ [CallInputReaderGet] |})
  | (nodeInputs, None) =>
      match executors.SetInputsForStartNode (nodeExecutor s) subWorkflow nl nodeInputs with
      | (_, Some e) => (Val (ephemeral handler.PhaseInfoUndefined, Some e), seeded nodeInputs)
      | (startStatus, None) =>
          if executors.HasFailed startStatus then
            (Val (ephemeral (handler.PhaseInfoFailureErr (executors.Err startStatus) None),
                  None), seeded nodeInputs)
          else handleSubWorkflow s nCtx subWorkflow nl (seeded nodeInputs)
      end
  end.
Proof.
  cbn zeta. unfold startAndHandleSubWorkflow. go_unfold.
  destruct (handler.InputReader_Get nCtx) as [nodeInputs [e|]]; [reflexivity|].
  go_unfold.
  destruct (executors.SetInputsForStartNode _ _ _ _) as [startStatus [e|]]; [reflexivity|].
  destruct (executors.HasFailed startStatus); reflexivity.
Qed.

(** X1.  When reading the inputs of the enclosing node fails,
    [startAndHandleSubWorkflow] returns, with a nil error, the Failed
    transition of kind SYSTEM and code RuntimeExecutionError whose message
    carries the text of the read error; reading the inputs is the only
    call it makes. *)
Theorem X1_input_read_failure_is_a_system_failure
    s nCtx subWorkflow nl w nodeInputs e :
  handler.InputReader_Get nCtx = (nodeInputs, Some e) ->
  result (startAndHandleSubWorkflow s nCtx subWorkflow nl) w =
    Val (ephemeral (handler.PhaseInfoFailure core.ExecutionError_SYSTEM
                      errors.RuntimeExecutionError
                      ("Failed to read input. Error [" +:+ error_Error e +:+ "]") None),
         None) /\
  made (startAndHandleSubWorkflow s nCtx subWorkflow nl) w = [CallInputReaderGet].
Proof.
  intros Hget. unfold result, made. rewrite startAndHandleSubWorkflow_run, Hget.
  cbn [fst snd wTrace]. rewrite made_app. split; reflexivity.
Qed.

(** X2.  When the inputs are read but setting them on the start node
    returns an error, [startAndHandleSubWorkflow] returns the transition
    with the undefined phase together with that very error, and the
    recursive pass is not run. *)
Theorem X2_set_inputs_error_is_returned
    s nCtx subWorkflow nl w nodeInputs startStatus e :
  handler.InputReader_Get nCtx = (nodeInputs, None) ->
  executors.SetInputsForStartNode (nodeExecutor s) subWorkflow nl nodeInputs =
    (startStatus, Some e) ->
  result (startAndHandleSubWorkflow s nCtx subWorkflow nl) w =
    Val (ephemeral handler.PhaseInfoUndefined, Some e) /\
  made (startAndHandleSubWorkflow s nCtx subWorkflow nl) w =
    [CallInputReaderGet;
     CallSetInputsForStartNode (v1alpha1.GetID subWorkflow) nodeInputs].
Proof.
  intros Hget Hset. unfold result, made. rewrite startAndHandleSubWorkflow_run, Hget, Hset.
  cbn [fst snd wTrace]. rewrite made_app2. split; reflexivity.
Qed.

(** X3.  When setting the inputs returns no error but a start status
    that has failed, [startAndHandleSubWorkflow] returns, with a nil
    error, the Failed transition with the error of that status, and the
    recursive pass is not run. *)
Theorem X3_failed_start_status_fails_the_node
    s nCtx subWorkflow nl w nodeInputs startStatus :
  handler.InputReader_Get nCtx = (nodeInputs, None) ->
  executors.SetInputsForStartNode (nodeExecutor s) subWorkflow nl nodeInputs =
    (startStatus, None) ->
  executors.HasFailed startStatus = true ->
  result (startAndHandleSubWorkflow s nCtx subWorkflow nl) w =
    Val (ephemeral (handler.PhaseInfoFailureErr (executors.Err startStatus) None), None) /\
  calls isRecursiveNodeHandler (made (startAndHandleSubWorkflow s nCtx subWorkflow nl) w)
    = 0%nat.
Proof.
  intros Hget Hset Hfailed. unfold result, made.
  rewrite startAndHandleSubWorkflow_run, Hget, Hset, Hfailed.
  cbn [fst snd wTrace]. rewrite made_app2. split; reflexivity.
Qed.

(** How often each kind of call occurs among the calls of
    [handleSubWorkflow]. *)
Lemma handleSubWorkflow_call_counts s nCtx subworkflow nl w :
  let t := made (handleSubWorkflow s nCtx subworkflow nl) w in
  let answer := executors.RecursiveNodeHandler (nodeExecutor s) subworkflow nl
                  (v1alpha1.StartNode subworkflow) in
  calls isRecursiveNodeHandler t = 1%nat /\
  calls isInputSeeding t = 0%nat /\
  calls isPutWorkflowNodeState t =
    once (match answer with
          | (state, None) => executors.HasFailed state
          | (_, Some _) => false
          end) /\
  calls isEnqueueOwner t =
    once (match answer with
          | (state, None) =>
              negb (executors.HasFailed state) && negb (executors.IsComplete state)
              && executors.PartiallyComplete state
          | (_, Some _) => false
          end) /\
  calls isLookup t =
    once (match answer with
          | (state, None) =>
              negb (executors.HasFailed state) && executors.IsComplete state
              && (0 <? length (v1alpha1.GetOutputBindings subworkflow))%nat
          | (_, Some _) => false
          end) /\
  (calls isCopyRaw t <= calls isHead t <= calls isLookup t)%nat.
Proof.
  cbn zeta. unfold handleSubWorkflow. go_paths; go_made; unfold calls;
    vm_compute; repeat split; lia.
Qed.

Lemma calls_app (f : Call -> bool) (t1 t2 : list Call) :
  calls f (t1 ++ t2) = (calls f t1 + calls f t2)%nat.
Proof. unfold calls. rewrite filter_app, length_app. reflexivity. Qed.

(** The calls of [handleSubWorkflow] come after those made before it. *)
Lemma handleSubWorkflow_extends s nCtx subworkflow nl w :
  wTrace (snd (handleSubWorkflow s nCtx subworkflow nl w)) =
  wTrace w ++ made (handleSubWorkflow s nCtx subworkflow nl) w.
Proof.
  destruct (handleSubWorkflow_calls s nCtx subworkflow nl w) as (rest & Hrest).
  unfold made. rewrite Hrest, made_app. reflexivity.
Qed.

(** X4.  [startAndHandleSubWorkflow] runs the recursive pass at most
    once, and exactly once when the inputs are read without error, set on
    the start node without error, and the start status has not failed;
    in every other case it does not run it. *)
Theorem X4_recursive_pass_runs_once_after_seeding s nCtx subWorkflow nl w :
  calls isRecursiveNodeHandler (made (startAndHandleSubWorkflow s nCtx subWorkflow nl) w) =
  match handler.InputReader_Get nCtx with
  | (_, Some _) => 0%nat
  | (nodeInputs, None) =>
      match executors.SetInputsForStartNode (nodeExecutor s) subWorkflow nl nodeInputs with
      | (_, Some _) => 0%nat
      | (startStatus, None) => if executors.HasFailed startStatus then 0%nat else 1%nat
      end
  end.
Proof.
  unfold made at 1. rewrite startAndHandleSubWorkflow_run. cbn zeta.
  destruct (handler.InputReader_Get nCtx) as [nodeInputs [e|]].
  { cbn [snd wTrace]. rewrite made_app. reflexivity. }
  destruct (executors.SetInputsForStartNode _ _ _ _) as [startStatus [e|]].
  { cbn [snd wTrace]. rewrite made_app2. reflexivity. }
  destruct (executors.HasFailed startStatus).
  { cbn [snd wTrace]. rewrite made_app2. reflexivity. }
  set (w1 := {| wStatus := wStatus w;
                wTrace := (wTrace w ++ [CallInputReaderGet]) ++
                  [CallSetInputsForStartNode (v1alpha1.GetID subWorkflow) nodeInputs] |}).
  destruct (handleSubWorkflow_call_counts s nCtx subWorkflow nl w1) as (Hone & _).
  rewrite handleSubWorkflow_extends.
  change (wTrace w1) with
    ((wTrace w ++ [CallInputReaderGet]) ++
     [CallSetInputsForStartNode (v1alpha1.GetID subWorkflow) nodeInputs]).
  rewrite <- !app_assoc, made_app, !calls_app, Hone. reflexivity.
Qed.

(** X5.  When the recursive pass itself returns an error,
    [handleSubWorkflow] returns the transition with the undefined phase
    together with that very error, and makes no other call: nothing is
    written to the node state, nothing is asked of the store, no
    re-enqueue is requested. *)
Theorem X5_recursive_pass_error_is_returned s nCtx subworkflow nl w state e :
  executors.RecursiveNodeHandler (nodeExecutor s) subworkflow nl
    (v1alpha1.StartNode subworkflow) = (state, Some e) ->
  result (handleSubWorkflow s nCtx subworkflow nl) w =
    Val (ephemeral handler.PhaseInfoUndefined, Some e) /\
  made (handleSubWorkflow s nCtx subworkflow nl) w =
    [CallRecursiveNodeHandler (v1alpha1.GetID subworkflow)
       (v1alpha1.GetNodeID (v1alpha1.StartNode subworkflow))].
Proof.
  intros Hrec. unfold result, made, handleSubWorkflow. go_unfold. rewrite Hrec.
  cbn [fst snd wTrace]. rewrite made_app. split; reflexivity.
Qed.

(** The Complete branch of [handleSubWorkflow] with output bindings, up
    to the lookup of the end node's status. *)
Lemma handleSubWorkflow_complete_lookup s nCtx subworkflow nl w state :
  executors.RecursiveNodeHandler (nodeExecutor s) subworkflow nl
    (v1alpha1.StartNode subworkflow) = (state, None) ->
  executors.IsComplete state = true ->
  v1alpha1.GetOutputBindings subworkflow <> [] ->
  let w1 st' := {| wStatus := st';
                   wTrace := (wTrace w ++
                     [CallRecursiveNodeHandler (v1alpha1.GetID subworkflow)
                        (v1alpha1.GetNodeID (v1alpha1.StartNode subworkflow))]) ++
                     [CallLookupNodeExecutionStatus EndNodeID] |} in
  match executors.LookupNodeExecutionStatus nl EndNodeID (wStatus w) with
  | ((_, Some e), st') =>
      handleSubWorkflow s nCtx subworkflow nl w =
      (Val (handler.UnknownTransition, Some e), w1 st')
  | ((None, None), st') =>
      handleSubWorkflow s nCtx subworkflow nl w =
      (Val (ephemeral (handler.PhaseInfoFailure core.ExecutionError_SYSTEM
                         errors.SubWorkflowExecutionFailed
                         "No end node found in subworkflow." None), None), w1 st')
  | ((Some _, None), _) => True
  end.
Proof.
  intros Hrec Hcomplete Hsome w1.
  destruct (complete_tests state Hcomplete) as (_ & Hfailed & _).
  assert ((0 <? length (v1alpha1.GetOutputBindings subworkflow))%nat = true) as Hlen.
  { destruct (v1alpha1.GetOutputBindings subworkflow); [congruence | reflexivity]. }
  destruct (executors.LookupNodeExecutionStatus nl EndNodeID (wStatus w))
    as [[endNodeStatus [e|]] st'] eqn:Hlookup.
  - destruct endNodeStatus;
      unfold handleSubWorkflow; go_unfold; rewrite Hrec, Hfailed, Hcomplete, Hlen;
      go_unfold; rewrite Hlookup; reflexivity.
  - destruct endNodeStatus; [exact I|].
    unfold handleSubWorkflow. go_unfold. rewrite Hrec, Hfailed, Hcomplete, Hlen.
    go_unfold. rewrite Hlookup. reflexivity.
Qed.

(** X6.  When the sub-workflow is complete and binds outputs but the
    lookup of the end node's status returns an error, [handleSubWorkflow]
    returns the unknown transition with that very error and asks nothing
    of the store. *)
Theorem X6_end_node_lookup_error_is_returned
    s nCtx subworkflow nl w state endNodeStatus e st' :
  executors.RecursiveNodeHandler (nodeExecutor s) subworkflow nl
    (v1alpha1.StartNode subworkflow) = (state, None) ->
  executors.IsComplete state = true ->
  v1alpha1.GetOutputBindings subworkflow <> [] ->
  executors.LookupNodeExecutionStatus nl EndNodeID (wStatus w) =
    ((endNodeStatus, Some e), st') ->
  result (handleSubWorkflow s nCtx subworkflow nl) w =
    Val (handler.UnknownTransition, Some e) /\
  calls isHead (made (handleSubWorkflow s nCtx subworkflow nl) w) = 0%nat /\
  calls isCopyRaw (made (handleSubWorkflow s nCtx subworkflow nl) w) = 0%nat.
Proof.
  intros Hrec Hcomplete Hsome Hlookup.
  pose proof (handleSubWorkflow_complete_lookup s nCtx subworkflow nl w state
                Hrec Hcomplete Hsome) as Hrun.
  cbn zeta in Hrun. rewrite Hlookup in Hrun.
  assert (handleSubWorkflow s nCtx subworkflow nl w =
          (Val (handler.UnknownTransition, Some e),
           {| wStatus := st';
              wTrace := (wTrace w ++
                [CallRecursiveNodeHandler (v1alpha1.GetID subworkflow)
                   (v1alpha1.GetNodeID (v1alpha1.StartNode subworkflow))]) ++
                [CallLookupNodeExecutionStatus EndNodeID] |})) as Hrun'
    by (destruct endNodeStatus; exact Hrun).
  unfold result, made. rewrite Hrun'.
  cbn [fst snd wTrace]. rewrite made_app2. repeat split.
Qed.

(** X7.  When the sub-workflow is complete and binds outputs but the
    lookup returns no status for the end node (and no error),
    [handleSubWorkflow] returns, with a nil error, the Failed transition
    of kind SYSTEM and code SubWorkflowExecutionFailed with the message
    "No end node found in subworkflow.", and asks nothing of the store. *)
Theorem X7_missing_end_node_fails s nCtx subworkflow nl w state st' :
  executors.RecursiveNodeHandler (nodeExecutor s) subworkflow nl
    (v1alpha1.StartNode subworkflow) = (state, None) ->
  executors.IsComplete state = true ->
  v1alpha1.GetOutputBindings subworkflow <> [] ->
  executors.LookupNodeExecutionStatus nl EndNodeID (wStatus w) = ((None, None), st') ->
  result (handleSubWorkflow s nCtx subworkflow nl) w =
    Val (ephemeral (handler.PhaseInfoFailure core.ExecutionError_SYSTEM
                      errors.SubWorkflowExecutionFailed
                      "No end node found in subworkflow." None), None) /\
  calls isHead (made (handleSubWorkflow s nCtx subworkflow nl) w) = 0%nat /\
  calls isCopyRaw (made (handleSubWorkflow s nCtx subworkflow nl) w) = 0%nat.
Proof.
  intros Hrec Hcomplete Hsome Hlookup.
  pose proof (handleSubWorkflow_complete_lookup s nCtx subworkflow nl w state
                Hrec Hcomplete Hsome) as Hrun.
  cbn zeta in Hrun. rewrite Hlookup in Hrun. cbv beta iota in Hrun.
  unfold result, made. rewrite Hrun.
  cbn [fst snd wTrace]. rewrite made_app2. repeat split.
Qed.

(** The Complete branch of [handleSubWorkflow] when the outputs file of
    the end node exists: by the answer of the copy. *)
Lemma handleSubWorkflow_complete_copy
    s nCtx subworkflow nl w state endNodeStatus st' metadata :
  executors.RecursiveNodeHandler (nodeExecutor s) subworkflow nl
    (v1alpha1.StartNode subworkflow) = (state, None) ->
  executors.IsComplete state = true ->
  v1alpha1.GetOutputBindings subworkflow <> [] ->
  executors.LookupNodeExecutionStatus nl EndNodeID (wStatus w) =
    ((Some endNodeStatus, None), st') ->
  let sourcePath := GetOutputsFile (v1alpha1.GetOutputDir endNodeStatus) in
  let destinationPath := GetOutputsFile (v1alpha1.GetOutputDir (v1alpha1.Self st')) in
  handler.DataStore_Head nCtx sourcePath = (metadata, None) ->
  storage.Exists metadata = true ->
  handleSubWorkflow s nCtx subworkflow nl w =
  (Val (match handler.DataStore_CopyRaw nCtx sourcePath destinationPath with
        | Some _ =>
            ephemeral (handler.PhaseInfoFailure core.ExecutionError_SYSTEM
                         errors.SubWorkflowExecutionFailed
                         ("Failed to copy subworkflow outputs from [" +:+ sourcePath
                          +:+ "] to [" +:+ destinationPath +:+ "]") None)
        | None =>
            ephemeral (handler.PhaseInfoSuccess
                         (Some {| handler.GetOutputInfo :=
                                    Some {| handler.OutputURI := destinationPath |} |}))
        end, None),
   {| wStatus := st';
      wTrace := wTrace w ++
        [CallRecursiveNodeHandler (v1alpha1.GetID subworkflow)
           (v1alpha1.GetNodeID (v1alpha1.StartNode subworkflow));
         CallLookupNodeExecutionStatus EndNodeID;
         CallHead sourcePath;
         CallCopyRaw sourcePath destinationPath] |}).
Proof.
  intros Hrec Hcomplete Hsome Hlookup sourcePath destinationPath Hhead Hexists.
  destruct (complete_tests state Hcomplete) as (_ & Hfailed & _).
  assert ((0 <? length (v1alpha1.GetOutputBindings subworkflow))%nat = true) as Hlen.
  { destruct (v1alpha1.GetOutputBindings subworkflow); [congruence | reflexivity]. }
  unfold handleSubWorkflow. go_unfold. rewrite Hrec, Hfailed, Hcomplete, Hlen.
  go_unfold. rewrite Hlookup. fold sourcePath. rewrite Hhead, Hexists.
  cbn [negb]. go_unfold. fold destinationPath.
  destruct (handler.DataStore_CopyRaw nCtx sourcePath destinationPath);
    rewrite <- !app_assoc; reflexivity.
Qed.

(** X8.  When the sub-workflow is complete and binds outputs, the end
    node's status is found, the head of its outputs file says the file
    exists and the copy succeeds, [handleSubWorkflow] copies exactly once,
    from the outputs file of the end node to the outputs file of the
    enclosing node, and returns Succeeded with the destination as output
    URI. *)
Theorem X8_outputs_are_copied_once_to_the_enclosing_node
    s nCtx subworkflow nl w state endNodeStatus st' metadata :
  executors.RecursiveNodeHandler (nodeExecutor s) subworkflow nl
    (v1alpha1.StartNode subworkflow) = (state, None) ->
  executors.IsComplete state = true ->
  v1alpha1.GetOutputBindings subworkflow <> [] ->
  executors.LookupNodeExecutionStatus nl EndNodeID (wStatus w) =
    ((Some endNodeStatus, None), st') ->
  let sourcePath := GetOutputsFile (v1alpha1.GetOutputDir endNodeStatus) in
  let destinationPath := GetOutputsFile (v1alpha1.GetOutputDir (v1alpha1.Self st')) in
  handler.DataStore_Head nCtx sourcePath = (metadata, None) ->
  storage.Exists metadata = true ->
  handler.DataStore_CopyRaw nCtx sourcePath destinationPath = None ->
  result (handleSubWorkflow s nCtx subworkflow nl) w =
    Val (ephemeral (handler.PhaseInfoSuccess
                      (Some {| handler.GetOutputInfo :=
                                 Some {| handler.OutputURI := destinationPath |} |})),
         None) /\
  filter (fun c => isCopyRaw c = true) (made (handleSubWorkflow s nCtx subworkflow nl) w) =
    [CallCopyRaw sourcePath destinationPath].
Proof.
  intros Hrec Hcomplete Hsome Hlookup sourcePath destinationPath Hhead Hexists Hcopy.
  unfold result, made.
  rewrite (handleSubWorkflow_complete_copy s nCtx subworkflow nl w state endNodeStatus st'
             metadata Hrec Hcomplete Hsome Hlookup Hhead Hexists).
  fold sourcePath destinationPath. rewrite Hcopy.
  cbn [fst snd wTrace]. rewrite made_app. split; reflexivity.
Qed.

(** X9.  In the same situation, when the copy returns an error,
    [handleSubWorkflow] returns the Failed transition of kind SYSTEM and
    code SubWorkflowExecutionFailed whose message names the source and
    the destination, with a nil error: the transition is terminal and the
    error of the store is not returned. *)
Theorem X9_copy_failure_is_terminal
    s nCtx subworkflow nl w state endNodeStatus st' metadata e :
  executors.RecursiveNodeHandler (nodeExecutor s) subworkflow nl
    (v1alpha1.StartNode subworkflow) = (state, None) ->
  executors.IsComplete state = true ->
  v1alpha1.GetOutputBindings subworkflow <> [] ->
  executors.LookupNodeExecutionStatus nl EndNodeID (wStatus w) =
    ((Some endNodeStatus, None), st') ->
  let sourcePath := GetOutputsFile (v1alpha1.GetOutputDir endNodeStatus) in
  let destinationPath := GetOutputsFile (v1alpha1.GetOutputDir (v1alpha1.Self st')) in
  handler.DataStore_Head nCtx sourcePath = (metadata, None) ->
  storage.Exists metadata = true ->
  handler.DataStore_CopyRaw nCtx sourcePath destinationPath = Some e ->
  result (handleSubWorkflow s nCtx subworkflow nl) w =
    Val (ephemeral (handler.PhaseInfoFailure core.ExecutionError_SYSTEM
                      errors.SubWorkflowExecutionFailed
                      ("Failed to copy subworkflow outputs from [" +:+ sourcePath
                       +:+ "] to [" +:+ destinationPath +:+ "]") None), None).
Proof.
  intros Hrec Hcomplete Hsome Hlookup sourcePath destinationPath Hhead Hexists Hcopy.
  unfold result.
  rewrite (handleSubWorkflow_complete_copy s nCtx subworkflow nl w state endNodeStatus st'
             metadata Hrec Hcomplete Hsome Hlookup Hhead Hexists).
  fold sourcePath destinationPath. rewrite Hcopy. reflexivity.
Qed.

(** X10.  [handleSubWorkflow] looks up the end node's status exactly
    when the recursive pass returned Complete without error and the
    sub-workflow binds outputs, and then once; it never asks the store for
    a head without that lookup, nor copies without a head, and so makes at
    most one head and at most one copy. *)
Theorem X10_store_is_used_only_for_complete_with_outputs s nCtx subworkflow nl w :
  let t := made (handleSubWorkflow s nCtx subworkflow nl) w in
  calls isLookup t =
    once (match executors.RecursiveNodeHandler (nodeExecutor s) subworkflow nl
                  (v1alpha1.StartNode subworkflow) with
          | (state, None) =>
              executors.IsComplete state
              && (0 <? length (v1alpha1.GetOutputBindings subworkflow))%nat
          | (_, Some _) => false
          end) /\
  (calls isCopyRaw t <= calls isHead t)%nat /\
  (calls isHead t <= calls isLookup t)%nat /\
  (calls isLookup t <= 1)%nat.
Proof.
  cbn zeta.
  destruct (handleSubWorkflow_call_counts s nCtx subworkflow nl w)
    as (_ & _ & _ & _ & Hlookup & Hle).
  cbn zeta in Hlookup. rewrite Hlookup.
  destruct (executors.RecursiveNodeHandler _ _ _ _) as [state [e|]].
  { split; [reflexivity|]. cbn [once] in *. rewrite Hlookup in Hle. cbn [once] in Hle. lia. }
  pose proof (phase_tests state) as P.
  unfold once in *.
  destruct (executors.GetNodePhase state); destruct P as (Hr & Hf & Hc & Hp);
    rewrite Hlookup, Hf, Hc in *; cbn [negb andb] in *;
    destruct (0 <? length (v1alpha1.GetOutputBindings subworkflow))%nat; split;
    try reflexivity; lia.
Qed.

(** X11.  [handleSubWorkflow] puts the workflow node state exactly when
    the recursive pass returned, without error, a state that has failed,
    and calls the re-enqueue callback exactly when it returned, without
    error, a partially complete state; each at most once.  On every other
    path nothing is written and no re-enqueue is requested. *)
Theorem X11_state_written_only_on_failure_reenqueue_only_when_partial
    s nCtx subworkflow nl w :
  let answer := executors.RecursiveNodeHandler (nodeExecutor s) subworkflow nl
                  (v1alpha1.StartNode subworkflow) in
  calls isPutWorkflowNodeState (made (handleSubWorkflow s nCtx subworkflow nl) w) =
    once (match answer with
          | (state, None) => executors.HasFailed state
          | (_, Some _) => false
          end) /\
  calls isEnqueueOwner (made (handleSubWorkflow s nCtx subworkflow nl) w) =
    once (match answer with
          | (state, None) => executors.PartiallyComplete state
          | (_, Some _) => false
          end).
Proof.
  cbn zeta.
  destruct (handleSubWorkflow_call_counts s nCtx subworkflow nl w)
    as (_ & _ & Hput & Henq & _).
  split; [exact Hput|].
  cbn zeta in Henq. rewrite Henq.
  destruct (executors.RecursiveNodeHandler _ _ _ _) as [state [e|]]; [reflexivity|].
  pose proof (phase_tests state) as P.
  destruct (executors.GetNodePhase state); destruct P as (Hr & Hf & Hc & Hp);
    rewrite Hf, Hc, Hp; reflexivity.
Qed.

(** X12.  Whenever [handleSubWorkflow] returns a non-nil error, either
    the transition beside it has the undefined phase, or the recursive
    pass returned a failed state and the error is the one the node state
    writer returned. *)
Theorem X12_error_comes_with_undefined_phase_or_from_state_writer
    s nCtx subworkflow nl w t e :
  result (handleSubWorkflow s nCtx subworkflow nl) w = Val (t, Some e) ->
  t = ephemeral handler.PhaseInfoUndefined \/
  exists state,
    executors.RecursiveNodeHandler (nodeExecutor s) subworkflow nl
      (v1alpha1.StartNode subworkflow) = (state, None) /\
    executors.HasFailed state = true /\
    handler.PutWorkflowNodeState nCtx
      {| handler.Phase := v1alpha1.WorkflowNodePhaseFailing;
         handler.Error := executors.Err state |} = Some e.
Proof.
  unfold result, handleSubWorkflow. go_paths; cbn [fst]; intros [= <- Herr];
    try discriminate; subst;
    first [ left; reflexivity | right; eexists; split; [reflexivity|]; split; assumption ].
Qed.

(** X13.  A copy is made only of a file the store has just reported as
    existing: every copy among the calls of [handleSubWorkflow] has as
    source a path whose head was asked in the same run and was answered
    without error with an existing file. *)
Theorem X13_copy_only_after_head_confirmed_the_file
    s nCtx subworkflow nl w src dst :
  In (CallCopyRaw src dst) (made (handleSubWorkflow s nCtx subworkflow nl) w) ->
  In (CallHead src) (made (handleSubWorkflow s nCtx subworkflow nl) w) /\
  exists metadata,
    handler.DataStore_Head nCtx src = (metadata, None) /\
    storage.Exists metadata = true.
Proof.
  unfold made, handleSubWorkflow. go_paths; go_made; cbn [In];
    intros Hin; repeat (destruct Hin as [Hin|Hin]; try discriminate Hin);
    try contradiction.
  all: injection Hin as <- _; split; [auto 6|].
  all: eexists; split; [eassumption|].
  all: match goal with H : negb ?b = false |- ?b = true => destruct b; [reflexivity | discriminate H] end.
Qed.

(** X14.  Without a failure node, [HandleFailureNodeOfSubWorkflow]
    returns Failed with the error of the persisted workflow node state
    and a nil error; reading that state is its only call, the recursive
    executor is not run. *)
Theorem X14_no_failure_node_fails_with_persisted_error s nCtx subworkflow nl w :
  v1alpha1.GetOnFailureNode subworkflow = None ->
  result (HandleFailureNodeOfSubWorkflow s nCtx subworkflow nl) w =
    Val (ephemeral (handler.PhaseInfoFailureErr
                      (handler.Error (handler.GetWorkflowNodeState nCtx)) None), None) /\
  made (HandleFailureNodeOfSubWorkflow s nCtx subworkflow nl) w =
    [CallGetWorkflowNodeState].
Proof.
  intros Hnone. unfold result, made, HandleFailureNodeOfSubWorkflow. go_unfold.
  rewrite Hnone. go_unfold. rewrite made_app. split; reflexivity.
Qed.

(** X15.  While the failure node is still running,
    [HandleFailureNodeOfSubWorkflow] returns the Running transition (not
    Failing) with no error attached and a nil error, and requests no
    re-enqueue. *)
Theorem X15_running_failure_node_reports_running
    s nCtx subworkflow nl w onFailureNode state :
  v1alpha1.GetOnFailureNode subworkflow = Some onFailureNode ->
  executors.RecursiveNodeHandler (nodeExecutor s) subworkflow nl onFailureNode =
    (state, None) ->
  executors.GetNodePhase state = executors.NodePhaseRunning ->
  result (HandleFailureNodeOfSubWorkflow s nCtx subworkflow nl) w =
    Val (ephemeral (handler.PhaseInfoRunning None), None) /\
  calls isEnqueueOwner (made (HandleFailureNodeOfSubWorkflow s nCtx subworkflow nl) w)
    = 0%nat.
Proof.
  intros Hnode Hrec Hphase. unfold result, made.
  rewrite (HandleFailureNodeOfSubWorkflow_run _ _ _ _ _ _ _ Hnode Hrec).
  unfold executors.PartiallyComplete. rewrite Hphase.
  cbn [fst snd wTrace]. rewrite made_app. split; reflexivity.
Qed.

(** X16.  [HandleFailureNodeOfSubWorkflow] always returns (it does not
    panic), and whatever the failure node does, the transition is never
    Succeeded; it never writes the workflow node state and never touches
    the store, and it runs the recursive pass and the re-enqueue callback
    at most once each. *)
Theorem X16_failure_handling_never_succeeds s nCtx subworkflow nl w :
  (exists t err,
     result (HandleFailureNodeOfSubWorkflow s nCtx subworkflow nl) w = Val (t, err) /\
     handler.GetPhase (handler.Info t) <> handler.EPhaseSuccess) /\
  let t := made (HandleFailureNodeOfSubWorkflow s nCtx subworkflow nl) w in
  calls isPutWorkflowNodeState t = 0%nat /\
  calls isHead t = 0%nat /\
  calls isCopyRaw t = 0%nat /\
  (calls isRecursiveNodeHandler t <= 1)%nat /\
  (calls isEnqueueOwner t <= 1)%nat.
Proof.
  cbn zeta. unfold result, made, HandleFailureNodeOfSubWorkflow.
  go_paths; go_made; cbn [fst]; (split; [eexists _, _; split; [reflexivity | discriminate]|]);
    unfold calls; vm_compute; repeat split; lia.
Qed.

(** X17.  When the sub-workflow the node refers to is not found,
    [HandleFailingSubWorkflow] returns, with a nil error, the Failed
    transition of kind SYSTEM and code SubWorkflowExecutionFailed whose
    message is the text of the resolution error, and makes no call. *)
Theorem X17_failing_unresolved_subworkflow_fails s nCtx w subID :
  v1alpha1.GetSubWorkflowRef (handler.Node nCtx) = Some subID ->
  handler.FindSubWorkflow nCtx subID = None ->
  result (HandleFailingSubWorkflow s nCtx) w =
    Val (ephemeral (handler.PhaseInfoFailure core.ExecutionError_SYSTEM
                      errors.SubWorkflowExecutionFailed
                      ("failed to find sub workflow with ID [" +:+ subID +:+ "]") None),
         None) /\
  made (HandleFailingSubWorkflow s nCtx) w = [].
Proof.
  intros Href Hnone. unfold result, made, HandleFailingSubWorkflow. unfold bind at 1 3.
  rewrite (GetSubWorkflow_run nCtx w subID Href), Hnone. go_unfold.
  rewrite made_nil. split; reflexivity.
Qed.

(** X18.  When the sub-workflow is found, [HandleFailingSubWorkflow]
    is [HandleFailureNodeOfSubWorkflow] over a lookup on the status of the
    enclosing node, with or without a failure node: the shortcut it takes
    when there is no failure node returns what
    [HandleFailureNodeOfSubWorkflow] would have returned, after the same
    calls. *)
Theorem X18_failing_entry_point_is_failure_node_handling s nCtx w subID subWorkflow :
  v1alpha1.GetSubWorkflowRef (handler.Node nCtx) = Some subID ->
  handler.FindSubWorkflow nCtx subID = Some subWorkflow ->
  HandleFailingSubWorkflow s nCtx w =
  HandleFailureNodeOfSubWorkflow s nCtx subWorkflow
    (executors.NewNodeLookup subWorkflow) w.
Proof.
  intros Href Hfound. unfold HandleFailingSubWorkflow. unfold bind at 1.
  rewrite (GetSubWorkflow_run nCtx w subID Href), Hfound.
  destruct (v1alpha1.GetOnFailureNode subWorkflow) as [f|] eqn:Hnode; [reflexivity|].
  unfold HandleFailureNodeOfSubWorkflow. rewrite Hnode. reflexivity.
Qed.

(** [StartSubWorkflow], up to the seeding of the inputs. *)
Lemma StartSubWorkflow_run s nCtx w subID :
  v1alpha1.GetSubWorkflowRef (handler.Node nCtx) = Some subID ->
  StartSubWorkflow s nCtx w =
  match handler.FindSubWorkflow nCtx subID with
  | None =>
      (Val (ephemeral (handler.PhaseInfoFailure core.ExecutionError_SYSTEM
                         errors.SubWorkflowExecutionFailed
                         ("failed to find sub workflow with ID [" +:+ subID +:+ "]") None),
            None), w)
  | Some subWorkflow =>
      match fetchNodeLookupForSubWorkflow s nCtx subWorkflow w with
      | (Val (inl nodeLookup), w1) =>
          startAndHandleSubWorkflow s nCtx subWorkflow nodeLookup w1
      | (Val (inr err), w1) => (Val (handler.UnknownTransition, Some err), w1)
      | (Panic, w1) => (Panic, w1)
      end
  end.
Proof.
  intros Href. unfold StartSubWorkflow. unfold bind at 1.
  rewrite (GetSubWorkflow_run nCtx w subID Href).
  destruct (handler.FindSubWorkflow nCtx subID) as [subWorkflow|]; [|reflexivity].
  unfold bind.
  destruct (fetchNodeLookupForSubWorkflow s nCtx subWorkflow w) as [[[nl|e]|] w1];
    reflexivity.
Qed.

(** X19.  When the sub-workflow the node refers to is not found,
    [StartSubWorkflow] and [CheckSubWorkflowStatus] return, with a nil
    error, the Failed transition of kind SYSTEM and code
    SubWorkflowExecutionFailed whose message is the text of the resolution
    error; they make no call and leave the status of the enclosing node
    as it was. *)
Theorem X19_unresolved_subworkflow_fails_without_effect s nCtx w subID :
  v1alpha1.GetSubWorkflowRef (handler.Node nCtx) = Some subID ->
  handler.FindSubWorkflow nCtx subID = None ->
  let failed :=
    Val (ephemeral (handler.PhaseInfoFailure core.ExecutionError_SYSTEM
                      errors.SubWorkflowExecutionFailed
                      ("failed to find sub workflow with ID [" +:+ subID +:+ "]") None),
         None) in
  (result (StartSubWorkflow s nCtx) w = failed /\
   made (StartSubWorkflow s nCtx) w = [] /\
   statusAfter (StartSubWorkflow s nCtx) w = wStatus w) /\
  (result (CheckSubWorkflowStatus s nCtx) w = failed /\
   made (CheckSubWorkflowStatus s nCtx) w = [] /\
   statusAfter (CheckSubWorkflowStatus s nCtx) w = wStatus w).
Proof.
  intros Href Hnone failed.
  assert (StartSubWorkflow s nCtx w = (failed, w)) as Hrun.
  { rewrite (StartSubWorkflow_run s nCtx w subID Href), Hnone. reflexivity. }
  change (CheckSubWorkflowStatus s nCtx w) with (StartSubWorkflow s nCtx w).
  unfold result, made, statusAfter.
  change (CheckSubWorkflowStatus s nCtx w) with (StartSubWorkflow s nCtx w).
  rewrite Hrun. cbn [fst snd]. rewrite made_nil. repeat split.
Qed.

(** X20.  When stamping the nodes of the sub-workflow returns an error,
    [StartSubWorkflow] returns the unknown transition with that very
    error and calls no collaborator: the inputs are not read and the
    recursive pass is not run. *)
Theorem X20_stamping_error_is_returned_before_any_call s nCtx w subID subWorkflow e :
  v1alpha1.GetSubWorkflowRef (handler.Node nCtx) = Some subID ->
  handler.FindSubWorkflow nCtx subID = Some subWorkflow ->
  result (fetchNodeLookupForSubWorkflow s nCtx subWorkflow) w = Val (inr e) ->
  result (StartSubWorkflow s nCtx) w = Val (handler.UnknownTransition, Some e) /\
  made (StartSubWorkflow s nCtx) w = [].
Proof.
  intros Href Hfound Hfetch. unfold result, made in *.
  rewrite (StartSubWorkflow_run s nCtx w subID Href), Hfound.
  pose proof (fetchNodeLookupForSubWorkflow_trace s nCtx subWorkflow w) as Htr.
  destruct (fetchNodeLookupForSubWorkflow s nCtx subWorkflow w) as [r w1].
  cbn [fst snd] in *. subst r. cbn [fst snd]. rewrite Htr, made_nil.
  split; reflexivity.
Qed.

(** [fetchNodeLookupForSubWorkflow] is its loop, the outcome wrapped. *)
Lemma fetchNodeLookupForSubWorkflow_unfold s nCtx subWorkflow w :
  fetchNodeLookupForSubWorkflow s nCtx subWorkflow w =
  let r := fetchNodeLookupLoop nCtx (v1alpha1.GetUniqueNodeID (v1alpha1.Self (wStatus w)))
             (strconv_Itoa (handler.CurrentAttempt nCtx))
             (v1alpha1.GetNodes subWorkflow) w in
  (match fst r with
   | Val (Some e) => Val (inr e)
   | Val None => Val (inl (executors.NewNodeLookup subWorkflow))
   | Panic => Panic
   end, snd r).
Proof.
  unfold fetchNodeLookupForSubWorkflow. go_unfold.
  replace {| wStatus := wStatus w; wTrace := wTrace w |} with w by (destruct w; reflexivity).
  destruct (fetchNodeLookupLoop _ _ _ _ _) as [[[e|]|] w1]; reflexivity.
Qed.

Lemma entry_ensured st k n : entry (ensured st k) n = entry st n.
Proof.
  unfold entry at 1, ensured. cbn [v1alpha1.SubNodeStatus v1alpha1.withSubNodeStatus].
  destruct (decide (k = n)) as [<-|Hne].
  - rewrite lookup_insert_eq. reflexivity.
  - rewrite lookup_insert_ne by assumption. reflexivity.
Qed.

Lemma entry_stamped st k newID attempt n :
  v1alpha1.GetOutputDir (entry (stamped st k newID attempt) n) =
  v1alpha1.GetOutputDir (entry st n).
Proof.
  unfold entry at 1, stamped. cbn [v1alpha1.SubNodeStatus v1alpha1.withSubNodeStatus].
  destruct (decide (k = n)) as [<-|Hne].
  - rewrite lookup_insert_eq. reflexivity.
  - rewrite lookup_insert_ne by assumption. reflexivity.
Qed.

(** What the loop keeps: the entries of the nodes it does not visit, the
    output directory of every entry, and the entries there are. *)
Lemma fetchNodeLookupLoop_keeps nCtx p a (nodes : list v1alpha1.NodeID) : forall w,
  let w' := snd (fetchNodeLookupLoop nCtx p a nodes w) in
  (forall n, ~ In n nodes ->
     v1alpha1.SubNodeStatus (wStatus w') !! n = v1alpha1.SubNodeStatus (wStatus w) !! n) /\
  (forall n, v1alpha1.GetOutputDir (entry (wStatus w') n) =
             v1alpha1.GetOutputDir (entry (wStatus w) n)) /\
  (forall n, is_Some (v1alpha1.SubNodeStatus (wStatus w) !! n) ->
             is_Some (v1alpha1.SubNodeStatus (wStatus w') !! n)).
Proof.
  induction nodes as [|k rest IH]; intros w; cbn zeta.
  - cbn. auto.
  - rewrite fetchNodeLookupLoop_cons.
    assert (forall n, ~ In n (k :: rest) ->
              v1alpha1.SubNodeStatus (ensured (wStatus w) k) !! n =
              v1alpha1.SubNodeStatus (wStatus w) !! n) as Hens.
    { intros n Hn. unfold ensured.
      cbn [v1alpha1.SubNodeStatus v1alpha1.withSubNodeStatus].
      apply lookup_insert_ne. intros ->. apply Hn. left. reflexivity. }
    assert (forall n, is_Some (v1alpha1.SubNodeStatus (wStatus w) !! n) ->
              is_Some (v1alpha1.SubNodeStatus (ensured (wStatus w) k) !! n)) as Hens'.
    { intros n Hn. unfold ensured.
      cbn [v1alpha1.SubNodeStatus v1alpha1.withSubNodeStatus].
      destruct (decide (k = n)) as [<-|Hne].
      - rewrite lookup_insert_eq. eauto.
      - rewrite lookup_insert_ne by assumption. exact Hn. }
    destruct (v1alpha1.Unresolvable (wStatus w) !! k) as [e|]; [cbn; auto|].
    destruct p as [parentID|].
    2:{ cbn [snd wStatus withStatus]. split; [exact Hens|].
        split; [intros n; rewrite entry_ensured; reflexivity | exact Hens']. }
    destruct (ComputeUniqueIDForNode k parentID a) as [newID [e|]].
    { cbn [snd wStatus withStatus]. split; [exact Hens|].
      split; [intros n; rewrite entry_ensured; reflexivity | exact Hens']. }
    specialize (IH (withStatus w (stamped (wStatus w) k newID (handler.CurrentAttempt nCtx)))).
    cbn zeta in IH. cbn [wStatus withStatus] in IH. destruct IH as (Hout & Hdir & Hsome).
    split; [|split].
    + intros n Hn. rewrite Hout by (intros Hin; apply Hn; right; exact Hin).
      unfold stamped. cbn [v1alpha1.SubNodeStatus v1alpha1.withSubNodeStatus].
      apply lookup_insert_ne. intros ->. apply Hn. left. reflexivity.
    + intros n. rewrite Hdir. apply entry_stamped.
    + intros n Hn. apply Hsome. unfold stamped.
      cbn [v1alpha1.SubNodeStatus v1alpha1.withSubNodeStatus].
      destruct (decide (k = n)) as [<-|Hne].
      * rewrite lookup_insert_eq. eauto.
      * rewrite lookup_insert_ne by assumption. exact Hn.
Qed.

(** What [fetchNodeLookupForSubWorkflow] keeps of the status. *)
Lemma fetchNodeLookupForSubWorkflow_keeps s nCtx subWorkflow w :
  let w' := snd (fetchNodeLookupForSubWorkflow s nCtx subWorkflow w) in
  v1alpha1.Self (wStatus w') = v1alpha1.Self (wStatus w) /\
  (forall n, ~ In n (v1alpha1.GetNodes subWorkflow) ->
     v1alpha1.SubNodeStatus (wStatus w') !! n = v1alpha1.SubNodeStatus (wStatus w) !! n) /\
  (forall n c, v1alpha1.SubNodeStatus (wStatus w) !! n = Some c ->
     exists c', v1alpha1.SubNodeStatus (wStatus w') !! n = Some c' /\
                v1alpha1.GetOutputDir c' = v1alpha1.GetOutputDir c) /\
  wTrace w' = wTrace w.
Proof.
  cbn zeta. rewrite fetchNodeLookupForSubWorkflow_unfold. cbn zeta. cbn [snd].
  pose proof (fetchNodeLookupLoop_again nCtx
                (v1alpha1.GetUniqueNodeID (v1alpha1.Self (wStatus w)))
                (strconv_Itoa (handler.CurrentAttempt nCtx))
                (v1alpha1.GetNodes subWorkflow) w) as ((Hself & _ & _) & Htr & _).
  pose proof (fetchNodeLookupLoop_keeps nCtx
                (v1alpha1.GetUniqueNodeID (v1alpha1.Self (wStatus w)))
                (strconv_Itoa (handler.CurrentAttempt nCtx))
                (v1alpha1.GetNodes subWorkflow) w) as (Hout & Hdir & Hsome).
  cbn zeta in *. split; [exact Hself|]. split; [exact Hout|]. split; [|exact Htr].
  intros n c Hc. destruct (Hsome n) as (c' & Hc'); [rewrite Hc; eauto|].
  exists c'. split; [exact Hc'|].
  specialize (Hdir n). unfold entry, v1alpha1.NodeID in *.
  rewrite Hc, Hc' in Hdir. exact Hdir.
Qed.

(** X21.  [fetchNodeLookupForSubWorkflow] only adds to the status of the
    enclosing node: whatever it returns, the enclosing node's own record
    is unchanged, the entries of nodes outside the sub-workflow are
    unchanged, no entry disappears and every entry keeps its output
    directory; and it calls no collaborator. *)
Theorem X21_stamping_keeps_what_is_there s nCtx subWorkflow w :
  let w' := snd (fetchNodeLookupForSubWorkflow s nCtx subWorkflow w) in
  v1alpha1.Self (wStatus w') = v1alpha1.Self (wStatus w) /\
  (forall n, ~ In n (v1alpha1.GetNodes subWorkflow) ->
     v1alpha1.SubNodeStatus (wStatus w') !! n = v1alpha1.SubNodeStatus (wStatus w) !! n) /\
  (forall n c, v1alpha1.SubNodeStatus (wStatus w) !! n = Some c ->
     exists c', v1alpha1.SubNodeStatus (wStatus w') !! n = Some c' /\
                v1alpha1.GetOutputDir c' = v1alpha1.GetOutputDir c) /\
  wTrace w' = wTrace w.
Proof. exact (fetchNodeLookupForSubWorkflow_keeps s nCtx subWorkflow w). Qed.

(** X22.  When the enclosing node has no unique id,
    [fetchNodeLookupForSubWorkflow] succeeds on a sub-workflow without
    nodes, returns the lookup error when the first node cannot be
    resolved, and otherwise panics on the first node (the nil id is
    dereferenced). *)
Theorem X22_nil_unique_id_panics_on_first_node s nCtx subWorkflow w :
  v1alpha1.GetUniqueNodeID (v1alpha1.Self (wStatus w)) = None ->
  result (fetchNodeLookupForSubWorkflow s nCtx subWorkflow) w =
  match v1alpha1.GetNodes subWorkflow with
  | [] => Val (inl (executors.NewNodeLookup subWorkflow))
  | n :: _ =>
      match v1alpha1.Unresolvable (wStatus w) !! n with
      | Some e => Val (inr e)
      | None => Panic
      end
  end.
Proof.
  intros Hnil. unfold result. rewrite fetchNodeLookupForSubWorkflow_unfold. cbn zeta.
  cbn [fst]. rewrite Hnil.
  destruct (v1alpha1.GetNodes subWorkflow) as [|n rest]; [reflexivity|].
  rewrite fetchNodeLookupLoop_cons.
  destruct (v1alpha1.Unresolvable (wStatus w) !! n); reflexivity.
Qed.

(** Whether the loop runs to its end does not depend on the entries. *)
Lemma fetchNodeLookupLoop_outcome nCtx p a (nodes : list v1alpha1.NodeID) : forall w1 w2,
  v1alpha1.Unresolvable (wStatus w1) = v1alpha1.Unresolvable (wStatus w2) ->
  fst (fetchNodeLookupLoop nCtx p a nodes w1) = fst (fetchNodeLookupLoop nCtx p a nodes w2).
Proof.
  induction nodes as [|k rest IH]; intros w1 w2 Hun; [reflexivity|].
  rewrite !fetchNodeLookupLoop_cons, Hun.
  destruct (v1alpha1.Unresolvable (wStatus w2) !! k); [reflexivity|].
  destruct p as [parentID|]; [|reflexivity].
  destruct (ComputeUniqueIDForNode k parentID a) as [newID [e|]]; [reflexivity|].
  apply IH. cbn [wStatus withStatus]. unfold stamped.
  cbn [v1alpha1.Unresolvable v1alpha1.withSubNodeStatus]. exact Hun.
Qed.

(** The entries after a loop that ran to its end, in full. *)
Lemma fetchNodeLookupLoop_entries nCtx p a (nodes : list v1alpha1.NodeID) w w' :
  fetchNodeLookupLoop nCtx p a nodes w = (Val None, w') ->
  forall n, In n nodes ->
  exists parentID newID,
    p = Some parentID /\
    ComputeUniqueIDForNode n parentID a = (newID, None) /\
    v1alpha1.SubNodeStatus (wStatus w') !! n =
      Some (stamp (v1alpha1.GetUniqueNodeID (v1alpha1.Self (wStatus w))) newID
              (handler.CurrentAttempt nCtx) (entry (wStatus w) n)).
Proof.
  intros Hrun n Hin.
  destruct (fetchNodeLookupLoop_stamps nCtx p a nodes w w' Hrun n Hin)
    as (parentID & newID & c & Hp & Hid & Hc & Hu & Hpar & Hat).
  exists parentID, newID. split; [exact Hp|]. split; [exact Hid|].
  rewrite Hc. f_equal.
  pose proof (fetchNodeLookupLoop_keeps nCtx p a nodes w) as (_ & Hdir & _).
  cbn zeta in Hdir. rewrite Hrun in Hdir. cbn [snd] in Hdir. specialize (Hdir n).
  unfold entry at 1 in Hdir. rewrite Hc in Hdir. cbn in Hdir.
  destruct c as [u up pa od]. unfold stamp. cbn in *. congruence.
Qed.

(** X23.  The stamps of an attempt do not depend on what an earlier run
    left behind: if [fetchNodeLookupForSubWorkflow] succeeds for some
    attempt on a status, then run after any other run of it (for another
    attempt, succeeded or not) it succeeds as well and leaves the very
    status it would have left without that earlier run. *)
Theorem X23_later_attempt_overwrites_earlier_stamps
    s nCtxA nCtxB subWorkflow w nl :
  result (fetchNodeLookupForSubWorkflow s nCtxB subWorkflow) w = Val (inl nl) ->
  let wA := snd (fetchNodeLookupForSubWorkflow s nCtxA subWorkflow w) in
  result (fetchNodeLookupForSubWorkflow s nCtxB subWorkflow) wA = Val (inl nl) /\
  statusAfter (fetchNodeLookupForSubWorkflow s nCtxB subWorkflow) wA =
  statusAfter (fetchNodeLookupForSubWorkflow s nCtxB subWorkflow) w.
Proof.
  intros HB wA.
  destruct (fetchNodeLookupForSubWorkflow_keeps s nCtxA subWorkflow w)
    as (HselfA & HoutA & _ & _).
  pose proof (fetchNodeLookupLoop_keeps nCtxA
                (v1alpha1.GetUniqueNodeID (v1alpha1.Self (wStatus w)))
                (strconv_Itoa (handler.CurrentAttempt nCtxA))
                (v1alpha1.GetNodes subWorkflow) w) as (_ & HdirA & _).
  pose proof (fetchNodeLookupLoop_again nCtxA
                (v1alpha1.GetUniqueNodeID (v1alpha1.Self (wStatus w)))
                (strconv_Itoa (handler.CurrentAttempt nCtxA))
                (v1alpha1.GetNodes subWorkflow) w) as ((_ & HunA & _) & _ & _).
  cbn zeta in HselfA, HoutA, HdirA, HunA.
  assert (wA = snd (fetchNodeLookupLoop nCtxA
                      (v1alpha1.GetUniqueNodeID (v1alpha1.Self (wStatus w)))
                      (strconv_Itoa (handler.CurrentAttempt nCtxA))
                      (v1alpha1.GetNodes subWorkflow) w)) as HwA.
  { unfold wA. rewrite fetchNodeLookupForSubWorkflow_unfold. reflexivity. }
  rewrite <- HwA in HdirA, HunA. fold wA in HselfA, HoutA.
  unfold result, statusAfter in *.
  rewrite !fetchNodeLookupForSubWorkflow_unfold in *. cbn zeta in *. cbn [fst snd] in *.
  rewrite HselfA.
  set (pB := v1alpha1.GetUniqueNodeID (v1alpha1.Self (wStatus w))) in *.
  set (aB := strconv_Itoa (handler.CurrentAttempt nCtxB)) in *.
  pose proof (fetchNodeLookupLoop_outcome nCtxB pB aB (v1alpha1.GetNodes subWorkflow)
                wA w HunA) as Hsame.
  rewrite Hsame. split; [exact HB|].
  destruct (fetchNodeLookupLoop nCtxB pB aB (v1alpha1.GetNodes subWorkflow) w)
    as [r1 w1] eqn:Hrun1.
  destruct (fetchNodeLookupLoop nCtxB pB aB (v1alpha1.GetNodes subWorkflow) wA)
    as [r2 w2] eqn:Hrun2.
  cbn [fst snd] in *. subst r2.
  destruct r1 as [[e|]|]; try discriminate HB.
  pose proof (fetchNodeLookupLoop_again nCtxB pB aB (v1alpha1.GetNodes subWorkflow) w)
    as ((Hself1 & Hun1 & _) & _ & _).
  pose proof (fetchNodeLookupLoop_again nCtxB pB aB (v1alpha1.GetNodes subWorkflow) wA)
    as ((Hself2 & Hun2 & _) & _ & _).
  pose proof (fetchNodeLookupLoop_keeps nCtxB pB aB (v1alpha1.GetNodes subWorkflow) w)
    as (Hout1 & _ & _).
  pose proof (fetchNodeLookupLoop_keeps nCtxB pB aB (v1alpha1.GetNodes subWorkflow) wA)
    as (Hout2 & _ & _).
  cbn zeta in *. rewrite Hrun1 in *. rewrite Hrun2 in *. cbn [snd] in *.
  assert (v1alpha1.SubNodeStatus (wStatus w2) = v1alpha1.SubNodeStatus (wStatus w1)) as Hsub.
  { apply map_eq. intros n.
    destruct (in_dec string_dec n (v1alpha1.GetNodes subWorkflow)) as [Hin|Hnin].
    - destruct (fetchNodeLookupLoop_entries _ _ _ _ _ _ Hrun1 n Hin)
        as (pid1 & id1 & Hp1 & Hid1 & Hc1).
      destruct (fetchNodeLookupLoop_entries _ _ _ _ _ _ Hrun2 n Hin)
        as (pid2 & id2 & Hp2 & Hid2 & Hc2).
      assert (pid2 = pid1) as -> by congruence.
      assert (id2 = id1) as -> by congruence.
      unfold v1alpha1.NodeID in *.
      rewrite Hc1, Hc2, HselfA. unfold stamp. rewrite HdirA. reflexivity.
    - unfold v1alpha1.NodeID in *.
      rewrite Hout1, Hout2, HoutA by assumption. reflexivity. }
  destruct (wStatus w1) as [self1 sub1 un1], (wStatus w2) as [self2 sub2 un2].
  cbn in *. congruence.
Qed.
End subworkflow.

(** ** Properties of the webhook configuration *)
Section webhook_properties.

Variable webhookName : string.
Variable PodKind : string.
Variable SchemeGroupVersion_Version : string.
Variable GetPodMutatePath : string.
Variable environ : gmap string string.
Variable getKubeConfig : cmd.Config -> k8s.Interface * option error.

Abbreviation createMutationConfig :=
  (cmd.createMutationConfig webhookName PodKind SchemeGroupVersion_Version
     GetPodMutatePath environ getKubeConfig).
Abbreviation deleteMutationConfig := (cmd.deleteMutationConfig getKubeConfig).
Abbreviation mutateConfigFor := (cmd.mutateConfigFor webhookName GetPodMutatePath).
Abbreviation ownerOf := (cmd.ownerOf PodKind SchemeGroupVersion_Version).

(** The tail of [createMutationConfig], by the answers of the server. *)
Lemma createOrUpdate_run kubeClient c :
  cmd.createOrUpdate kubeClient c =
  match k8s.Configurations_Create kubeClient c with
  | None => (None, [k8s.ConfigCreate c])
  | Some e =>
      match k8s.Configurations_Get kubeClient (k8s.ObjectName c) with
      | (_, Some _) => (Some e, [k8s.ConfigCreate c; k8s.ConfigGet (k8s.ObjectName c)])
      | (obj, None) =>
          (k8s.Configurations_Update kubeClient (cmd.withWebhooks obj (k8s.Webhooks c)),
           [k8s.ConfigCreate c; k8s.ConfigGet (k8s.ObjectName c);
            k8s.ConfigUpdate (cmd.withWebhooks obj (k8s.Webhooks c))])
      end
  end.
Proof.
  unfold cmd.createOrUpdate, cmd.bindK, cmd.request, cmd.retK.
  destruct (k8s.Configurations_Create kubeClient c) as [e|]; [|reflexivity].
  destruct (k8s.Configurations_Get kubeClient (k8s.ObjectName c)) as [obj [ge|]];
    reflexivity.
Qed.

(** [createMutationConfig] once the client is there, by the environment
    and the answer for the pod. *)
Lemma createMutationConfig_run cfg caCert kubeClient :
  getKubeConfig cfg = (kubeClient, None) ->
  createMutationConfig cfg caCert =
  match environ !! "POD_NAME", environ !! "POD_NAMESPACE" with
  | Some podName, Some podNamespace =>
      match k8s.Pods_Get kubeClient podNamespace podName with
      | (_, Some e) =>
          (Some (fmt_Errorf ("failed to get pod. Error: " +:+ error_Error e)),
           [k8s.PodsGet podNamespace podName])
      | (p, None) =>
          let r := cmd.createOrUpdate kubeClient
                     (cmd.withNamespace cfg
                        (mutateConfigFor cfg caCert (k8s.PodName p) [ownerOf p])) in
          (fst r, k8s.PodsGet podNamespace podName :: snd r)
      end
  | _, _ =>
      cmd.createOrUpdate kubeClient
        (cmd.withNamespace cfg
           (mutateConfigFor cfg caCert (cmd.Name (cmd.Webhook cfg)) []))
  end.
Proof.
  intros Hkube. unfold cmd.createMutationConfig. rewrite Hkube.
  destruct (environ !! "POD_NAME") as [podName|];
    destruct (environ !! "POD_NAMESPACE") as [podNamespace|]; cbn [negb]; try reflexivity.
  unfold cmd.bindK at 1, cmd.request at 1.
  destruct (k8s.Pods_Get kubeClient podNamespace podName) as [p [e|]]; [reflexivity|].
  cbn zeta. fold (ownerOf p).
  destruct (cmd.createOrUpdate _ _) as [r t]. reflexivity.
Qed.

(** The configuration [createMutationConfig] submits is one of two. *)
Lemma createMutationConfig_submits cfg caCert kubeClient c :
  getKubeConfig cfg = (kubeClient, None) ->
  In (k8s.ConfigCreate c) (snd (createMutationConfig cfg caCert)) ->
  (c = cmd.withNamespace cfg (mutateConfigFor cfg caCert (cmd.Name (cmd.Webhook cfg)) []) /\
   (environ !! "POD_NAME" = None \/ environ !! "POD_NAMESPACE" = None) /\
   createMutationConfig cfg caCert = cmd.createOrUpdate kubeClient c) \/
  (exists podName podNamespace p,
     environ !! "POD_NAME" = Some podName /\
     environ !! "POD_NAMESPACE" = Some podNamespace /\
     k8s.Pods_Get kubeClient podNamespace podName = (p, None) /\
     c = cmd.withNamespace cfg (mutateConfigFor cfg caCert (k8s.PodName p) [ownerOf p]) /\
     createMutationConfig cfg caCert =
       (fst (cmd.createOrUpdate kubeClient c),
        k8s.PodsGet podNamespace podName :: snd (cmd.createOrUpdate kubeClient c))).
Proof.
  intros Hkube. rewrite (createMutationConfig_run cfg caCert kubeClient Hkube).
  assert (forall c0, In (k8s.ConfigCreate c) (snd (cmd.createOrUpdate kubeClient c0)) ->
                     c = c0) as Hone.
  { intros c0. rewrite createOrUpdate_run.
    destruct (k8s.Configurations_Create kubeClient c0) as [e|].
    - destruct (k8s.Configurations_Get kubeClient (k8s.ObjectName c0)) as [obj [ge|]];
        cbn [snd In]; intros [H|[H|H]]; try discriminate H; try contradiction;
        try (destruct H as [H|H]; [discriminate H | contradiction]);
        injection H as ->; reflexivity.
    - cbn [snd In]. intros [H|H]; [injection H as ->; reflexivity | contradiction]. }
  destruct (environ !! "POD_NAME") as [podName|] eqn:Hname.
  2:{ intros Hin. left. rewrite <- (Hone _ Hin). auto. }
  destruct (environ !! "POD_NAMESPACE") as [podNamespace|] eqn:Hns.
  2:{ intros Hin. left. rewrite <- (Hone _ Hin). auto. }
  destruct (k8s.Pods_Get kubeClient podNamespace podName) as [p [e|]] eqn:Hpod.
  { cbn [snd In]. intros [H|H]; [discriminate H | contradiction]. }
  cbn zeta. cbn [snd In]. intros [H|Hin]; [discriminate H|].
  right. exists podName, podNamespace, p. rewrite <- (Hone _ Hin). auto 6.
Qed.

(** X24.  When the client cannot be built, [createMutationConfig] and
    [deleteMutationConfig] return an error whose text is "failed to create
    kubeclient. Error: " followed by the text of the cause, and send no
    request to the API server. *)
Theorem X24_no_client_no_request cfg caCert kubeClient e :
  getKubeConfig cfg = (kubeClient, Some e) ->
  createMutationConfig cfg caCert =
    (Some (fmt_Errorf ("failed to create kubeclient. Error: " +:+ error_Error e)), []) /\
  deleteMutationConfig cfg =
    (Some (fmt_Errorf ("failed to create kubeclient. Error: " +:+ error_Error e)), []).
Proof.
  intros Hkube. unfold cmd.createMutationConfig, cmd.deleteMutationConfig.
  rewrite Hkube. split; reflexivity.
Qed.

(** X25.  When POD_NAME and POD_NAMESPACE are both set and the pod
    cannot be fetched, [createMutationConfig] returns an error whose text
    is "failed to get pod. Error: " followed by the text of the cause;
    fetching the pod is its only request, no webhook configuration is
    created, read or updated. *)
Theorem X25_pod_lookup_failure_stops_registration
    cfg caCert kubeClient podName podNamespace p e :
  getKubeConfig cfg = (kubeClient, None) ->
  environ !! "POD_NAME" = Some podName ->
  environ !! "POD_NAMESPACE" = Some podNamespace ->
  k8s.Pods_Get kubeClient podNamespace podName = (p, Some e) ->
  createMutationConfig cfg caCert =
    (Some (fmt_Errorf ("failed to get pod. Error: " +:+ error_Error e)),
     [k8s.PodsGet podNamespace podName]).
Proof.
  intros Hkube Hname Hns Hpod.
  rewrite (createMutationConfig_run cfg caCert kubeClient Hkube), Hname, Hns, Hpod.
  reflexivity.
Qed.

(** The shape of the configuration submitted. *)
Lemma submitted_configuration_shape cfg caCert kubeClient c :
  getKubeConfig cfg = (kubeClient, None) ->
  In (k8s.ConfigCreate c) (snd (createMutationConfig cfg caCert)) ->
  k8s.ObjectNamespace c = cmd.Namespace (cmd.Webhook cfg) /\
  (exists wh,
     k8s.Webhooks c = [wh] /\
     k8s.CABundle (k8s.ClientConfig wh) = caCert /\
     k8s.Service (k8s.ClientConfig wh) =
       Some {| k8s.ServiceNamespace := cmd.Namespace (cmd.Webhook cfg);
               k8s.ServiceName := cmd.Name (cmd.Webhook cfg);
               k8s.Path := Some GetPodMutatePath |}) /\
  match environ !! "POD_NAME", environ !! "POD_NAMESPACE" with
  | Some podName, Some podNamespace =>
      exists p,
        k8s.Pods_Get kubeClient podNamespace podName = (p, None) /\
        k8s.ObjectName c = k8s.PodName p /\
        k8s.OwnerReferences c = [ownerOf p]
  | _, _ =>
      k8s.ObjectName c = cmd.Name (cmd.Webhook cfg) /\ k8s.OwnerReferences c = []
  end.
Proof.
  intros Hkube Hin.
  assert (forall name refs,
            let c0 := cmd.withNamespace cfg (mutateConfigFor cfg caCert name refs) in
            k8s.ObjectNamespace c0 = cmd.Namespace (cmd.Webhook cfg) /\
            (exists wh,
               k8s.Webhooks c0 = [wh] /\
               k8s.CABundle (k8s.ClientConfig wh) = caCert /\
               k8s.Service (k8s.ClientConfig wh) =
                 Some {| k8s.ServiceNamespace := cmd.Namespace (cmd.Webhook cfg);
                         k8s.ServiceName := cmd.Name (cmd.Webhook cfg);
                         k8s.Path := Some GetPodMutatePath |}) /\
            k8s.ObjectName c0 = name /\ k8s.OwnerReferences c0 = refs) as Hshape.
  { intros name refs. cbn zeta. unfold cmd.withNamespace.
    destruct (cmd.Namespace (cmd.Webhook cfg)) as [|ch rest] eqn:Hns.
    - cbn. split; [reflexivity|]. split; [|split; reflexivity].
      eexists. split; [reflexivity|]. split; reflexivity.
    - cbn. split; [reflexivity|]. split; [|split; reflexivity].
      eexists. split; [reflexivity|]. split; reflexivity. }
  destruct (createMutationConfig_submits cfg caCert kubeClient c Hkube Hin)
    as [(-> & Henv & _) | (podName & podNamespace & p & Hname & Hnsp & Hpod & -> & _)].
  - destruct (Hshape (cmd.Name (cmd.Webhook cfg)) []) as (H1 & H2 & H3 & H4).
    split; [exact H1|]. split; [exact H2|].
    destruct Henv as [-> | Hn]; [auto|].
    rewrite Hn. destruct (environ !! "POD_NAME"); auto.
  - destruct (Hshape (k8s.PodName p) [ownerOf p]) as (H1 & H2 & H3 & H4).
    split; [exact H1|]. split; [exact H2|].
    rewrite Hname, Hnsp. exists p. auto.
Qed.

(** X26.  Every configuration [createMutationConfig] asks the server to
    create has exactly one webhook, whose service carries the name of the
    configured webhook, the CA bundle given, and the configured
    namespace; the namespace of the object is the configured namespace
    too (empty when none is configured).  Its name and owner are the pod's
    (one owner reference, of the pod's name and UID) when POD_NAME and
    POD_NAMESPACE are both set, and otherwise its name is the configured
    name and it has no owner. *)
Theorem X26_submitted_configuration cfg caCert kubeClient c :
  getKubeConfig cfg = (kubeClient, None) ->
  In (k8s.ConfigCreate c) (snd (createMutationConfig cfg caCert)) ->
  k8s.ObjectNamespace c = cmd.Namespace (cmd.Webhook cfg) /\
  (exists wh,
     k8s.Webhooks c = [wh] /\
     k8s.CABundle (k8s.ClientConfig wh) = caCert /\
     k8s.Service (k8s.ClientConfig wh) =
       Some {| k8s.ServiceNamespace := cmd.Namespace (cmd.Webhook cfg);
               k8s.ServiceName := cmd.Name (cmd.Webhook cfg);
               k8s.Path := Some GetPodMutatePath |}) /\
  match environ !! "POD_NAME", environ !! "POD_NAMESPACE" with
  | Some podName, Some podNamespace =>
      exists p,
        k8s.Pods_Get kubeClient podNamespace podName = (p, None) /\
        k8s.ObjectName c = k8s.PodName p /\
        k8s.OwnerReferences c = [ownerOf p]
  | _, _ =>
      k8s.ObjectName c = cmd.Name (cmd.Webhook cfg) /\ k8s.OwnerReferences c = []
  end.
Proof. exact (submitted_configuration_shape cfg caCert kubeClient c). Qed.

(** X27.  When the creation is refused and the existing configuration
    cannot be read either, [createMutationConfig] returns the error of the
    creation (not the one of the read) and sends no update. *)
Theorem X27_unreadable_existing_configuration_returns_create_error
    cfg caCert kubeClient c e obj getErr :
  getKubeConfig cfg = (kubeClient, None) ->
  In (k8s.ConfigCreate c) (snd (createMutationConfig cfg caCert)) ->
  k8s.Configurations_Create kubeClient c = Some e ->
  k8s.Configurations_Get kubeClient (k8s.ObjectName c) = (obj, Some getErr) ->
  fst (createMutationConfig cfg caCert) = Some e /\
  filter (fun r => k8s.isConfigRequest r = true) (snd (createMutationConfig cfg caCert)) =
    [k8s.ConfigCreate c; k8s.ConfigGet (k8s.ObjectName c)].
Proof.
  intros Hkube Hin Hcreate Hget.
  destruct (createMutationConfig_submits cfg caCert kubeClient c Hkube Hin)
    as [(_ & _ & ->) | (podName & podNamespace & p & _ & _ & _ & _ & ->)];
    rewrite createOrUpdate_run, Hcreate, Hget; split; reflexivity.
Qed.

(** X28.  When the creation is refused and the existing configuration
    is read, [createMutationConfig] updates that existing object with its
    webhooks replaced by the new ones and its name, namespace and owner
    references kept, and returns what the update returns (nil when it
    succeeds). *)
Theorem X28_existing_configuration_gets_the_new_webhooks
    cfg caCert kubeClient c e obj :
  getKubeConfig cfg = (kubeClient, None) ->
  In (k8s.ConfigCreate c) (snd (createMutationConfig cfg caCert)) ->
  k8s.Configurations_Create kubeClient c = Some e ->
  k8s.Configurations_Get kubeClient (k8s.ObjectName c) = (obj, None) ->
  let updated :=
    {| k8s.ObjectName := k8s.ObjectName obj;
       k8s.ObjectNamespace := k8s.ObjectNamespace obj;
       k8s.OwnerReferences := k8s.OwnerReferences obj;
       k8s.Webhooks := k8s.Webhooks c |} in
  fst (createMutationConfig cfg caCert) = k8s.Configurations_Update kubeClient updated /\
  filter (fun r => k8s.isConfigRequest r = true) (snd (createMutationConfig cfg caCert)) =
    [k8s.ConfigCreate c; k8s.ConfigGet (k8s.ObjectName c); k8s.ConfigUpdate updated].
Proof.
  intros Hkube Hin Hcreate Hget updated.
  destruct (createMutationConfig_submits cfg caCert kubeClient c Hkube Hin)
    as [(_ & _ & ->) | (podName & podNamespace & p & _ & _ & _ & _ & ->)];
    rewrite createOrUpdate_run, Hcreate, Hget; split; reflexivity.
Qed.

(** X29.  When the creation succeeds, [createMutationConfig] returns nil
    and sends nothing after it: the existing configuration is neither
    read nor updated. *)
Theorem X29_successful_creation_is_the_last_request cfg caCert kubeClient c :
  getKubeConfig cfg = (kubeClient, None) ->
  In (k8s.ConfigCreate c) (snd (createMutationConfig cfg caCert)) ->
  k8s.Configurations_Create kubeClient c = None ->
  fst (createMutationConfig cfg caCert) = None /\
  filter (fun r => k8s.isConfigRequest r = true) (snd (createMutationConfig cfg caCert)) =
    [k8s.ConfigCreate c].
Proof.
  intros Hkube Hin Hcreate.
  destruct (createMutationConfig_submits cfg caCert kubeClient c Hkube Hin)
    as [(_ & _ & ->) | (podName & podNamespace & p & _ & _ & _ & _ & ->)];
    rewrite createOrUpdate_run, Hcreate; split; reflexivity.
Qed.

(** X30.  [deleteMutationConfig] deletes the configuration of the
    configured name and returns what the deletion returns.  So when
    [createMutationConfig] named the object after a pod whose name is not
    the configured name, the object it created is not the one
    [deleteMutationConfig] deletes. *)
Theorem X30_delete_targets_the_configured_name cfg caCert kubeClient :
  getKubeConfig cfg = (kubeClient, None) ->
  deleteMutationConfig cfg =
    (k8s.Configurations_Delete kubeClient (cmd.Name (cmd.Webhook cfg)),
     [k8s.ConfigDelete (cmd.Name (cmd.Webhook cfg))]) /\
  forall podName podNamespace p c,
    environ !! "POD_NAME" = Some podName ->
    environ !! "POD_NAMESPACE" = Some podNamespace ->
    k8s.Pods_Get kubeClient podNamespace podName = (p, None) ->
    k8s.PodName p <> cmd.Name (cmd.Webhook cfg) ->
    In (k8s.ConfigCreate c) (snd (createMutationConfig cfg caCert)) ->
    ~ In (k8s.ConfigDelete (k8s.ObjectName c)) (snd (deleteMutationConfig cfg)).
Proof.
  intros Hkube.
  assert (deleteMutationConfig cfg =
          (k8s.Configurations_Delete kubeClient (cmd.Name (cmd.Webhook cfg)),
           [k8s.ConfigDelete (cmd.Name (cmd.Webhook cfg))])) as Hdel.
  { unfold cmd.deleteMutationConfig. rewrite Hkube. reflexivity. }
  split; [exact Hdel|].
  intros podName podNamespace p c Hname Hns Hpod Hne Hin.
  destruct (submitted_configuration_shape cfg caCert kubeClient c Hkube Hin) as (_ & _ & Hobj).
  rewrite Hname, Hns in Hobj. destruct Hobj as (p' & Hpod' & Hobj & _).
  assert (p' = p) as -> by congruence.
  rewrite Hdel. cbn [snd In]. intros [H|H]; [|contradiction].
  injection H as H. apply Hne. congruence.
Qed.

End webhook_properties.

(** ** The claims on the scenarios *)

Import scenario.

(** Node [A] fails with [E1], [F] completes: Failed with [E1].  [F] is
    partially complete and the re-enqueue goes through: Failing with
    [E1].  [F] fails with [E2]: Failed with [E2]. *)
Lemma C1_witness :
  result (HandleFailureNodeOfSubWorkflow
            (executor (stateOf executors.NodePhaseComplete None) None)
            (context (Some subWithF) None present None)
            subWithF (executors.NewNodeLookup subWithF)) world0 =
    Val (ephemeral (handler.PhaseInfoFailureErr (Some E1) None), None) /\
  result (HandleFailureNodeOfSubWorkflow
            (executor (stateOf executors.NodePhasePartiallyComplete None) None)
            (context (Some subWithF) None present None)
            subWithF (executors.NewNodeLookup subWithF)) world0 =
    Val (ephemeral (handler.PhaseInfoFailingErr (Some E1) None), None) /\
  result (HandleFailureNodeOfSubWorkflow
            (executor (stateOf executors.NodePhaseFailed (Some E2)) None)
            (context (Some subWithF) None present None)
            subWithF (executors.NewNodeLookup subWithF)) world0 =
    Val (ephemeral (handler.PhaseInfoFailureErr (Some E2) None), None).
Proof.
  split; [|split].
  - refine (proj1 (C1_failure_node_masks_with_original_error
                     (executor (stateOf executors.NodePhaseComplete None) None)
                     (context (Some subWithF) None present None)
                     subWithF (executors.NewNodeLookup subWithF) world0 nodeF
                     (stateOf executors.NodePhaseComplete None) (Some E1)
                     eq_refl eq_refl eq_refl) eq_refl).
  - refine (proj1 (proj2 (C1_failure_node_masks_with_original_error
                     (executor (stateOf executors.NodePhasePartiallyComplete None) None)
                     (context (Some subWithF) None present None)
                     subWithF (executors.NewNodeLookup subWithF) world0 nodeF
                     (stateOf executors.NodePhasePartiallyComplete None) (Some E1)
                     eq_refl eq_refl eq_refl)) eq_refl eq_refl).
  - refine (proj2 (proj2 (proj2 (C1_failure_node_masks_with_original_error
                     (executor (stateOf executors.NodePhaseFailed (Some E2)) None)
                     (context (Some subWithF) None present None)
                     subWithF (executors.NewNodeLookup subWithF) world0 nodeF
                     (stateOf executors.NodePhaseFailed (Some E2)) (Some E1)
                     eq_refl eq_refl eq_refl))) (Some E2) eq_refl eq_refl).
Defined.

(** C1 as stated fails: [F] is partially complete and the persisted error
    is [E1], but the re-enqueue callback returns an error; the handler
    returns the unknown transition with that error, not Failing with
    [E1]. *)
Lemma C1_counterexample :
  v1alpha1.GetOnFailureNode subWithF = Some nodeF /\
  handler.Error (handler.GetWorkflowNodeState
                   (context (Some subWithF) None present (Some enqueueErr))) = Some E1 /\
  executors.RecursiveNodeHandler
    (nodeExecutor (executor (stateOf executors.NodePhasePartiallyComplete None) None))
    subWithF (executors.NewNodeLookup subWithF) nodeF =
    (stateOf executors.NodePhasePartiallyComplete None, None) /\
  executors.PartiallyComplete (stateOf executors.NodePhasePartiallyComplete None) = true /\
  result (HandleFailureNodeOfSubWorkflow
            (executor (stateOf executors.NodePhasePartiallyComplete None) None)
            (context (Some subWithF) None present (Some enqueueErr))
            subWithF (executors.NewNodeLookup subWithF)) world0 =
    Val (handler.UnknownTransition, Some enqueueErr) /\
  ~ exists err,
      result (HandleFailureNodeOfSubWorkflow
                (executor (stateOf executors.NodePhasePartiallyComplete None) None)
                (context (Some subWithF) None present (Some enqueueErr))
                subWithF (executors.NewNodeLookup subWithF)) world0 =
      Val (ephemeral (handler.PhaseInfoFailingErr (Some E1) None), err).
Proof.
  repeat split. intros [err Herr]. vm_compute in Herr. discriminate Herr.
Qed.

(** Node [A] fails with [E1] and the sub-workflow has the failure node
    [F]: the state [{Failing, E1}] is put and the transition is Failing
    with [E1]. *)
Lemma C2_witness :
  made (handleSubWorkflow EndNodeID GetOutputsFile
          (executor (stateOf executors.NodePhaseFailed (Some E1)) None)
          (context (Some subWithF) None present None)
          subWithF (executors.NewNodeLookup subWithF)) world0 =
    [CallRecursiveNodeHandler "sub" "start-node";
     CallPutWorkflowNodeState
       {| handler.Phase := v1alpha1.WorkflowNodePhaseFailing;
          handler.Error := Some E1 |}] /\
  exists err,
    result (handleSubWorkflow EndNodeID GetOutputsFile
              (executor (stateOf executors.NodePhaseFailed (Some E1)) None)
              (context (Some subWithF) None present None)
              subWithF (executors.NewNodeLookup subWithF)) world0 =
    Val (ephemeral (handler.PhaseInfoFailingErr (Some E1) None), err).
Proof.
  exact (C2_failed_puts_failing_state_and_fails EndNodeID GetOutputsFile
           (executor (stateOf executors.NodePhaseFailed (Some E1)) None)
           (context (Some subWithF) None present None)
           subWithF (executors.NewNodeLookup subWithF) world0
           (stateOf executors.NodePhaseFailed (Some E1)) (Some E1)
           eq_refl eq_refl eq_refl).
Defined.

(** A complete sub-workflow without output bindings. *)
Lemma C3_witness :
  calls isLookup
    (made (handleSubWorkflow EndNodeID GetOutputsFile
             (executor (stateOf executors.NodePhaseComplete None) None)
             (context (Some subNoOutputs) None present None)
             subNoOutputs (executors.NewNodeLookup subNoOutputs)) world0) = 0%nat /\
  calls isHead
    (made (handleSubWorkflow EndNodeID GetOutputsFile
             (executor (stateOf executors.NodePhaseComplete None) None)
             (context (Some subNoOutputs) None present None)
             subNoOutputs (executors.NewNodeLookup subNoOutputs)) world0) = 0%nat /\
  calls isCopyRaw
    (made (handleSubWorkflow EndNodeID GetOutputsFile
             (executor (stateOf executors.NodePhaseComplete None) None)
             (context (Some subNoOutputs) None present None)
             subNoOutputs (executors.NewNodeLookup subNoOutputs)) world0) = 0%nat /\
  result (handleSubWorkflow EndNodeID GetOutputsFile
            (executor (stateOf executors.NodePhaseComplete None) None)
            (context (Some subNoOutputs) None present None)
            subNoOutputs (executors.NewNodeLookup subNoOutputs)) world0 =
    Val (ephemeral (handler.PhaseInfoSuccess (Some {| handler.GetOutputInfo := None |})),
         None).
Proof.
  exact (C3_complete_without_outputs_succeeds EndNodeID GetOutputsFile
           (executor (stateOf executors.NodePhaseComplete None) None)
           (context (Some subNoOutputs) None present None)
           subNoOutputs (executors.NewNodeLookup subNoOutputs) world0
           (stateOf executors.NodePhaseComplete None)
           eq_refl eq_refl eq_refl).
Defined.

(** The sub-workflow is complete and binds an output, the end node has
    its status, and the head says there is no outputs file. *)
Lemma C4_witness :
  exists t,
    result (handleSubWorkflow EndNodeID GetOutputsFile
              (executor (stateOf executors.NodePhaseComplete None) None)
              (context (Some subPlain) None absent None)
              subPlain (executors.NewNodeLookup subPlain)) world0 = Val (t, None) /\
    handler.GetPhase (handler.Info t) = handler.EPhaseFailed /\
    t <> handler.UnknownTransition /\
    core.Message <$> handler.GetErr (handler.Info t) =
      Some ("Subworkflow is expected to produce outputs but no outputs file was written to "
            +:+ "s3://bucket/n0/end/outputs.pb" +:+ ".") /\
    calls isCopyRaw
      (made (handleSubWorkflow EndNodeID GetOutputsFile
               (executor (stateOf executors.NodePhaseComplete None) None)
               (context (Some subPlain) None absent None)
               subPlain (executors.NewNodeLookup subPlain)) world0) = 0%nat.
Proof.
  refine (C4_missing_outputs_file_fails EndNodeID GetOutputsFile
            (executor (stateOf executors.NodePhaseComplete None) None)
            (context (Some subPlain) None absent None)
            subPlain (executors.NewNodeLookup subPlain) world0
            (stateOf executors.NodePhaseComplete None)
            {| v1alpha1.GetUniqueNodeID := None;
               v1alpha1.GetUniqueParentNodeID := None;
               v1alpha1.GetParentAttempts := 0%N;
               v1alpha1.GetOutputDir := "s3://bucket/n0/end" |}
            status0 {| storage.Exists := false |}
            eq_refl eq_refl _ eq_refl eq_refl eq_refl).
  discriminate.
Defined.

(** The same, but the head of the store returns an error: the handler
    returns the undefined phase and a nil error. *)
Lemma C5_witness :
  result (handleSubWorkflow EndNodeID GetOutputsFile
            (executor (stateOf executors.NodePhaseComplete None) None)
            (context (Some subPlain) None unreachable None)
            subPlain (executors.NewNodeLookup subPlain)) world0 =
    Val (ephemeral handler.PhaseInfoUndefined, None) /\
  result (handleSubWorkflow EndNodeID GetOutputsFile
            (executor (stateOf executors.NodePhaseComplete None) None)
            (context (Some subPlain) None unreachable None)
            subPlain (executors.NewNodeLookup subPlain)) world0 <>
    Val (ephemeral handler.PhaseInfoUndefined, Some storeErr).
Proof.
  refine (C5_head_error_is_not_returned EndNodeID GetOutputsFile
            (executor (stateOf executors.NodePhaseComplete None) None)
            (context (Some subPlain) None unreachable None)
            subPlain (executors.NewNodeLookup subPlain) world0
            (stateOf executors.NodePhaseComplete None)
            {| v1alpha1.GetUniqueNodeID := None;
               v1alpha1.GetUniqueParentNodeID := None;
               v1alpha1.GetParentAttempts := 0%N;
               v1alpha1.GetOutputDir := "s3://bucket/n0/end" |}
            status0 {| storage.Exists := false |} storeErr
            eq_refl eq_refl _ eq_refl eq_refl).
  discriminate.
Defined.

(** A partially complete sub-workflow, once with a re-enqueue that goes
    through and once with one that fails. *)
Lemma C6_witness :
  (calls isEnqueueOwner
     (made (handleSubWorkflow EndNodeID GetOutputsFile
              (executor (stateOf executors.NodePhasePartiallyComplete None) None)
              (context (Some subPlain) None present None)
              subPlain (executors.NewNodeLookup subPlain)) world0) = 1%nat /\
   result (handleSubWorkflow EndNodeID GetOutputsFile
             (executor (stateOf executors.NodePhasePartiallyComplete None) None)
             (context (Some subPlain) None present None)
             subPlain (executors.NewNodeLookup subPlain)) world0 =
     Val (ephemeral (handler.PhaseInfoRunning None), None)) /\
  (calls isEnqueueOwner
     (made (handleSubWorkflow EndNodeID GetOutputsFile
              (executor (stateOf executors.NodePhasePartiallyComplete None) None)
              (context (Some subPlain) None present (Some enqueueErr))
              subPlain (executors.NewNodeLookup subPlain)) world0) = 1%nat /\
   result (handleSubWorkflow EndNodeID GetOutputsFile
             (executor (stateOf executors.NodePhasePartiallyComplete None) None)
             (context (Some subPlain) None present (Some enqueueErr))
             subPlain (executors.NewNodeLookup subPlain)) world0 =
     Val (handler.UnknownTransition, Some enqueueErr)).
Proof.
  split.
  - destruct (C6_partially_complete_enqueues_once_and_runs EndNodeID GetOutputsFile
                (executor (stateOf executors.NodePhasePartiallyComplete None) None)
                (context (Some subPlain) None present None)
                subPlain (executors.NewNodeLookup subPlain) world0
                (stateOf executors.NodePhasePartiallyComplete None)
                eq_refl eq_refl) as (Honce & Hrun & _).
    exact (conj Honce (Hrun eq_refl)).
  - destruct (C6_partially_complete_enqueues_once_and_runs EndNodeID GetOutputsFile
                (executor (stateOf executors.NodePhasePartiallyComplete None) None)
                (context (Some subPlain) None present (Some enqueueErr))
                subPlain (executors.NewNodeLookup subPlain) world0
                (stateOf executors.NodePhasePartiallyComplete None)
                eq_refl eq_refl) as (Honce & _ & Hfail & _).
    exact (conj Honce (Hfail enqueueErr eq_refl)).
Defined.

(** A later tick on a running sub-workflow: [CheckSubWorkflowStatus]
    reads the inputs and sets them on the start node before the recursive
    pass. *)
Lemma C7_witness :
  exists subWorkflow rest,
    made (CheckSubWorkflowStatus EndNodeID GetOutputsFile ComputeUniqueIDForNode
            (executor (stateOf executors.NodePhaseRunning None) None)
            (context (Some subPlain) None present None)) world0 =
    [CallInputReaderGet;
     CallSetInputsForStartNode (v1alpha1.GetID subWorkflow) (Some [("x", "5")])] ++
    CallRecursiveNodeHandler (v1alpha1.GetID subWorkflow)
      (v1alpha1.GetNodeID (v1alpha1.StartNode subWorkflow)) :: rest.
Proof.
  refine (proj2 (C7_both_entry_points_seed_inputs EndNodeID GetOutputsFile
                   ComputeUniqueIDForNode
                   (executor (stateOf executors.NodePhaseRunning None) None)
                   (context (Some subPlain) None present None) world0) _).
  vm_compute. discriminate.
Defined.

(** C7 as stated fails: on a later tick [CheckSubWorkflowStatus] does
    read the inputs and set them on the start node before the recursive
    pass. *)
Lemma C7_counterexample :
  made (CheckSubWorkflowStatus EndNodeID GetOutputsFile ComputeUniqueIDForNode
          (executor (stateOf executors.NodePhaseRunning None) None)
          (context (Some subPlain) None present None)) world0 =
    [CallInputReaderGet;
     CallSetInputsForStartNode "sub" (Some [("x", "5")]);
     CallRecursiveNodeHandler "sub" "start-node"] /\
  calls isInputSeeding
    (before isRecursiveNodeHandler
       (made (CheckSubWorkflowStatus EndNodeID GetOutputsFile ComputeUniqueIDForNode
                (executor (stateOf executors.NodePhaseRunning None) None)
                (context (Some subPlain) None present None)) world0)) <> 0%nat.
Proof.
  split; [vm_compute; reflexivity | vm_compute; discriminate].
Qed.

(** Two runs in a row on the first attempt. *)
Lemma C8_witness :
  fetchNodeLookupForSubWorkflow ComputeUniqueIDForNode
    (executor (stateOf executors.NodePhaseRunning None) None)
    (context (Some subPlain) None present None) subPlain
    (snd (fetchNodeLookupForSubWorkflow ComputeUniqueIDForNode
            (executor (stateOf executors.NodePhaseRunning None) None)
            (context (Some subPlain) None present None) subPlain world0)) =
  fetchNodeLookupForSubWorkflow ComputeUniqueIDForNode
    (executor (stateOf executors.NodePhaseRunning None) None)
    (context (Some subPlain) None present None) subPlain world0.
Proof.
  exact (proj1 (C8_fetchNodeLookup_is_idempotent ComputeUniqueIDForNode
                  (executor (stateOf executors.NodePhaseRunning None) None)
                  (context (Some subPlain) None present None) subPlain world0)).
Defined.

(** What the first run stamps on node [A]. *)
Example fetchNodeLookup_stamps_A :
  v1alpha1.SubNodeStatus
    (statusAfter (fetchNodeLookupForSubWorkflow ComputeUniqueIDForNode
                    (executor (stateOf executors.NodePhaseRunning None) None)
                    (context (Some subPlain) None present None) subPlain) world0)
    !! "A" =
  Some {| v1alpha1.GetUniqueNodeID := Some "n0-1-A";
          v1alpha1.GetUniqueParentNodeID := Some "n0";
          v1alpha1.GetParentAttempts := 1%N;
          v1alpha1.GetOutputDir := "" |}.
Proof. vm_compute. reflexivity. Qed.

(** An abort on a node whose sub-workflow is not found, and one on a node
    whose sub-workflow is found and whose abort fails. *)
Lemma C9_witness :
  (result (HandleAbort (executor (stateOf executors.NodePhaseRunning None) (Some abortErr))
             (context None None present None) "user abort") world0 =
     Val (Some (fmt_Errorf "failed to find sub workflow with ID [sub]")) /\
   calls isAbortHandler
     (made (HandleAbort (executor (stateOf executors.NodePhaseRunning None) (Some abortErr))
              (context None None present None) "user abort") world0) = 0%nat) /\
  (result (HandleAbort (executor (stateOf executors.NodePhaseRunning None) (Some abortErr))
             (context (Some subPlain) None present None) "user abort") world0 =
     Val (Some abortErr) /\
   made (HandleAbort (executor (stateOf executors.NodePhaseRunning None) (Some abortErr))
           (context (Some subPlain) None present None) "user abort") world0 =
     [CallAbortHandler "sub" "start-node" "user abort"]).
Proof.
  split.
  - destruct (proj1 (C9_abort_resolves_then_forwards
                       (executor (stateOf executors.NodePhaseRunning None) (Some abortErr))
                       (context None None present None) "user abort" world0 "sub"
                       eq_refl) eq_refl) as (Hres & _ & Hnone).
    exact (conj Hres Hnone).
  - exact (proj2 (C9_abort_resolves_then_forwards
                    (executor (stateOf executors.NodePhaseRunning None) (Some abortErr))
                    (context (Some subPlain) None present None) "user abort" world0 "sub"
                    eq_refl) subPlain eq_refl).
Defined.

(** Node [A] fails with [E1] and the state writer fails. *)
Lemma C10_witness :
  result (handleSubWorkflow EndNodeID GetOutputsFile
            (executor (stateOf executors.NodePhaseFailed (Some E1)) None)
            (context (Some subWithF) (Some putErr) present None)
            subWithF (executors.NewNodeLookup subWithF)) world0 =
    Val (ephemeral (handler.PhaseInfoFailingErr (Some E1) None), Some putErr) /\
  result (handleSubWorkflow EndNodeID GetOutputsFile
            (executor (stateOf executors.NodePhaseFailed (Some E1)) None)
            (context (Some subPlain) (Some putErr) present None)
            subPlain (executors.NewNodeLookup subPlain)) world0 =
    Val (ephemeral (handler.PhaseInfoFailureErr (Some E1) None), Some putErr).
Proof.
  split.
  - exact (proj1 (C10_put_error_keeps_failure_transition EndNodeID GetOutputsFile
                    (executor (stateOf executors.NodePhaseFailed (Some E1)) None)
                    (context (Some subWithF) (Some putErr) present None)
                    subWithF (executors.NewNodeLookup subWithF) world0
                    (stateOf executors.NodePhaseFailed (Some E1)) putErr
                    eq_refl eq_refl eq_refl)).
  - exact (proj1 (C10_put_error_keeps_failure_transition EndNodeID GetOutputsFile
                    (executor (stateOf executors.NodePhaseFailed (Some E1)) None)
                    (context (Some subPlain) (Some putErr) present None)
                    subPlain (executors.NewNodeLookup subPlain) world0
                    (stateOf executors.NodePhaseFailed (Some E1)) putErr
                    eq_refl eq_refl eq_refl)).
Defined.

(** The first scenario of the specification: [A] completes and the
    outputs file of [end] exists; the outputs are copied to the outputs
    file of the enclosing node and the transition is Succeeded with that
    file as output. *)
Example start_copies_outputs_and_succeeds :
  result (StartSubWorkflow EndNodeID GetOutputsFile ComputeUniqueIDForNode
            (executor (stateOf executors.NodePhaseComplete None) None)
            (context (Some subPlain) None present None)) world0 =
    Val (ephemeral (handler.PhaseInfoSuccess
           (Some {| handler.GetOutputInfo :=
                      Some {| handler.OutputURI := "s3://bucket/n0/outputs.pb" |} |})),
         None) /\
  made (StartSubWorkflow EndNodeID GetOutputsFile ComputeUniqueIDForNode
          (executor (stateOf executors.NodePhaseComplete None) None)
          (context (Some subPlain) None present None)) world0 =
    [CallInputReaderGet;
     CallSetInputsForStartNode "sub" (Some [("x", "5")]);
     CallRecursiveNodeHandler "sub" "start-node";
     CallLookupNodeExecutionStatus "end-node";
     CallHead "s3://bucket/n0/end/outputs.pb";
     CallCopyRaw "s3://bucket/n0/end/outputs.pb" "s3://bucket/n0/outputs.pb"].
Proof. split; vm_compute; reflexivity. Qed.

(** A node without a sub-workflow reference: the dereference panics. *)
Example abort_without_reference_panics :
  result (HandleAbort (executor (stateOf executors.NodePhaseRunning None) None)
            {| handler.Node := startNode;
               handler.FindSubWorkflow := fun _ => None;
               handler.InputReader_Get := (None, None);
               handler.PutWorkflowNodeState := fun _ => None;
               handler.GetWorkflowNodeState :=
                 {| handler.Phase := v1alpha1.WorkflowNodePhaseRunning;
                    handler.Error := None |};
               handler.DataStore_Head := fun _ => present;
               handler.DataStore_CopyRaw := fun _ _ => None;
               handler.EnqueueOwnerFunc := None;
               handler.CurrentAttempt := 0%N |} "user abort") world0 = Panic.
Proof. reflexivity. Qed.

(** ** The further properties on the scenarios *)

Import cases.

Abbreviation handle := (handleSubWorkflow EndNodeID GetOutputsFile).
Abbreviation startAndHandle := (startAndHandleSubWorkflow EndNodeID GetOutputsFile).
Abbreviation start := (StartSubWorkflow EndNodeID GetOutputsFile ComputeUniqueIDForNode).
Abbreviation fetch := (fetchNodeLookupForSubWorkflow ComputeUniqueIDForNode).
Abbreviation plainLookup := (executors.NewNodeLookup subPlain).

(** The inputs of [n0] cannot be read. *)
Lemma X1_witness :
  result (startAndHandle (executorOf (ok executors.NodePhaseComplete)
                            (ok executors.NodePhaseRunning))
            (contextOf (None, Some readErr) (Some subPlain) None 1)
            subPlain plainLookup) world0 =
    Val (ephemeral (handler.PhaseInfoFailure core.ExecutionError_SYSTEM
                      errors.RuntimeExecutionError
                      "Failed to read input. Error [inputs unreadable]" None), None) /\
  made (startAndHandle (executorOf (ok executors.NodePhaseComplete)
                          (ok executors.NodePhaseRunning))
          (contextOf (None, Some readErr) (Some subPlain) None 1)
          subPlain plainLookup) world0 = [CallInputReaderGet].
Proof.
  exact (X1_input_read_failure_is_a_system_failure EndNodeID GetOutputsFile
           (executorOf (ok executors.NodePhaseComplete) (ok executors.NodePhaseRunning))
           (contextOf (None, Some readErr) (Some subPlain) None 1)
           subPlain plainLookup world0 None readErr eq_refl).
Defined.

(** The inputs are read but cannot be set on the start node. *)
Lemma X2_witness :
  result (startAndHandle (executorOf (stateOf executors.NodePhaseRunning None, Some setErr)
                            (ok executors.NodePhaseRunning))
            (contextOf (inputs, None) (Some subPlain) None 1)
            subPlain plainLookup) world0 =
    Val (ephemeral handler.PhaseInfoUndefined, Some setErr) /\
  made (startAndHandle (executorOf (stateOf executors.NodePhaseRunning None, Some setErr)
                          (ok executors.NodePhaseRunning))
          (contextOf (inputs, None) (Some subPlain) None 1)
          subPlain plainLookup) world0 =
    [CallInputReaderGet; CallSetInputsForStartNode "sub" inputs].
Proof.
  exact (X2_set_inputs_error_is_returned EndNodeID GetOutputsFile
           (executorOf (stateOf executors.NodePhaseRunning None, Some setErr)
              (ok executors.NodePhaseRunning))
           (contextOf (inputs, None) (Some subPlain) None 1)
           subPlain plainLookup world0 inputs (stateOf executors.NodePhaseRunning None)
           setErr eq_refl eq_refl).
Defined.

(** Setting the inputs reports a failed start status with [E2]. *)
Lemma X3_witness :
  result (startAndHandle (executorOf (stateOf executors.NodePhaseFailed (Some E2), None)
                            (ok executors.NodePhaseRunning))
            (contextOf (inputs, None) (Some subPlain) None 1)
            subPlain plainLookup) world0 =
    Val (ephemeral (handler.PhaseInfoFailureErr (Some E2) None), None) /\
  calls isRecursiveNodeHandler
    (made (startAndHandle (executorOf (stateOf executors.NodePhaseFailed (Some E2), None)
                             (ok executors.NodePhaseRunning))
             (contextOf (inputs, None) (Some subPlain) None 1)
             subPlain plainLookup) world0) = 0%nat.
Proof.
  exact (X3_failed_start_status_fails_the_node EndNodeID GetOutputsFile
           (executorOf (stateOf executors.NodePhaseFailed (Some E2), None)
              (ok executors.NodePhaseRunning))
           (contextOf (inputs, None) (Some subPlain) None 1)
           subPlain plainLookup world0 inputs (stateOf executors.NodePhaseFailed (Some E2))
           eq_refl eq_refl eq_refl).
Defined.

(** The recursive pass fails. *)
Lemma X5_witness :
  result (handle (executorOf (ok executors.NodePhaseComplete)
                    (stateOf executors.NodePhaseRunning None, Some passErr))
            (contextOf (inputs, None) (Some subPlain) None 1)
            subPlain plainLookup) world0 =
    Val (ephemeral handler.PhaseInfoUndefined, Some passErr) /\
  made (handle (executorOf (ok executors.NodePhaseComplete)
                  (stateOf executors.NodePhaseRunning None, Some passErr))
          (contextOf (inputs, None) (Some subPlain) None 1)
          subPlain plainLookup) world0 =
    [CallRecursiveNodeHandler "sub" "start-node"].
Proof.
  exact (X5_recursive_pass_error_is_returned EndNodeID GetOutputsFile
           (executorOf (ok executors.NodePhaseComplete)
              (stateOf executors.NodePhaseRunning None, Some passErr))
           (contextOf (inputs, None) (Some subPlain) None 1)
           subPlain plainLookup world0 (stateOf executors.NodePhaseRunning None) passErr
           eq_refl).
Defined.

(** The sub-workflow is complete, the lookup of the end node fails. *)
Lemma X6_witness :
  result (handle (executorOf (ok executors.NodePhaseComplete)
                    (ok executors.NodePhaseComplete))
            (contextOf (inputs, None) (Some subPlain) None 1)
            subPlain lookupFailing) world0 =
    Val (handler.UnknownTransition, Some lookupErr).
Proof.
  refine (proj1 (X6_end_node_lookup_error_is_returned EndNodeID GetOutputsFile
                   (executorOf (ok executors.NodePhaseComplete)
                      (ok executors.NodePhaseComplete))
                   (contextOf (inputs, None) (Some subPlain) None 1)
                   subPlain lookupFailing world0 (stateOf executors.NodePhaseComplete None)
                   None lookupErr status0 eq_refl eq_refl _ eq_refl)).
  discriminate.
Defined.

(** The sub-workflow is complete, the lookup finds no end node. *)
Lemma X7_witness :
  result (handle (executorOf (ok executors.NodePhaseComplete)
                    (ok executors.NodePhaseComplete))
            (contextOf (inputs, None) (Some subPlain) None 1)
            subPlain lookupNothing) world0 =
    Val (ephemeral (handler.PhaseInfoFailure core.ExecutionError_SYSTEM
                      errors.SubWorkflowExecutionFailed
                      "No end node found in subworkflow." None), None).
Proof.
  refine (proj1 (X7_missing_end_node_fails EndNodeID GetOutputsFile
                   (executorOf (ok executors.NodePhaseComplete)
                      (ok executors.NodePhaseComplete))
                   (contextOf (inputs, None) (Some subPlain) None 1)
                   subPlain lookupNothing world0 (stateOf executors.NodePhaseComplete None)
                   status0 eq_refl eq_refl _ eq_refl)).
  discriminate.
Defined.

(** The outputs file of the end node exists and the copy goes through. *)
Lemma X8_witness :
  result (handle (executorOf (ok executors.NodePhaseComplete)
                    (ok executors.NodePhaseComplete))
            (contextOf (inputs, None) (Some subPlain) None 1)
            subPlain plainLookup) world0 =
    Val (ephemeral (handler.PhaseInfoSuccess
                      (Some {| handler.GetOutputInfo :=
                                 Some {| handler.OutputURI := "s3://bucket/n0/outputs.pb" |} |})),
         None) /\
  filter (fun c => isCopyRaw c = true)
    (made (handle (executorOf (ok executors.NodePhaseComplete)
                     (ok executors.NodePhaseComplete))
             (contextOf (inputs, None) (Some subPlain) None 1)
             subPlain plainLookup) world0) =
    [CallCopyRaw "s3://bucket/n0/end/outputs.pb" "s3://bucket/n0/outputs.pb"].
Proof.
  refine (X8_outputs_are_copied_once_to_the_enclosing_node EndNodeID GetOutputsFile
            (executorOf (ok executors.NodePhaseComplete) (ok executors.NodePhaseComplete))
            (contextOf (inputs, None) (Some subPlain) None 1)
            subPlain plainLookup world0 (stateOf executors.NodePhaseComplete None)
            endStatus status0 {| storage.Exists := true |}
            eq_refl eq_refl _ eq_refl eq_refl eq_refl eq_refl).
  discriminate.
Defined.

(** The outputs file of the end node exists and the copy is refused. *)
Lemma X9_witness :
  result (handle (executorOf (ok executors.NodePhaseComplete)
                    (ok executors.NodePhaseComplete))
            (contextOf (inputs, None) (Some subPlain) (Some copyErr) 1)
            subPlain plainLookup) world0 =
    Val (ephemeral (handler.PhaseInfoFailure core.ExecutionError_SYSTEM
                      errors.SubWorkflowExecutionFailed
                      ("Failed to copy subworkflow outputs from ["
                       +:+ "s3://bucket/n0/end/outputs.pb" +:+ "] to ["
                       +:+ "s3://bucket/n0/outputs.pb" +:+ "]") None), None).
Proof.
  refine (X9_copy_failure_is_terminal EndNodeID GetOutputsFile
            (executorOf (ok executors.NodePhaseComplete) (ok executors.NodePhaseComplete))
            (contextOf (inputs, None) (Some subPlain) (Some copyErr) 1)
            subPlain plainLookup world0 (stateOf executors.NodePhaseComplete None)
            endStatus status0 {| storage.Exists := true |} copyErr
            eq_refl eq_refl _ eq_refl eq_refl eq_refl eq_refl).
  discriminate.
Defined.

(** Node [A] fails and the state writer fails too: the error returned is
    the writer's. *)
Lemma X12_witness :
  ephemeral (handler.PhaseInfoFailingErr (Some E1) None) =
    ephemeral handler.PhaseInfoUndefined \/
  exists state,
    executors.RecursiveNodeHandler
      (nodeExecutor (executor (stateOf executors.NodePhaseFailed (Some E1)) None))
      subWithF (executors.NewNodeLookup subWithF) (v1alpha1.StartNode subWithF) =
      (state, None) /\
    executors.HasFailed state = true /\
    handler.PutWorkflowNodeState (context (Some subWithF) (Some putErr) present None)
      {| handler.Phase := v1alpha1.WorkflowNodePhaseFailing;
         handler.Error := executors.Err state |} = Some putErr.
Proof.
  exact (X12_error_comes_with_undefined_phase_or_from_state_writer
           EndNodeID GetOutputsFile
           (executor (stateOf executors.NodePhaseFailed (Some E1)) None)
           (context (Some subWithF) (Some putErr) present None)
           subWithF (executors.NewNodeLookup subWithF) world0
           (ephemeral (handler.PhaseInfoFailingErr (Some E1) None)) putErr eq_refl).
Defined.

(** The copy of the first scenario comes after the head of its source. *)
Lemma X13_witness :
  In (CallHead "s3://bucket/n0/end/outputs.pb")
    (made (handle (executorOf (ok executors.NodePhaseComplete)
                     (ok executors.NodePhaseComplete))
             (contextOf (inputs, None) (Some subPlain) None 1)
             subPlain plainLookup) world0) /\
  exists metadata,
    handler.DataStore_Head (contextOf (inputs, None) (Some subPlain) None 1)
      "s3://bucket/n0/end/outputs.pb" = (metadata, None) /\
    storage.Exists metadata = true.
Proof.
  refine (X13_copy_only_after_head_confirmed_the_file EndNodeID GetOutputsFile
            (executorOf (ok executors.NodePhaseComplete) (ok executors.NodePhaseComplete))
            (contextOf (inputs, None) (Some subPlain) None 1)
            subPlain plainLookup world0
            "s3://bucket/n0/end/outputs.pb" "s3://bucket/n0/outputs.pb" _).
  vm_compute. right. right. right. left. reflexivity.
Defined.

(** The sub-workflow without failure node, failing. *)
Lemma X14_witness :
  result (HandleFailureNodeOfSubWorkflow
            (executor (stateOf executors.NodePhaseComplete None) None)
            (context (Some subPlain) None present None) subPlain plainLookup) world0 =
    Val (ephemeral (handler.PhaseInfoFailureErr (Some E1) None), None) /\
  made (HandleFailureNodeOfSubWorkflow
          (executor (stateOf executors.NodePhaseComplete None) None)
          (context (Some subPlain) None present None) subPlain plainLookup) world0 =
    [CallGetWorkflowNodeState].
Proof.
  exact (X14_no_failure_node_fails_with_persisted_error
           (executor (stateOf executors.NodePhaseComplete None) None)
           (context (Some subPlain) None present None) subPlain plainLookup world0
           eq_refl).
Defined.

(** [F] is still running. *)
Lemma X15_witness :
  result (HandleFailureNodeOfSubWorkflow
            (executor (stateOf executors.NodePhaseRunning None) None)
            (context (Some subWithF) None present None)
            subWithF (executors.NewNodeLookup subWithF)) world0 =
    Val (ephemeral (handler.PhaseInfoRunning None), None) /\
  calls isEnqueueOwner
    (made (HandleFailureNodeOfSubWorkflow
             (executor (stateOf executors.NodePhaseRunning None) None)
             (context (Some subWithF) None present None)
             subWithF (executors.NewNodeLookup subWithF)) world0) = 0%nat.
Proof.
  exact (X15_running_failure_node_reports_running
           (executor (stateOf executors.NodePhaseRunning None) None)
           (context (Some subWithF) None present None)
           subWithF (executors.NewNodeLookup subWithF) world0 nodeF
           (stateOf executors.NodePhaseRunning None) eq_refl eq_refl eq_refl).
Defined.

(** A failing node whose sub-workflow is not found. *)
Lemma X17_witness :
  result (HandleFailingSubWorkflow
            (executor (stateOf executors.NodePhaseRunning None) None)
            (context None None present None)) world0 =
    Val (ephemeral (handler.PhaseInfoFailure core.ExecutionError_SYSTEM
                      errors.SubWorkflowExecutionFailed
                      "failed to find sub workflow with ID [sub]" None), None) /\
  made (HandleFailingSubWorkflow
          (executor (stateOf executors.NodePhaseRunning None) None)
          (context None None present None)) world0 = [].
Proof.
  exact (X17_failing_unresolved_subworkflow_fails
           (executor (stateOf executors.NodePhaseRunning None) None)
           (context None None present None) world0 "sub" eq_refl eq_refl).
Defined.

(** A failing node without failure node, and one with [F] complete. *)
Lemma X18_witness :
  HandleFailingSubWorkflow (executor (stateOf executors.NodePhaseComplete None) None)
    (context (Some subPlain) None present None) world0 =
  HandleFailureNodeOfSubWorkflow (executor (stateOf executors.NodePhaseComplete None) None)
    (context (Some subPlain) None present None) subPlain plainLookup world0 /\
  HandleFailingSubWorkflow (executor (stateOf executors.NodePhaseComplete None) None)
    (context (Some subWithF) None present None) world0 =
  HandleFailureNodeOfSubWorkflow (executor (stateOf executors.NodePhaseComplete None) None)
    (context (Some subWithF) None present None) subWithF
    (executors.NewNodeLookup subWithF) world0.
Proof.
  split.
  - exact (X18_failing_entry_point_is_failure_node_handling
             (executor (stateOf executors.NodePhaseComplete None) None)
             (context (Some subPlain) None present None) world0 "sub" subPlain
             eq_refl eq_refl).
  - exact (X18_failing_entry_point_is_failure_node_handling
             (executor (stateOf executors.NodePhaseComplete None) None)
             (context (Some subWithF) None present None) world0 "sub" subWithF
             eq_refl eq_refl).
Defined.

(** A first tick on a node whose sub-workflow is not found. *)
Lemma X19_witness :
  result (start (executor (stateOf executors.NodePhaseRunning None) None)
            (context None None present None)) world0 =
    Val (ephemeral (handler.PhaseInfoFailure core.ExecutionError_SYSTEM
                      errors.SubWorkflowExecutionFailed
                      "failed to find sub workflow with ID [sub]" None), None) /\
  made (start (executor (stateOf executors.NodePhaseRunning None) None)
          (context None None present None)) world0 = [] /\
  statusAfter (start (executor (stateOf executors.NodePhaseRunning None) None)
                 (context None None present None)) world0 = status0.
Proof.
  exact (proj1 (X19_unresolved_subworkflow_fails_without_effect
                  EndNodeID GetOutputsFile ComputeUniqueIDForNode
                  (executor (stateOf executors.NodePhaseRunning None) None)
                  (context None None present None) world0 "sub" eq_refl eq_refl)).
Defined.

(** A first tick on a status whose entry for [A] cannot be read. *)
Lemma X20_witness :
  result (start (executor (stateOf executors.NodePhaseRunning None) None)
            (context (Some subPlain) None present None)) worldBroken =
    Val (handler.UnknownTransition, Some lookupErr) /\
  made (start (executor (stateOf executors.NodePhaseRunning None) None)
          (context (Some subPlain) None present None)) worldBroken = [].
Proof.
  refine (X20_stamping_error_is_returned_before_any_call
            EndNodeID GetOutputsFile ComputeUniqueIDForNode
            (executor (stateOf executors.NodePhaseRunning None) None)
            (context (Some subPlain) None present None) worldBroken "sub" subPlain
            lookupErr eq_refl eq_refl _).
  vm_compute. reflexivity.
Defined.

(** An enclosing node without unique id: stamping panics on the start
    node. *)
Lemma X22_witness :
  result (fetch (executor (stateOf executors.NodePhaseRunning None) None)
            (context (Some subPlain) None present None) subPlain) worldAnonymous = Panic.
Proof.
  exact (X22_nil_unique_id_panics_on_first_node ComputeUniqueIDForNode
           (executor (stateOf executors.NodePhaseRunning None) None)
           (context (Some subPlain) None present None) subPlain worldAnonymous eq_refl).
Defined.

(** Attempt 2 after attempt 1 leaves what attempt 2 alone leaves. *)
Lemma X23_witness :
  statusAfter (fetch (executor (stateOf executors.NodePhaseRunning None) None)
                 (contextOf (inputs, None) (Some subPlain) None 2) subPlain)
    (snd (fetch (executor (stateOf executors.NodePhaseRunning None) None)
            (contextOf (inputs, None) (Some subPlain) None 1) subPlain world0)) =
  statusAfter (fetch (executor (stateOf executors.NodePhaseRunning None) None)
                 (contextOf (inputs, None) (Some subPlain) None 2) subPlain) world0.
Proof.
  refine (proj2 (X23_later_attempt_overwrites_earlier_stamps ComputeUniqueIDForNode
                   (executor (stateOf executors.NodePhaseRunning None) None)
                   (contextOf (inputs, None) (Some subPlain) None 1)
                   (contextOf (inputs, None) (Some subPlain) None 2)
                   subPlain world0 plainLookup _)).
  vm_compute. reflexivity.
Defined.

(** What attempt 2 leaves on node [A] after attempt 1. *)
Example second_attempt_restamps_A :
  v1alpha1.SubNodeStatus
    (statusAfter (fetch (executor (stateOf executors.NodePhaseRunning None) None)
                    (contextOf (inputs, None) (Some subPlain) None 2) subPlain)
       (snd (fetch (executor (stateOf executors.NodePhaseRunning None) None)
               (contextOf (inputs, None) (Some subPlain) None 1) subPlain world0)))
    !! "A" =
  Some {| v1alpha1.GetUniqueNodeID := Some "n0-2-A";
          v1alpha1.GetUniqueParentNodeID := Some "n0";
          v1alpha1.GetParentAttempts := 2%N;
          v1alpha1.GetOutputDir := "" |}.
Proof. vm_compute. reflexivity. Qed.

Abbreviation register :=
  (cmd.createMutationConfig "flyte-pod-webhook.flyte.org" "pod" "v1" "/mutate--v1-pod").

(** No client. *)
Lemma X24_witness :
  register inPod (fun _ => (client (pod, None) None (existing, None) None, Some denied_err))
    config caCert =
    (Some (fmt_Errorf "failed to create kubeclient. Error: forbidden"), []) /\
  cmd.deleteMutationConfig
    (fun _ => (client (pod, None) None (existing, None) None, Some denied_err)) config =
    (Some (fmt_Errorf "failed to create kubeclient. Error: forbidden"), []).
Proof.
  exact (X24_no_client_no_request "flyte-pod-webhook.flyte.org" "pod" "v1"
           "/mutate--v1-pod" inPod
           (fun _ => (client (pod, None) None (existing, None) None, Some denied_err))
           config caCert (client (pod, None) None (existing, None) None) denied_err
           eq_refl).
Defined.

(** Inside a pod that cannot be fetched. *)
Lemma X25_witness :
  register inPod (fun _ => (client (pod, Some gone_err) None (existing, None) None, None))
    config caCert =
    (Some (fmt_Errorf "failed to get pod. Error: not found"),
     [k8s.PodsGet "flyte" "webhook-7d9f"]).
Proof.
  exact (X25_pod_lookup_failure_stops_registration "flyte-pod-webhook.flyte.org" "pod"
           "v1" "/mutate--v1-pod" inPod
           (fun _ => (client (pod, Some gone_err) None (existing, None) None, None))
           config caCert (client (pod, Some gone_err) None (existing, None) None)
           "webhook-7d9f" "flyte" pod gone_err eq_refl eq_refl eq_refl eq_refl).
Defined.

(** Inside the pod: the configuration is named after the pod and owned by
    it. *)
Lemma X26_witness :
  k8s.ObjectNamespace submittedInPod = "flyte" /\
  (exists wh,
     k8s.Webhooks submittedInPod = [wh] /\
     k8s.CABundle (k8s.ClientConfig wh) = caCert /\
     k8s.Service (k8s.ClientConfig wh) =
       Some {| k8s.ServiceNamespace := "flyte";
               k8s.ServiceName := "flyte-pod-webhook";
               k8s.Path := Some "/mutate--v1-pod" |}) /\
  exists p,
    (pod, @None error) = (p, None) /\
    k8s.ObjectName submittedInPod = k8s.PodName p /\
    k8s.OwnerReferences submittedInPod = [cmd.ownerOf "pod" "v1" p].
Proof.
  refine (X26_submitted_configuration "flyte-pod-webhook.flyte.org" "pod" "v1"
            "/mutate--v1-pod" inPod
            (fun _ => (client (pod, None) None (existing, None) None, None))
            config caCert (client (pod, None) None (existing, None) None)
            submittedInPod eq_refl _).
  vm_compute. right. left. reflexivity.
Defined.

(** Outside a pod, the name is taken and the existing configuration
    cannot be read. *)
Lemma X27_witness :
  fst (register outsidePod
         (fun _ => (client (pod, None) (Some exists_err) (existing, Some gone_err) None,
                    None)) config caCert) = Some exists_err /\
  filter (fun r => k8s.isConfigRequest r = true)
    (snd (register outsidePod
            (fun _ => (client (pod, None) (Some exists_err) (existing, Some gone_err) None,
                       None)) config caCert)) =
    [k8s.ConfigCreate submittedOutsidePod; k8s.ConfigGet "flyte-pod-webhook"].
Proof.
  refine (X27_unreadable_existing_configuration_returns_create_error
            "flyte-pod-webhook.flyte.org" "pod" "v1" "/mutate--v1-pod" outsidePod
            (fun _ => (client (pod, None) (Some exists_err) (existing, Some gone_err) None,
                       None))
            config caCert
            (client (pod, None) (Some exists_err) (existing, Some gone_err) None)
            submittedOutsidePod exists_err existing gone_err eq_refl _ eq_refl eq_refl).
  vm_compute. left. reflexivity.
Defined.

(** Outside a pod, the name is taken and the existing configuration is
    updated. *)
Lemma X28_witness :
  fst (register outsidePod
         (fun _ => (client (pod, None) (Some exists_err) (existing, None) None, None))
         config caCert) = None /\
  filter (fun r => k8s.isConfigRequest r = true)
    (snd (register outsidePod
            (fun _ => (client (pod, None) (Some exists_err) (existing, None) None, None))
            config caCert)) =
    [k8s.ConfigCreate submittedOutsidePod; k8s.ConfigGet "flyte-pod-webhook";
     k8s.ConfigUpdate
       {| k8s.ObjectName := "flyte-pod-webhook";
          k8s.ObjectNamespace := "flyte";
          k8s.OwnerReferences := [];
          k8s.Webhooks := k8s.Webhooks submittedOutsidePod |}].
Proof.
  refine (X28_existing_configuration_gets_the_new_webhooks
            "flyte-pod-webhook.flyte.org" "pod" "v1" "/mutate--v1-pod" outsidePod
            (fun _ => (client (pod, None) (Some exists_err) (existing, None) None, None))
            config caCert
            (client (pod, None) (Some exists_err) (existing, None) None)
            submittedOutsidePod exists_err existing eq_refl _ eq_refl eq_refl).
  vm_compute. left. reflexivity.
Defined.

(** Inside the pod, the creation goes through. *)
Lemma X29_witness :
  fst (register inPod
         (fun _ => (client (pod, None) None (existing, None) None, None))
         config caCert) = None /\
  filter (fun r => k8s.isConfigRequest r = true)
    (snd (register inPod
            (fun _ => (client (pod, None) None (existing, None) None, None))
            config caCert)) =
    [k8s.ConfigCreate submittedInPod].
Proof.
  refine (X29_successful_creation_is_the_last_request
            "flyte-pod-webhook.flyte.org" "pod" "v1" "/mutate--v1-pod" inPod
            (fun _ => (client (pod, None) None (existing, None) None, None))
            config caCert (client (pod, None) None (existing, None) None)
            submittedInPod eq_refl _ eq_refl).
  vm_compute. right. left. reflexivity.
Defined.

(** Inside the pod the configuration created is named after the pod; the
    deletion asks for the configured name. *)
Lemma X30_witness :
  cmd.deleteMutationConfig
    (fun _ => (client (pod, None) None (existing, None) None, None)) config =
    (None, [k8s.ConfigDelete "flyte-pod-webhook"]) /\
  ~ In (k8s.ConfigDelete (k8s.ObjectName submittedInPod))
      (snd (cmd.deleteMutationConfig
              (fun _ => (client (pod, None) None (existing, None) None, None)) config)).
Proof.
  destruct (X30_delete_targets_the_configured_name
              "flyte-pod-webhook.flyte.org" "pod" "v1" "/mutate--v1-pod" inPod
              (fun _ => (client (pod, None) None (existing, None) None, None))
              config caCert (client (pod, None) None (existing, None) None) eq_refl)
    as (Hdel & Hnot).
  split; [exact Hdel|].
  refine (Hnot "webhook-7d9f" "flyte" pod submittedInPod eq_refl eq_refl eq_refl _ _).
  - vm_compute. discriminate.
  - vm_compute. right. left. reflexivity.
Defined.
